(** * Salon reservation API: conflict model and request validation

    A shallow embedding of [src/main.py] (FastAPI handlers over a hosted
    table) together with the properties of its availability / conflict
    model and of its validation layer.

    Layout:
    - the Python primitives the code relies on: [str.split(":")],
      [str.zfill(2)], [sorted], [date] / [time] with [strftime] and
      [fromisoformat];
    - the request and response models with their validators;
    - the table the handlers talk to and its query interface;
    - the handlers and the request dispatcher;
    - the theorems. *)

From Stdlib Require Import String Ascii List ZArith Arith Bool Lia.
From Stdlib Require Import Sorting.Sorted Sorting.Permutation Sorting.Mergesort.
From Stdlib Require Import Orders.
Import ListNotations.
Local Open Scope string_scope.
Local Open Scope list_scope.

Set Implicit Arguments.

(* ===================================================================== *)
(** ** Python string primitives                                           *)
(* ===================================================================== *)

Definition colon : ascii := ":"%char.

(** [v.split(":")]: the segments between colons; a string with [n]
    colons has [n + 1] segments, and the empty string has one. *)
Fixpoint split_colon (s : string) : list string :=
  match s with
  | EmptyString => [EmptyString]
  | String c rest =>
      if Ascii.eqb c colon then EmptyString :: split_colon rest
      else match split_colon rest with
           | [] => [String c EmptyString]
           | p :: ps => String c p :: ps
           end
  end.

Definition is_sign (c : ascii) : bool :=
  Ascii.eqb c "+"%char || Ascii.eqb c "-"%char.

Fixpoint zeros (n : nat) : string :=
  match n with
  | O => EmptyString
  | S k => String "0"%char (zeros k)
  end.

(** [s.zfill(width)]: left-pad with ["0"] up to [width]; a leading sign
    stays in front of the padding; a string already that long is
    returned as it is. *)
Definition zfill (width : nat) (s : string) : string :=
  if (width <=? String.length s)%nat then s
  else
    let fill := zeros (width - String.length s) in
    match s with
    | String c rest => if is_sign c then String c (fill ++ rest) else fill ++ s
    | EmptyString => fill
    end.

Definition is_digit (c : ascii) : bool :=
  (48 <=? N_of_ascii c)%N && (N_of_ascii c <=? 57)%N.

Fixpoint count_colons (s : string) : nat :=
  match s with
  | EmptyString => 0
  | String c rest => (if Ascii.eqb c colon then 1 else 0) + count_colons rest
  end.

(** [sorted(xs)] for a key order [leb]: a stable insertion sort. For a
    total order whose ties are equal values the result is the only sorted
    rearrangement, so it is the list Python's sort returns. *)
Section Sorted.
Variable A : Type.
Variable leb : A -> A -> bool.

Fixpoint insert_sorted (x : A) (l : list A) : list A :=
  match l with
  | [] => [x]
  | y :: tl => if leb x y then x :: l else y :: insert_sorted x tl
  end.

Fixpoint sorted (l : list A) : list A :=
  match l with
  | [] => []
  | x :: tl => insert_sorted x (sorted tl)
  end.
End Sorted.

(* ===================================================================== *)
(** ** Dates and times of day                                             *)
(* ===================================================================== *)

(** [datetime.date] and [datetime.time]. Fractions of a second and UTC
    offsets are left out: [strftime("%H:%M:%S")] discards both, and every
    time the handlers write goes through it. *)
Record date : Type := mkdate { year : N; month : N; day : N }.
Record time : Type := mktime { hour : N; minute : N; second : N }.

Definition is_leap (y : N) : bool :=
  ((y mod 4 =? 0) && negb (y mod 100 =? 0) || (y mod 400 =? 0))%N.

Definition days_in_month (y m : N) : N :=
  (match m with
   | 2 => if is_leap y then 29 else 28
   | 4 | 6 | 9 | 11 => 30
   | _ => 31
   end)%N.

(** The values the two Python classes can hold. *)
Definition date_ok (d : date) : bool :=
  ((1 <=? year d) && (year d <=? 9999) && (1 <=? month d) && (month d <=? 12)
   && (1 <=? day d) && (day d <=? days_in_month (year d) (month d)))%N.

Definition time_ok (t : time) : bool :=
  ((hour t <? 24) && (minute t <? 60) && (second t <? 60))%N.

Definition digit_char (n : N) : ascii := ascii_of_N (48 + n).

Definition digit_val (c : ascii) : option N :=
  if is_digit c then Some (N_of_ascii c - 48)%N else None.

Definition pad2 (n : N) : string :=
  String (digit_char (n / 10)) (String (digit_char (n mod 10)) EmptyString).

Definition pad4 (n : N) : string :=
  String (digit_char (n / 1000))
    (String (digit_char ((n / 100) mod 10)) (pad2 (n mod 100))).

Definition parse2 (a b : ascii) : option N :=
  match digit_val a, digit_val b with
  | Some x, Some y => Some (10 * x + y)%N
  | _, _ => None
  end.

Definition parse4 (a b c d : ascii) : option N :=
  match parse2 a b, parse2 c d with
  | Some x, Some y => Some (100 * x + y)%N
  | _, _ => None
  end.

(** [d.strftime("%Y-%m-%d")], with the four-digit year of the Python
    documentation. The width of [%Y] is the C library's: some print a
    year below 1000 without leading zeros, a text that [fromisoformat]
    does not read back. Statements about an answer that depends on a
    printed date being read back assume the year is 1000 or later
    ([full_year] below). *)
Definition date_strftime (d : date) : string :=
  pad4 (year d) ++ "-" ++ pad2 (month d) ++ "-" ++ pad2 (day d).

(** [t.strftime("%H:%M:%S")] *)
Definition time_strftime (t : time) : string :=
  pad2 (hour t) ++ ":" ++ pad2 (minute t) ++ ":" ++ pad2 (second t).

(** [t.strftime("%H:%M")], used in the conflict messages. *)
Definition time_strftime_HM (t : time) : string :=
  pad2 (hour t) ++ ":" ++ pad2 (minute t).

(** [date.fromisoformat] on the extended form [YYYY-MM-DD]; [None] stands
    for the [ValueError]. *)
Definition date_fromisoformat (s : string) : option date :=
  match s with
  | String y1 (String y2 (String y3 (String y4 (String c1
      (String m1 (String m2 (String c2
        (String d1 (String d2 EmptyString))))))))) =>
      if Ascii.eqb c1 "-"%char && Ascii.eqb c2 "-"%char then
        match parse4 y1 y2 y3 y4, parse2 m1 m2, parse2 d1 d2 with
        | Some y, Some m, Some d =>
            let v := mkdate y m d in if date_ok v then Some v else None
        | _, _, _ => None
        end
      else None
  | _ => None
  end.

(** [time.fromisoformat] on the seconds-resolution form [HH:MM:SS], the
    form in which the table hands times back; [None] stands for the
    [ValueError]. *)
Definition time_fromisoformat (s : string) : option time :=
  match s with
  | String h1 (String h2 (String c1 (String m1 (String m2 (String c2
      (String s1 (String s2 EmptyString))))))) =>
      if Ascii.eqb c1 colon && Ascii.eqb c2 colon then
        match parse2 h1 h2, parse2 m1 m2, parse2 s1 s2 with
        | Some h, Some m, Some sec =>
            let v := mktime h m sec in if time_ok v then Some v else None
        | _, _, _ => None
        end
      else None
  | _ => None
  end.

(** Comparison of [time] values, as [sorted] and [in] use it. *)
Definition time_eqb (a b : time) : bool :=
  ((hour a =? hour b) && (minute a =? minute b) && (second a =? second b))%N.

Definition time_leb (a b : time) : bool :=
  ((hour a <? hour b)
   || (hour a =? hour b)
      && ((minute a <? minute b)
          || (minute a =? minute b) && (second a <=? second b)))%N.

(** [t in ts] *)
Definition time_in (t : time) (ts : list time) : bool := existsb (time_eqb t) ts.

(* ===================================================================== *)
(** ** Request and response models                                        *)
(* ===================================================================== *)

Inductive ReservationStatus : Type := SCHEDULED | COMPLETED | CANCELLED.

Definition value (s : ReservationStatus) : string :=
  match s with
  | SCHEDULED => "scheduled"
  | COMPLETED => "completed"
  | CANCELLED => "cancelled"
  end.

Definition status_eqb (a b : ReservationStatus) : bool :=
  match a, b with
  | SCHEDULED, SCHEDULED | COMPLETED, COMPLETED | CANCELLED, CANCELLED => true
  | _, _ => false
  end.

(** Identifiers are opaque tokens; only equality on them is used. *)
Definition UUID : Type := N.

Definition DEFAULT_DURATION_MINUTES : Z := 60.

(** What the [reservation_time] field may hold before validation: the
    validators branch on [isinstance(v, str)]. *)
Inductive raw_value : Type :=
| RawStr (s : string)
| RawNone.

Module ReservationCreate.

Record t : Type := mk {
  customer_name : string;
  phone_number : string;
  reservation_date : date;
  reservation_time : time;
  stylist_name : string;
  service_menu : string;
  duration_minutes : Z;
  notes : option string
}.

(** [validate_duration]: [None] stands for the [ValueError]. *)
Definition validate_duration (v : Z) : option Z :=
  if (v <=? 0)%Z then None else Some v.

Definition normalize_time (v : raw_value) : raw_value :=
  match v with
  | RawStr s =>
      match split_colon s with
      | [hour; minute] => RawStr (zfill 2 hour ++ ":" ++ minute ++ ":00")
      | [hour; minute; second] =>
          RawStr (zfill 2 hour ++ ":" ++ minute ++ ":" ++ second)
      | _ => v
      end
  | _ => v
  end.

(** The request body as it arrives. An absent [duration_minutes] takes
    the default, on which the validator does not run. *)
Record body : Type := mk_body {
  body_customer_name : string;
  body_phone_number : string;
  body_reservation_date : string;
  body_reservation_time : raw_value;
  body_stylist_name : string;
  body_service_menu : string;
  body_duration_minutes : option Z;
  body_notes : option string
}.

(** Model validation: every field is parsed and every validator run; the
    body is rejected when any of them fails. The date is read in the form
    [YYYY-MM-DD] and the normalised time in the form [HH:MM:SS]; the other
    forms the validation library reads (fractions of a second, UTC
    offsets, datetime strings) are outside this model, which rejects
    them. *)
Definition model_validate (b : body) : option t :=
  let d := date_fromisoformat (body_reservation_date b) in
  let tm := match normalize_time (body_reservation_time b) with
            | RawStr s => time_fromisoformat s
            | RawNone => None
            end in
  let dur := match body_duration_minutes b with
             | Some v => validate_duration v
             | None => Some DEFAULT_DURATION_MINUTES
             end in
  match d, tm, dur with
  | Some d', Some tm', Some dur' =>
      Some (mk (body_customer_name b) (body_phone_number b) d' tm'
              (body_stylist_name b) (body_service_menu b) dur' (body_notes b))
  | _, _, _ => None
  end.

End ReservationCreate.

Module ReservationUpdate.

Record t : Type := mk {
  reservation_date : option date;
  reservation_time : option time;
  stylist_name : option string;
  service_menu : option string;
  duration_minutes : option Z;
  notes : option string
}.

(** [validate_duration]: [None] stands for the [ValueError]. *)
Definition validate_duration (v : option Z) : option (option Z) :=
  match v with
  | Some d => if (d <=? 0)%Z then None else Some v
  | None => Some v
  end.

Definition normalize_time (v : raw_value) : raw_value :=
  match v with
  | RawStr s =>
      match split_colon s with
      | [hour; minute] => RawStr (zfill 2 hour ++ ":" ++ minute ++ ":00")
      | [hour; minute; second] =>
          RawStr (zfill 2 hour ++ ":" ++ minute ++ ":" ++ second)
      | _ => v
      end
  | _ => v
  end.

Record body : Type := mk_body {
  body_reservation_date : option string;
  body_reservation_time : raw_value;
  body_stylist_name : option string;
  body_service_menu : option string;
  body_duration_minutes : option Z;
  body_notes : option string
}.

(** Model validation, with the input forms of [ReservationCreate]: a date
    as [YYYY-MM-DD], a normalised time as [HH:MM:SS]; other forms are
    outside this model, which rejects them. *)
Definition model_validate (b : body) : option t :=
  let d := match body_reservation_date b with
           | Some s => option_map Some (date_fromisoformat s)
           | None => Some None
           end in
  let tm := match normalize_time (body_reservation_time b) with
            | RawStr s => option_map Some (time_fromisoformat s)
            | RawNone => Some None
            end in
  match d, tm, validate_duration (body_duration_minutes b) with
  | Some d', Some tm', Some dur' =>
      Some (mk d' tm' (body_stylist_name b) (body_service_menu b) dur'
              (body_notes b))
  | _, _, _ => None
  end.

End ReservationUpdate.

Module ReservationResponse.
Record t : Type := mk {
  reservation_id : UUID;
  customer_name : string;
  phone_number : string;
  reservation_date : date;
  reservation_time : time;
  stylist_name : string;
  service_menu : string;
  duration_minutes : Z;
  status : string;
  notes : option string;
  created_at : N;
  updated_at : N
}.
End ReservationResponse.

Module ReservationCreateResponse.
Record t : Type := mk {
  message : string;
  reservation_id : UUID;
  reservation : ReservationResponse.t
}.
End ReservationCreateResponse.

Module AvailabilityResponse.
Record t : Type := mk {
  date_ : date;
  stylist_name : string;
  booked_slots : list time;
  available_slots : list time
}.
End AvailabilityResponse.

(* ===================================================================== *)
(** ** The table                                                          *)
(* ===================================================================== *)

(** A record of [salon_reservations] as the client hands it to the
    handlers: dates and times are text, timestamps are the table's own
    and are read here off a logical clock. *)
Module Row.
Record t : Type := mk {
  reservation_id : UUID;
  customer_name : string;
  phone_number : string;
  reservation_date : string;
  reservation_time : string;
  stylist_name : string;
  service_menu : string;
  duration_minutes : Z;
  status : ReservationStatus;
  notes : option string;
  created_at : N;
  updated_at : N
}.
End Row.

(** The [reservation_data] dictionary of [create_reservation]: its nine
    keys are always present. *)
Module ReservationData.
Record t : Type := mk {
  customer_name : string;
  phone_number : string;
  reservation_date : string;
  reservation_time : string;
  stylist_name : string;
  service_menu : string;
  duration_minutes : Z;
  status : ReservationStatus;
  notes : option string
}.
End ReservationData.

(** The dictionaries passed to [update]: a key is present ([Some]) or
    absent ([None]). [modify_reservation] fills the first six keys,
    [cancel_reservation] only [status]. *)
Module UpdateData.
Record t : Type := mk {
  reservation_date : option string;
  reservation_time : option string;
  stylist_name : option string;
  service_menu : option string;
  duration_minutes : option Z;
  notes : option string;
  status : option ReservationStatus
}.

Definition empty : t := mk None None None None None None None.

(** [update_data.get(key, default)] *)
Definition get {A : Type} (field : option A) (default : A) : A :=
  match field with
  | Some v => v
  | None => default
  end.
End UpdateData.

(** The filters the handlers chain on a query. *)
Inductive Filter : Type :=
| eq_reservation_id (v : UUID)
| neq_reservation_id (v : UUID)
| eq_phone_number (v : string)
| eq_stylist_name (v : string)
| eq_reservation_date (v : string)
| eq_reservation_time (v : string)
| eq_status (v : string).

Inductive OrderColumn : Type := by_reservation_date | by_reservation_time.

Inductive StoreCall : Type := SELECT | INSERT | UPDATE.

(** The hosted store: the rows of [salon_reservations], the clock that
    stamps [created_at] / [updated_at], and the round-trips made so far. *)
Record Database : Type := mkDatabase {
  salon_reservations : list Row.t;
  clock : N;
  calls : list StoreCall
}.

Definition matches (f : Filter) (r : Row.t) : bool :=
  match f with
  | eq_reservation_id v => N.eqb (Row.reservation_id r) v
  | neq_reservation_id v => negb (N.eqb (Row.reservation_id r) v)
  | eq_phone_number v => String.eqb (Row.phone_number r) v
  | eq_stylist_name v => String.eqb (Row.stylist_name r) v
  | eq_reservation_date v => String.eqb (Row.reservation_date r) v
  | eq_reservation_time v => String.eqb (Row.reservation_time r) v
  | eq_status v => String.eqb (value (Row.status r)) v
  end.

Definition matches_all (fs : list Filter) (r : Row.t) : bool :=
  forallb (fun f => matches f r) fs.

Definition order_key (c : OrderColumn) (r : Row.t) : string :=
  match c with
  | by_reservation_date => Row.reservation_date r
  | by_reservation_time => Row.reservation_time r
  end.

(** [ORDER BY c1, c2, ...]: lexicographic on the listed columns. *)
Fixpoint order_leb (cs : list OrderColumn) (a b : Row.t) : bool :=
  match cs with
  | [] => true
  | c :: rest =>
      match String.compare (order_key c a) (order_key c b) with
      | Lt => true
      | Gt => false
      | Eq => order_leb rest a b
      end
  end.

(** A fresh identifier: one the table does not hold. *)
Definition fresh_id (rows : list Row.t) : UUID :=
  N.succ (fold_right N.max 0%N (map Row.reservation_id rows)).

Definition new_row (id : UUID) (now : N) (d : ReservationData.t) : Row.t :=
  Row.mk id
    (ReservationData.customer_name d) (ReservationData.phone_number d)
    (ReservationData.reservation_date d) (ReservationData.reservation_time d)
    (ReservationData.stylist_name d) (ReservationData.service_menu d)
    (ReservationData.duration_minutes d) (ReservationData.status d)
    (ReservationData.notes d) now now.

(** Writing the present keys of an update dictionary into a row; the
    absent keys keep the stored value. *)
Definition apply_update (u : UpdateData.t) (now : N) (r : Row.t) : Row.t :=
  Row.mk (Row.reservation_id r) (Row.customer_name r) (Row.phone_number r)
    (UpdateData.get (UpdateData.reservation_date u) (Row.reservation_date r))
    (UpdateData.get (UpdateData.reservation_time u) (Row.reservation_time r))
    (UpdateData.get (UpdateData.stylist_name u) (Row.stylist_name r))
    (UpdateData.get (UpdateData.service_menu u) (Row.service_menu r))
    (UpdateData.get (UpdateData.duration_minutes u) (Row.duration_minutes r))
    (UpdateData.get (UpdateData.status u) (Row.status r))
    (match UpdateData.notes u with Some v => Some v | None => Row.notes r end)
    (Row.created_at r) now.

(* ===================================================================== *)
(** ** Handlers run against the store                                     *)
(* ===================================================================== *)

(** [HTTPException(status_code=...)]; the detail text is left out. *)
Record HTTPException : Type := mkHTTPException { status_code : nat }.

Definition HTTP_404_NOT_FOUND : nat := 404.
Definition HTTP_409_CONFLICT : nat := 409.
Definition HTTP_422_UNPROCESSABLE : nat := 422.
Definition HTTP_500_INTERNAL_SERVER_ERROR : nat := 500.

(** A handler step: it may raise, and what it did to the store before
    raising stays done. *)
Definition M (A : Type) : Type := Database -> (HTTPException + A) * Database.

Definition ret {A : Type} (a : A) : M A := fun db => (inr a, db).

Definition raise {A : Type} (code : nat) : M A :=
  fun db => (inl (mkHTTPException code), db).

Definition bind {A B : Type} (m : M A) (k : A -> M B) : M B :=
  fun db =>
    match m db with
    | (inl e, db') => (inl e, db')
    | (inr a, db') => k a db'
    end.

Notation "x <- m ;; k" := (bind m (fun x => k))
  (at level 61, m at next level, right associativity).

(** [except Exception: raise HTTPException(500)], around a call that
    raises an [HTTPException] of its own. *)
Definition reraise_as_500 {A : Type} (m : M A) : M A :=
  fun db =>
    match m db with
    | (inl _, db') => (inl (mkHTTPException HTTP_500_INTERNAL_SERVER_ERROR), db')
    | ok => ok
    end.

Definition logged (c : StoreCall) (db : Database) : Database :=
  mkDatabase (salon_reservations db) (clock db) (calls db ++ [c]).

(** Modelled from the spec: the external data store, which is not code of
    this repository. Its contract is "a queryable table keyed by a unique
    identifier, supporting equality filters on arbitrary columns, ordering
    by column, insert returning the inserted row, and update-by-key
    returning the updated row". [select] is
    [table(TABLE_NAME).select("*")...execute()]. The store of this model
    always answers: a call that fails in transport, which the handlers
    turn into a 500, is outside it, and every statement below is about
    runs in which the store answers. *)
Definition select (fs : list Filter) (order : list OrderColumn)
  : M (list Row.t) :=
  fun db =>
    (inr (sorted (order_leb order)
            (filter (matches_all fs) (salon_reservations db))),
     logged SELECT db).

(** Modelled from the spec: "insert returning the inserted row", for
    [table(TABLE_NAME).insert(data).execute()]. The table assigns the
    identifier and both timestamps. *)
Definition insert (data : ReservationData.t) : M (list Row.t) :=
  fun db =>
    let r := new_row (fresh_id (salon_reservations db)) (clock db) data in
    (inr [r],
     mkDatabase (salon_reservations db ++ [r]) (N.succ (clock db))
       (calls db ++ [INSERT])).

(** Modelled from the spec: "update-by-key returning the updated row", for
    [table(TABLE_NAME).update(data).eq(...).execute()]. The table stamps
    [updated_at] on the rows it writes. *)
Definition update (data : UpdateData.t) (fs : list Filter) : M (list Row.t) :=
  fun db =>
    let touch r :=
      if matches_all fs r then apply_update data (clock db) r else r in
    (inr (map (apply_update data (clock db))
            (filter (matches_all fs) (salon_reservations db))),
     mkDatabase (map touch (salon_reservations db)) (N.succ (clock db))
       (calls db ++ [UPDATE])).

Definition to_response (record : Row.t) : option ReservationResponse.t :=
  match date_fromisoformat (Row.reservation_date record),
        time_fromisoformat (Row.reservation_time record) with
  | Some d, Some tm =>
      Some (ReservationResponse.mk
              (Row.reservation_id record) (Row.customer_name record)
              (Row.phone_number record) d tm
              (Row.stylist_name record) (Row.service_menu record)
              (Row.duration_minutes record) (value (Row.status record))
              (Row.notes record) (Row.created_at record)
              (Row.updated_at record))
  | _, _ => None
  end.

(** The [for record in result.data] loop of [lookup_reservations]: the
    first record that does not convert aborts the whole loop. *)
Fixpoint to_responses (records : list Row.t)
  : option (list ReservationResponse.t) :=
  match records with
  | [] => Some []
  | record :: rest =>
      match to_response record, to_responses rest with
      | Some r, Some rs => Some (r :: rs)
      | _, _ => None
      end
  end.

Definition check_availability_conflict (stylist_name : string)
    (reservation_date : date) (reservation_time : time)
    (exclude_id : option UUID) : M bool :=
  reraise_as_500
    (let query :=
       [eq_stylist_name stylist_name;
        eq_reservation_date (date_strftime reservation_date);
        eq_reservation_time (time_strftime reservation_time);
        eq_status (value SCHEDULED)] in
     let query :=
       match exclude_id with
       | Some id => query ++ [neq_reservation_id id]
       | None => query
       end in
     result <- select query [] ;;
     ret (0 <? List.length result)%nat).

Definition get_all_hours_in_day : list time :=
  map (fun hour => mktime (N.of_nat hour) 0 0) (seq 9 (17 - 9)).

Definition create_reservation (reservation : ReservationCreate.t)
  : M ReservationCreateResponse.t :=
  conflict <- check_availability_conflict
                (ReservationCreate.stylist_name reservation)
                (ReservationCreate.reservation_date reservation)
                (ReservationCreate.reservation_time reservation) None ;;
  if conflict then raise HTTP_409_CONFLICT
  else
    let reservation_data :=
      ReservationData.mk
        (ReservationCreate.customer_name reservation)
        (ReservationCreate.phone_number reservation)
        (date_strftime (ReservationCreate.reservation_date reservation))
        (time_strftime (ReservationCreate.reservation_time reservation))
        (ReservationCreate.stylist_name reservation)
        (ReservationCreate.service_menu reservation)
        (ReservationCreate.duration_minutes reservation)
        SCHEDULED
        (ReservationCreate.notes reservation) in
    result <- insert reservation_data ;;
    match result with
    | [] => raise HTTP_500_INTERNAL_SERVER_ERROR
    | reservation_record :: _ =>
        match to_response reservation_record with
        | None => raise HTTP_500_INTERNAL_SERVER_ERROR
        | Some response =>
            ret (ReservationCreateResponse.mk
                   ("Reservation created successfully for "
                    ++ ReservationCreate.customer_name reservation)
                   (ReservationResponse.reservation_id response)
                   response)
        end
    end.

Definition lookup_reservations (phone_number : string)
  : M (list ReservationResponse.t) :=
  result <- select [eq_phone_number phone_number; eq_status (value SCHEDULED)]
              [by_reservation_date; by_reservation_time] ;;
  match result with
  | [] => raise HTTP_404_NOT_FOUND
  | _ =>
      match to_responses result with
      | Some reservations => ret reservations
      | None => raise HTTP_500_INTERNAL_SERVER_ERROR
      end
  end.

(** The [update_data] dictionary of [modify_reservation]: a key for every
    field of the request that is not [None]. *)
Definition build_update_data (updates : ReservationUpdate.t) : UpdateData.t :=
  UpdateData.mk
    (option_map date_strftime (ReservationUpdate.reservation_date updates))
    (option_map time_strftime (ReservationUpdate.reservation_time updates))
    (ReservationUpdate.stylist_name updates)
    (ReservationUpdate.service_menu updates)
    (ReservationUpdate.duration_minutes updates)
    (ReservationUpdate.notes updates)
    None.

Definition modify_reservation (reservation_id : UUID)
    (updates : ReservationUpdate.t) : M ReservationResponse.t :=
  existing <- select [eq_reservation_id reservation_id] [] ;;
  match existing with
  | [] => raise HTTP_404_NOT_FOUND
  | existing_record :: _ =>
      let update_data := build_update_data updates in
      let check_stylist :=
        UpdateData.get (UpdateData.stylist_name update_data)
          (Row.stylist_name existing_record) in
      let check_date :=
        UpdateData.get (UpdateData.reservation_date update_data)
          (Row.reservation_date existing_record) in
      let check_time :=
        UpdateData.get (UpdateData.reservation_time update_data)
          (Row.reservation_time existing_record) in
      match date_fromisoformat check_date, time_fromisoformat check_time with
      | Some check_date, Some check_time =>
          conflict <- check_availability_conflict check_stylist check_date
                        check_time (Some reservation_id) ;;
          if conflict then raise HTTP_409_CONFLICT
          else
            result <- update update_data [eq_reservation_id reservation_id] ;;
            match result with
            | [] => raise HTTP_500_INTERNAL_SERVER_ERROR
            | updated_record :: _ =>
                match to_response updated_record with
                | Some response => ret response
                | None => raise HTTP_500_INTERNAL_SERVER_ERROR
                end
            end
      | _, _ => raise HTTP_500_INTERNAL_SERVER_ERROR
      end
  end.

Definition cancel_update : UpdateData.t :=
  UpdateData.mk None None None None None None (Some CANCELLED).

Definition cancel_reservation (reservation_id : UUID)
  : M ReservationResponse.t :=
  existing <- select [eq_reservation_id reservation_id] [] ;;
  match existing with
  | [] => raise HTTP_404_NOT_FOUND
  | _ =>
      result <- update cancel_update [eq_reservation_id reservation_id] ;;
      match result with
      | [] => raise HTTP_500_INTERNAL_SERVER_ERROR
      | cancelled_record :: _ =>
          match to_response cancelled_record with
          | Some response => ret response
          | None => raise HTTP_500_INTERNAL_SERVER_ERROR
          end
      end
  end.

(** The list comprehension over [result.data]: the first time that does
    not parse aborts it. *)
Fixpoint parse_times (records : list Row.t) : option (list time) :=
  match records with
  | [] => Some []
  | record :: rest =>
      match time_fromisoformat (Row.reservation_time record),
            parse_times rest with
      | Some tm, Some tms => Some (tm :: tms)
      | _, _ => None
      end
  end.

Definition check_availability (reservation_date : date) (stylist : string)
  : M AvailabilityResponse.t :=
  result <- select [eq_stylist_name stylist;
                    eq_reservation_date (date_strftime reservation_date);
                    eq_status (value SCHEDULED)] [] ;;
  match parse_times result with
  | None => raise HTTP_500_INTERNAL_SERVER_ERROR
  | Some booked_times =>
      let all_hours := get_all_hours_in_day in
      let available_times :=
        filter (fun t => negb (time_in t booked_times)) all_hours in
      ret (AvailabilityResponse.mk reservation_date stylist
             (sorted time_leb booked_times)
             (sorted time_leb available_times))
  end.

(* ===================================================================== *)
(** ** The HTTP surface                                                   *)
(* ===================================================================== *)

Inductive Request : Type :=
| POST_add (b : ReservationCreate.body)
| GET_lookup (phone_number : string)
| PUT_modify (reservation_id : UUID) (b : ReservationUpdate.body)
| DELETE_cancel (reservation_id : UUID)
| GET_availability (reservation_date : string) (stylist : string)
| GET_root.

Inductive Payload : Type :=
| Created (r : ReservationCreateResponse.t)
| Reservations (l : list ReservationResponse.t)
| Reservation (r : ReservationResponse.t)
| Availability (a : AvailabilityResponse.t)
| Root
| Error.

Record Response : Type := mkResponse { code : nat; payload : Payload }.

Definition respond {A : Type} (success : nat) (wrap : A -> Payload)
    (m : M A) (db : Database) : Response * Database :=
  match m db with
  | (inr a, db') => (mkResponse success (wrap a), db')
  | (inl e, db') => (mkResponse (status_code e) Error, db')
  end.

Definition unprocessable (db : Database) : Response * Database :=
  (mkResponse HTTP_422_UNPROCESSABLE Error, db).

(** The routes, with the success status their decorators declare. *)
Definition route_add (reservation : ReservationCreate.t)
  : Database -> Response * Database :=
  respond 201 Created (create_reservation reservation).

Definition route_lookup (phone_number : string)
  : Database -> Response * Database :=
  respond 200 Reservations (lookup_reservations phone_number).

Definition route_modify (reservation_id : UUID) (updates : ReservationUpdate.t)
  : Database -> Response * Database :=
  respond 200 Reservation (modify_reservation reservation_id updates).

Definition route_cancel (reservation_id : UUID)
  : Database -> Response * Database :=
  respond 200 Reservation (cancel_reservation reservation_id).

Definition route_availability (reservation_date : date) (stylist : string)
  : Database -> Response * Database :=
  respond 200 Availability (check_availability reservation_date stylist).

(** The application. A body or parameter that does not validate is
    answered 422 before the handler is entered. *)
Definition serve (req : Request) (db : Database) : Response * Database :=
  match req with
  | POST_add b =>
      match ReservationCreate.model_validate b with
      | Some reservation => route_add reservation db
      | None => unprocessable db
      end
  | GET_lookup phone_number => route_lookup phone_number db
  | PUT_modify reservation_id b =>
      match ReservationUpdate.model_validate b with
      | Some updates => route_modify reservation_id updates db
      | None => unprocessable db
      end
  | DELETE_cancel reservation_id => route_cancel reservation_id db
  | GET_availability reservation_date stylist =>
      match date_fromisoformat reservation_date with
      | Some d => route_availability d stylist db
      | None => unprocessable db
      end
  | GET_root => (mkResponse 200 Root, db)
  end.

Fixpoint serve_all (reqs : list Request) (db : Database)
  : list Response * Database :=
  match reqs with
  | [] => ([], db)
  | req :: rest =>
      let '(resp, db') := serve req db in
      let '(resps, db'') := serve_all rest db' in
      (resp :: resps, db'')
  end.

Definition empty_database : Database := mkDatabase [] 0 [].

(* ===================================================================== *)
(** ** Vocabulary of the statements                                       *)
(* ===================================================================== *)

(** The four input shapes the validators are documented to accept:
    [H:MM], [HH:MM], [H:MM:SS] and [HH:MM:SS], every [H], [M], [S] a
    decimal digit. *)
Definition shape_H_MM (s : string) : bool :=
  match s with
  | String h (String c (String m1 (String m2 EmptyString))) =>
      is_digit h && Ascii.eqb c colon && is_digit m1 && is_digit m2
  | _ => false
  end.

Definition shape_HH_MM (s : string) : bool :=
  match s with
  | String h1 (String h2 (String c (String m1 (String m2 EmptyString)))) =>
      is_digit h1 && is_digit h2 && Ascii.eqb c colon
      && is_digit m1 && is_digit m2
  | _ => false
  end.

Definition shape_H_MM_SS (s : string) : bool :=
  match s with
  | String h (String c (String m1 (String m2
      (String c' (String s1 (String s2 EmptyString)))))) =>
      is_digit h && Ascii.eqb c colon && is_digit m1 && is_digit m2
      && Ascii.eqb c' colon && is_digit s1 && is_digit s2
  | _ => false
  end.

Definition shape_HH_MM_SS (s : string) : bool :=
  match s with
  | String h1 (String h2 (String c (String m1 (String m2
      (String c' (String s1 (String s2 EmptyString))))))) =>
      is_digit h1 && is_digit h2 && Ascii.eqb c colon
      && is_digit m1 && is_digit m2
      && Ascii.eqb c' colon && is_digit s1 && is_digit s2
  | _ => false
  end.

Definition time_shaped (s : string) : bool :=
  shape_H_MM s || shape_HH_MM s || shape_H_MM_SS s || shape_HH_MM_SS s.

(** The normal form in the words of the specification: the hour segment
    zero-padded to two digits, [":00"] appended when the seconds are
    omitted. *)
Definition spec_normal_form (s : string) : string :=
  (if shape_H_MM s || shape_H_MM_SS s then "0" else "")
  ++ s
  ++ (if shape_H_MM s || shape_HH_MM s then ":00" else "").

(** A row converts to a response: its date and time columns hold a date
    and a time of day, as a table with typed columns hands them back. *)
Definition row_readable (r : Row.t) : bool :=
  match to_response r with
  | Some _ => true
  | None => false
  end.

Definition table_readable (db : Database) : bool :=
  forallb row_readable (salon_reservations db).

(** [r] is a scheduled reservation at the slot (stylist, date, time). *)
Definition occupies (stylist date_text time_text : string) (r : Row.t) : bool :=
  String.eqb (Row.stylist_name r) stylist
  && String.eqb (Row.reservation_date r) date_text
  && String.eqb (Row.reservation_time r) time_text
  && status_eqb (Row.status r) SCHEDULED.

(** The booking invariant: no slot holds two scheduled reservations. *)
Definition at_most_one_scheduled_per_slot (rows : list Row.t) : Prop :=
  forall stylist date_text time_text,
    (List.length (filter (occupies stylist date_text time_text) rows) <= 1)%nat.

(** The table is keyed by [reservation_id]. *)
Definition keyed (rows : list Row.t) : Prop :=
  NoDup (map Row.reservation_id rows).

Definition booking_invariant (db : Database) : Prop :=
  keyed (salon_reservations db)
  /\ at_most_one_scheduled_per_slot (salon_reservations db).

(** The same, read pairwise: two scheduled reservations at one slot are
    one reservation. *)
Definition exclusive (rows : list Row.t) : Prop :=
  forall stylist date_text time_text r1 r2,
    In r1 rows -> In r2 rows ->
    occupies stylist date_text time_text r1 = true ->
    occupies stylist date_text time_text r2 = true ->
    Row.reservation_id r1 = Row.reservation_id r2.

(** Executable forms of the two, for concrete tables. *)
Definition same_slot (a b : Row.t) : bool :=
  occupies (Row.stylist_name a) (Row.reservation_date a)
    (Row.reservation_time a) b.

Fixpoint no_double_booking (rows : list Row.t) : bool :=
  match rows with
  | [] => true
  | r :: rest =>
      negb (status_eqb (Row.status r) SCHEDULED && existsb (same_slot r) rest)
      && no_double_booking rest
  end.

Fixpoint distinct_ids (ids : list UUID) : bool :=
  match ids with
  | [] => true
  | i :: rest => negb (existsb (N.eqb i) rest) && distinct_ids rest
  end.

Definition booking_invariantb (db : Database) : bool :=
  distinct_ids (map Row.reservation_id (salon_reservations db))
  && no_double_booking (salon_reservations db).

(** The exclusion of [check_availability_conflict]: with an [exclude_id],
    rows carrying that identifier are left out of the match set. *)
Definition not_excluded (exclude_id : option UUID) (r : Row.t) : bool :=
  match exclude_id with
  | Some id => negb (N.eqb (Row.reservation_id r) id)
  | None => true
  end.

(** The row [create_reservation] has the table insert. *)
Definition created_row (reservation : ReservationCreate.t) (db : Database)
  : Row.t :=
  new_row (fresh_id (salon_reservations db)) (clock db)
    (ReservationData.mk
       (ReservationCreate.customer_name reservation)
       (ReservationCreate.phone_number reservation)
       (date_strftime (ReservationCreate.reservation_date reservation))
       (time_strftime (ReservationCreate.reservation_time reservation))
       (ReservationCreate.stylist_name reservation)
       (ReservationCreate.service_menu reservation)
       (ReservationCreate.duration_minutes reservation)
       SCHEDULED
       (ReservationCreate.notes reservation)).

(** What an update keyed by [id] does to one row of the table. *)
Definition written (id : UUID) (data : UpdateData.t) (now : N) (r : Row.t)
  : Row.t :=
  if N.eqb (Row.reservation_id r) id then apply_update data now r else r.

Definition has_id (id : UUID) (r : Row.t) : bool :=
  N.eqb (Row.reservation_id r) id.

(** The fields of a row that no handler writes after creation. *)
Definition same_identity (old new : Row.t) : Prop :=
  Row.reservation_id new = Row.reservation_id old
  /\ Row.customer_name new = Row.customer_name old
  /\ Row.phone_number new = Row.phone_number old
  /\ Row.created_at new = Row.created_at old.

(** A field of an update request against the stored value: an omitted
    field keeps it, a present one replaces it. *)
Definition requested {A : Type} (field : option A) (stored : A) : A :=
  match field with
  | Some v => v
  | None => stored
  end.

(** What a modify request for [id] leaves alone in a row, whatever the
    outcome: identity and status, every row with another identifier, and
    every field the request omits. *)
Definition left_alone (id : UUID) (updates : ReservationUpdate.t)
    (old new : Row.t) : Prop :=
  same_identity old new
  /\ Row.status new = Row.status old
  /\ (Row.reservation_id old <> id -> new = old)
  /\ (ReservationUpdate.reservation_date updates = None ->
      Row.reservation_date new = Row.reservation_date old)
  /\ (ReservationUpdate.reservation_time updates = None ->
      Row.reservation_time new = Row.reservation_time old)
  /\ (ReservationUpdate.stylist_name updates = None ->
      Row.stylist_name new = Row.stylist_name old)
  /\ (ReservationUpdate.service_menu updates = None ->
      Row.service_menu new = Row.service_menu old)
  /\ (ReservationUpdate.duration_minutes updates = None ->
      Row.duration_minutes new = Row.duration_minutes old)
  /\ (ReservationUpdate.notes updates = None ->
      Row.notes new = Row.notes old).

(** What a successful modify request for [id] has stored in the row with
    that identifier: each field it carries, as it carries it. *)
Definition stored_as_requested (id : UUID) (updates : ReservationUpdate.t)
    (old new : Row.t) : Prop :=
  Row.reservation_id old = id ->
  Row.reservation_date new
  = requested (option_map date_strftime
                 (ReservationUpdate.reservation_date updates))
      (Row.reservation_date old)
  /\ Row.reservation_time new
     = requested (option_map time_strftime
                    (ReservationUpdate.reservation_time updates))
         (Row.reservation_time old)
  /\ Row.stylist_name new
     = requested (ReservationUpdate.stylist_name updates)
         (Row.stylist_name old)
  /\ Row.service_menu new
     = requested (ReservationUpdate.service_menu updates)
         (Row.service_menu old)
  /\ Row.duration_minutes new
     = requested (ReservationUpdate.duration_minutes updates)
         (Row.duration_minutes old)
  /\ Row.notes new
     = requested (option_map Some (ReservationUpdate.notes updates))
         (Row.notes old).

(** What a cancel request for [id] does to a row: only the status of the
    row with that identifier may differ, beside [updated_at]. *)
Definition cancelled_only (id : UUID) (old new : Row.t) : Prop :=
  same_identity old new
  /\ Row.reservation_date new = Row.reservation_date old
  /\ Row.reservation_time new = Row.reservation_time old
  /\ Row.stylist_name new = Row.stylist_name old
  /\ Row.service_menu new = Row.service_menu old
  /\ Row.duration_minutes new = Row.duration_minutes old
  /\ Row.notes new = Row.notes old
  /\ (Row.reservation_id old <> id -> new = old)
  /\ (Row.reservation_id old = id -> Row.status new = CANCELLED).

(** The store after the update of [cancel_reservation]. *)
Definition after_cancel (id : UUID) (db : Database) : Database :=
  mkDatabase
    (map (written id cancel_update (clock db)) (salon_reservations db))
    (N.succ (clock db)) ((calls db ++ [SELECT]) ++ [UPDATE]).

(** A scheduled reservation of the stylist on the date. *)
Definition scheduled_on (stylist date_text : string) (r : Row.t) : bool :=
  String.eqb (Row.stylist_name r) stylist
  && String.eqb (Row.reservation_date r) date_text
  && status_eqb (Row.status r) SCHEDULED.

(** A scheduled reservation under the phone number. *)
Definition scheduled_for (phone_number : string) (r : Row.t) : bool :=
  String.eqb (Row.phone_number r) phone_number
  && status_eqb (Row.status r) SCHEDULED.

(** Ascending order on times of day. *)
Definition time_le (a b : time) : Prop := time_leb a b = true.

(** A row with its duration blanked. *)
Definition without_duration (r : Row.t) : Row.t :=
  Row.mk (Row.reservation_id r) (Row.customer_name r) (Row.phone_number r)
    (Row.reservation_date r) (Row.reservation_time r) (Row.stylist_name r)
    (Row.service_menu r) 0 (Row.status r) (Row.notes r) (Row.created_at r)
    (Row.updated_at r).

(** A table with two scheduled reservations at one slot, as two requests
    racing between check and insert leave it. *)
Definition db_double_booked : Database :=
  mkDatabase
    [Row.mk 1%N "Ann" "555" "2025-06-01" "09:00:00" "Kim" "cut" 60
       SCHEDULED None 0 0;
     Row.mk 2%N "Bob" "556" "2025-06-01" "09:00:00" "Kim" "color" 30
       SCHEDULED None 1 1]
    2 [].

(** The response [create_reservation] builds for a reservation: the
    request echoed, with the identifier and timestamps of the table and
    status [scheduled]. *)
Definition created_response (reservation : ReservationCreate.t)
    (db : Database) : ReservationResponse.t :=
  ReservationResponse.mk
    (fresh_id (salon_reservations db))
    (ReservationCreate.customer_name reservation)
    (ReservationCreate.phone_number reservation)
    (ReservationCreate.reservation_date reservation)
    (ReservationCreate.reservation_time reservation)
    (ReservationCreate.stylist_name reservation)
    (ReservationCreate.service_menu reservation)
    (ReservationCreate.duration_minutes reservation)
    (value SCHEDULED)
    (ReservationCreate.notes reservation)
    (clock db) (clock db).

(** The slot a create request asks for is held by a scheduled row. *)
Definition slot_taken (reservation : ReservationCreate.t) (db : Database)
  : bool :=
  existsb (occupies (ReservationCreate.stylist_name reservation)
             (date_strftime (ReservationCreate.reservation_date reservation))
             (time_strftime (ReservationCreate.reservation_time reservation)))
    (salon_reservations db).

(** The values a validated create request can hold. *)
Definition reservation_ok (reservation : ReservationCreate.t) : bool :=
  date_ok (ReservationCreate.reservation_date reservation)
  && time_ok (ReservationCreate.reservation_time reservation).

(** The values a validated update request can hold. *)
Definition updates_ok (updates : ReservationUpdate.t) : bool :=
  match ReservationUpdate.reservation_date updates with
  | Some d => date_ok d
  | None => true
  end
  && match ReservationUpdate.reservation_time updates with
     | Some tm => time_ok tm
     | None => true
     end.

(** The row a modify request makes of a stored row. *)
Definition modified_row (updates : ReservationUpdate.t) (now : N)
    (e : Row.t) : Row.t :=
  apply_update (build_update_data updates) now e.

(** A scheduled reservation other than [id] holds the slot that the
    modify request gives the row [e]. *)
Definition other_holds_target (id : UUID) (updates : ReservationUpdate.t)
    (e : Row.t) (db : Database) : bool :=
  existsb
    (fun r =>
       occupies (Row.stylist_name (modified_row updates 0 e))
         (Row.reservation_date (modified_row updates 0 e))
         (Row.reservation_time (modified_row updates 0 e)) r
       && not_excluded (Some id) r)
    (salon_reservations db).

(** What any request may do to a stored row: it keeps its identity, its
    status stays or becomes [cancelled], and it stays readable. *)
Definition row_step (old new : Row.t) : Prop :=
  same_identity old new
  /\ (Row.status new = Row.status old \/ Row.status new = CANCELLED)
  /\ (row_readable old = true -> row_readable new = true).

(** What any request may add to the table: nothing, or one readable row
    with status [scheduled] under an identifier above all stored ones. *)
Definition rows_added (rows added : list Row.t) : Prop :=
  added = []
  \/ exists r, added = [r]
               /\ Row.status r = SCHEDULED
               /\ row_readable r = true
               /\ Row.reservation_id r = fresh_id rows.

(** The requests that only read. *)
Definition is_read (req : Request) : bool :=
  match req with
  | GET_lookup _ | GET_availability _ _ | GET_root => true
  | POST_add _ | PUT_modify _ _ | DELETE_cancel _ => false
  end.

(** The year is printed with four digits by every C library. *)
Definition full_year (d : date) : bool := (1000 <=? year d)%N.

(** The date column of a row reads as a date of the year 1000 or later. *)
Definition row_full_year (r : Row.t) : bool :=
  match date_fromisoformat (Row.reservation_date r) with
  | Some d => full_year d
  | None => false
  end.

(** A handler called with validated arguments, as the framework calls it
    once the request has passed validation. *)
Inductive Call : Type :=
| Add (reservation : ReservationCreate.t)
| Lookup (phone_number : string)
| Modify (reservation_id : UUID) (updates : ReservationUpdate.t)
| Cancel (reservation_id : UUID)
| CheckAvailability (reservation_date : date) (stylist : string).

Definition handle (c : Call) : Database -> Response * Database :=
  match c with
  | Add reservation => route_add reservation
  | Lookup phone_number => route_lookup phone_number
  | Modify reservation_id updates => route_modify reservation_id updates
  | Cancel reservation_id => route_cancel reservation_id
  | CheckAvailability reservation_date stylist =>
      route_availability reservation_date stylist
  end.

(** The arguments are values the Python types can hold, and every date
    among them is of the year 1000 or later. *)
Definition call_ok (c : Call) : bool :=
  match c with
  | Add reservation =>
      reservation_ok reservation
      && full_year (ReservationCreate.reservation_date reservation)
  | Modify _ updates =>
      updates_ok updates
      && match ReservationUpdate.reservation_date updates with
         | Some d => full_year d
         | None => true
         end
  | CheckAvailability d _ => date_ok d && full_year d
  | Lookup _ | Cancel _ => true
  end.

(** Every row of the table is dated in the year 1000 or later. *)
Definition table_full_year (db : Database) : bool :=
  forallb row_full_year (salon_reservations db).

(** The status codes a handler documents for the case that the store
    answers. *)
Definition possible_codes (c : Call) : list nat :=
  match c with
  | Add _ => [201; HTTP_409_CONFLICT]
  | Lookup _ => [200; HTTP_404_NOT_FOUND]
  | Modify _ _ => [200; HTTP_404_NOT_FOUND; HTTP_409_CONFLICT]
  | Cancel _ => [200; HTTP_404_NOT_FOUND]
  | CheckAvailability _ _ => [200]
  end%nat.

(** A row is scheduled or cancelled. *)
Definition scheduled_or_cancelled (r : Row.t) : Prop :=
  Row.status r = SCHEDULED \/ Row.status r = CANCELLED.

(** A row with the table-maintained [updated_at] blanked. *)
Definition without_updated_at (r : Row.t) : Row.t :=
  Row.mk (Row.reservation_id r) (Row.customer_name r) (Row.phone_number r)
    (Row.reservation_date r) (Row.reservation_time r) (Row.stylist_name r)
    (Row.service_menu r) (Row.duration_minutes r) (Row.status r)
    (Row.notes r) (Row.created_at r) 0.

(** Chronological order on responses: by date, then by time of day. *)
Definition date_compare (a b : date) : comparison :=
  match N.compare (year a) (year b) with
  | Eq => match N.compare (month a) (month b) with
          | Eq => N.compare (day a) (day b)
          | c => c
          end
  | c => c
  end.

Definition time_compare (a b : time) : comparison :=
  match N.compare (hour a) (hour b) with
  | Eq => match N.compare (minute a) (minute b) with
          | Eq => N.compare (second a) (second b)
          | c => c
          end
  | c => c
  end.

Definition chronological (a b : ReservationResponse.t) : Prop :=
  match date_compare (ReservationResponse.reservation_date a)
          (ReservationResponse.reservation_date b) with
  | Lt => True
  | Gt => False
  | Eq => time_compare (ReservationResponse.reservation_time a)
            (ReservationResponse.reservation_time b) <> Gt
  end.

(** Sample requests and tables. *)
Definition ann : ReservationCreate.body :=
  ReservationCreate.mk_body "Ann" "555" "2025-06-01" (RawStr "9:00")
    "Kim" "cut" None None.

Definition bob : ReservationCreate.body :=
  ReservationCreate.mk_body "Bob" "556" "2025-06-01" (RawStr "09:00:00")
    "Kim" "color" (Some 30%Z) None.

Definition ann_reservation : ReservationCreate.t :=
  ReservationCreate.mk "Ann" "555" (mkdate 2025 6 1) (mktime 9 0 0)
    "Kim" "cut" 60 None.

Definition bob_reservation : ReservationCreate.t :=
  ReservationCreate.mk "Bob" "556" (mkdate 2025 6 1) (mktime 9 0 0)
    "Kim" "color" 30 None.

Definition ann_created : ReservationCreateResponse.t :=
  ReservationCreateResponse.mk "Reservation created successfully for Ann" 1%N
    (ReservationResponse.mk 1%N "Ann" "555" (mkdate 2025 6 1) (mktime 9 0 0)
       "Kim" "cut" 60 "scheduled" None 0 0).

(** A request to move a reservation to 09:00, nothing else. *)
Definition at_nine : ReservationUpdate.t :=
  ReservationUpdate.mk None (Some (mktime 9 0 0)) None None None None.

Definition ann_row : Row.t :=
  Row.mk 1%N "Ann" "555" "2025-06-01" "09:00:00" "Kim" "cut" 60
    SCHEDULED None 0 0.

(** A request that sets the service to the empty string and the time to
    10:30, and leaves the other fields out. *)
Definition blank_service : ReservationUpdate.t :=
  ReservationUpdate.mk None (Some (mktime 10 30 0)) None (Some "") None None.

(** Ann books a later day first, then an earlier one. *)
Definition db_ann_twice : Database :=
  snd (serve_all
         [POST_add (ReservationCreate.mk_body "Ann" "555" "2025-06-02"
                      (RawStr "10:00") "Kim" "cut" None None);
          POST_add (ReservationCreate.mk_body "Ann" "555" "2025-06-01"
                      (RawStr "14:30") "Lee" "color" None None);
          POST_add (ReservationCreate.mk_body "Ann" "555" "2025-06-01"
                      (RawStr "9:00") "Kim" "cut" None None)]
         empty_database).

(** An update body that blanks the service and moves the time. *)
Definition blank_service_body : ReservationUpdate.body :=
  ReservationUpdate.mk_body None (RawStr "10:30") None (Some "") None None.

Definition ann_row_cancelled : Row.t :=
  Row.mk 1%N "Ann" "555" "2025-06-01" "09:00:00" "Kim" "cut" 60
    CANCELLED None 0 1.

(** The table after Ann's booking. *)
Definition db_ann : Database := snd (serve (POST_add ann) empty_database).

(** Ann books, cancels, and Bob takes the slot. *)
Definition db_ann_cancelled_bob : Database :=
  snd (serve_all [POST_add ann; DELETE_cancel 1%N; POST_add bob]
         empty_database).

(* ===================================================================== *)
(** * Properties                                                          *)
(* ===================================================================== *)

Unset Implicit Arguments.

(** ** Strings *)

Lemma split_colon_length (s : string) :
  List.length (split_colon s) = S (count_colons s).
Proof.
  induction s as [|c rest IH]; simpl; [reflexivity|].
  destruct (Ascii.eqb c colon); simpl.
  - now rewrite IH.
  - destruct (split_colon rest) as [|p ps]; simpl in *; [discriminate|exact IH].
Qed.

Lemma is_digit_not_colon (c : ascii) :
  is_digit c = true -> Ascii.eqb c colon = false.
Proof.
  unfold is_digit. intros H. apply andb_prop in H as [_ H].
  apply N.leb_le in H.
  destruct (Ascii.eqb_spec c colon) as [->|]; [|reflexivity].
  vm_compute in H. now exfalso; apply H.
Qed.

Lemma is_digit_not_sign (c : ascii) :
  is_digit c = true -> is_sign c = false.
Proof.
  unfold is_digit, is_sign. intros H. apply andb_prop in H as [H _].
  apply N.leb_le in H.
  destruct (Ascii.eqb_spec c "+"%char) as [->|];
    [vm_compute in H; now exfalso; apply H|].
  destruct (Ascii.eqb_spec c "-"%char) as [->|];
    [vm_compute in H; now exfalso; apply H|].
  reflexivity.
Qed.

(** ** Time normalisation *)

Ltac split_shape H :=
  repeat match type of H with
         | (_ && _)%bool = true =>
             let H' := fresh "D" in apply andb_prop in H as [H H']
         end.

Ltac use_shape :=
  repeat match goal with
         | D : Ascii.eqb ?c colon = true |- _ =>
             apply Ascii.eqb_eq in D; subst c
         | D : is_digit ?c = true |- _ =>
             rewrite ?(is_digit_not_colon c D), ?(is_digit_not_sign c D);
             clear D
         end.

Lemma normalize_H_MM (s : string) :
  shape_H_MM s = true ->
  ReservationCreate.normalize_time (RawStr s) = RawStr ("0" ++ s ++ ":00").
Proof.
  destruct s as [|h [|c [|m1 [|m2 [|? ?]]]]]; simpl; try discriminate.
  intros H. split_shape H.
  pose proof (is_digit_not_sign h H) as Hsign.
  use_shape. simpl. unfold zfill. simpl. now rewrite Hsign.
Qed.

Lemma normalize_HH_MM (s : string) :
  shape_HH_MM s = true ->
  ReservationCreate.normalize_time (RawStr s) = RawStr (s ++ ":00").
Proof.
  destruct s as [|h1 [|h2 [|c [|m1 [|m2 [|? ?]]]]]]; simpl; try discriminate.
  intros H. split_shape H. use_shape. reflexivity.
Qed.

Lemma normalize_H_MM_SS (s : string) :
  shape_H_MM_SS s = true ->
  ReservationCreate.normalize_time (RawStr s) = RawStr ("0" ++ s).
Proof.
  destruct s as [|h [|c [|m1 [|m2 [|c' [|s1 [|s2 [|? ?]]]]]]]];
    simpl; try discriminate.
  intros H. split_shape H.
  pose proof (is_digit_not_sign h H) as Hsign.
  use_shape. simpl. unfold zfill. simpl. now rewrite Hsign.
Qed.

Lemma normalize_HH_MM_SS (s : string) :
  shape_HH_MM_SS s = true ->
  ReservationCreate.normalize_time (RawStr s) = RawStr s.
Proof.
  destruct s as [|h1 [|h2 [|c [|m1 [|m2 [|c' [|s1 [|s2 [|? ?]]]]]]]]];
    simpl; try discriminate.
  intros H. split_shape H. use_shape. reflexivity.
Qed.

Lemma length_app (a b : string) :
  String.length (a ++ b)%string = (String.length a + String.length b)%nat.
Proof. induction a as [|c a IH]; simpl; [reflexivity | now rewrite IH]. Qed.

Lemma split_colon_one (s h : string) : split_colon s = [h] -> s = h.
Proof.
  revert h. induction s as [|c rest IH]; intros h; simpl.
  - now intros [= <-].
  - destruct (Ascii.eqb c colon).
    + intros H. pose proof (split_colon_length rest) as L.
      injection H as _ H. rewrite H in L. discriminate.
    + pose proof (split_colon_length rest) as L.
      destruct (split_colon rest) as [|p ps] eqn:E; [discriminate|].
      intros H. injection H as <- ->. f_equal. now apply IH.
Qed.

Lemma split_colon_two (s h m : string) :
  split_colon s = [h; m] -> s = (h ++ ":" ++ m)%string.
Proof.
  revert h m. induction s as [|c rest IH]; intros h m; simpl; [discriminate|].
  destruct (Ascii.eqb_spec c colon) as [->|_].
  - intros H. injection H as <- Hrest. simpl. f_equal.
    now apply split_colon_one.
  - destruct (split_colon rest) as [|p ps] eqn:E; [discriminate|].
    intros H. injection H as <- ->. simpl. f_equal. now apply IH.
Qed.

Lemma split_colon_three (s h m sec : string) :
  split_colon s = [h; m; sec] -> s = (h ++ ":" ++ m ++ ":" ++ sec)%string.
Proof.
  revert h m sec. induction s as [|c rest IH]; intros h m sec; simpl;
    [discriminate|].
  destruct (Ascii.eqb_spec c colon) as [->|_].
  - intros H. injection H as <- Hrest. simpl. f_equal.
    now apply split_colon_two.
  - destruct (split_colon rest) as [|p ps] eqn:E; [discriminate|].
    intros H. injection H as <- ->. simpl. f_equal. now apply IH.
Qed.

Lemma zfill_2_length (h : string) :
  String.length (zfill 2 h) = Nat.max 2 (String.length h).
Proof.
  unfold zfill. destruct h as [|c [|c' h']]; simpl; try reflexivity.
  destruct (is_sign c); reflexivity.
Qed.

Lemma zfill_2_long (h : string) :
  (2 <= String.length h)%nat -> zfill 2 h = h.
Proof.
  intros H. unfold zfill. apply Nat.leb_le in H. now rewrite H.
Qed.

Lemma raw_str_length (a b : string) :
  RawStr a = RawStr b -> String.length a = String.length b.
Proof. now intros [= ->]. Qed.

(** When a string comes back unchanged. *)
Lemma normalize_time_fixed_iff (s : string) :
  ReservationCreate.normalize_time (RawStr s) = RawStr s
  <-> count_colons s <> 1%nat
      /\ (count_colons s = 2%nat ->
          (2 <= String.length (hd EmptyString (split_colon s)))%nat).
Proof.
  pose proof (split_colon_length s) as L.
  unfold ReservationCreate.normalize_time.
  destruct (split_colon s) as [|h [|m [|sec [|x xs]]]] eqn:E; simpl in L.
  - discriminate.
  - split; [intros _|reflexivity]. split; intros C; rewrite C in L; discriminate.
  - split.
    + intros H. apply raw_str_length in H.
      rewrite (split_colon_two _ _ _ E) in H.
      rewrite !length_app, zfill_2_length in H. cbn [String.length] in H. lia.
    + intros [C _]. exfalso. apply C. now injection L.
  - simpl. split.
    + intros H. split; [intros C; rewrite C in L; discriminate|]. intros _.
      apply raw_str_length in H.
      rewrite (split_colon_three _ _ _ _ E) in H.
      rewrite !length_app, zfill_2_length in H. cbn [String.length] in H.
      rewrite ?length_app in H. cbn [String.length] in H. lia.
    + intros [_ C]. rewrite zfill_2_long by (apply C; now injection L).
      now rewrite (split_colon_three _ _ _ _ E).
  - split; [intros _|reflexivity].
    split; intros C; rewrite C in L; simpl in L; discriminate.
Qed.

Lemma normalize_time_same (v : raw_value) :
  ReservationUpdate.normalize_time v = ReservationCreate.normalize_time v.
Proof. reflexivity. Qed.

Ltac rewrite_shape :=
  repeat match goal with
         | D : _ = true |- _ => rewrite D; clear D
         end.

Lemma spec_normal_form_shaped (s : string) :
  time_shaped s = true ->
  ReservationCreate.normalize_time (RawStr s) = RawStr (spec_normal_form s)
  /\ shape_HH_MM_SS (spec_normal_form s) = true.
Proof.
  unfold time_shaped. intros H.
  destruct (shape_H_MM s) eqn:E1; [|destruct (shape_HH_MM s) eqn:E2;
    [|destruct (shape_H_MM_SS s) eqn:E3; [|destruct (shape_HH_MM_SS s) eqn:E4;
      [|discriminate]]]]; clear H.
  - rewrite (normalize_H_MM _ E1). unfold spec_normal_form. rewrite E1.
    destruct s as [|h [|c [|m1 [|m2 [|? ?]]]]]; simpl in E1; try discriminate.
    split; [reflexivity|]. simpl. split_shape E1.
    rewrite_shape. reflexivity.
  - rewrite (normalize_HH_MM _ E2). unfold spec_normal_form. rewrite E1, E2.
    destruct s as [|h1 [|h2 [|c [|m1 [|m2 [|? ?]]]]]]; simpl in E2;
      try discriminate.
    split; [reflexivity|]. simpl. split_shape E2.
    rewrite_shape. reflexivity.
  - rewrite (normalize_H_MM_SS _ E3). unfold spec_normal_form.
    rewrite E1, E2, E3.
    destruct s as [|h [|c [|m1 [|m2 [|c' [|s1 [|s2 [|? ?]]]]]]]];
      simpl in E3; try discriminate.
    split; [reflexivity|]. simpl. split_shape E3.
    rewrite_shape. reflexivity.
  - rewrite (normalize_HH_MM_SS _ E4). unfold spec_normal_form.
    rewrite E1, E2, E3. simpl.
    assert ((s ++ "")%string = s) as ->.
    { clear. induction s; simpl; [reflexivity|now f_equal]. }
    now split.
Qed.

(** ** Dates and times: [strftime] and [fromisoformat] are inverse *)

Lemma digit_val_char (n : N) :
  (n < 10)%N -> digit_val (digit_char n) = Some n.
Proof.
  intros H. unfold digit_val, digit_char, is_digit.
  rewrite N_ascii_embedding by lia.
  replace (48 <=? 48 + n)%N with true by (symmetry; apply N.leb_le; lia).
  replace (48 + n <=? 57)%N with true by (symmetry; apply N.leb_le; lia).
  cbn [andb]. f_equal. lia.
Qed.

Lemma digit_char_val (c : ascii) (n : N) :
  digit_val c = Some n -> digit_char n = c /\ (n < 10)%N.
Proof.
  unfold digit_val, digit_char, is_digit.
  destruct (48 <=? N_of_ascii c)%N eqn:Lo; [|discriminate].
  destruct (N_of_ascii c <=? 57)%N eqn:Hi; [|discriminate].
  cbn [andb]. intros [= <-]. apply N.leb_le in Lo, Hi. split; [|lia].
  replace (48 + (N_of_ascii c - 48))%N with (N_of_ascii c) by lia.
  apply ascii_N_embedding.
Qed.

Lemma parse2_pad2 (n : N) :
  (n < 100)%N ->
  parse2 (digit_char (n / 10)) (digit_char (n mod 10)) = Some n.
Proof.
  intros H. unfold parse2.
  assert (n / 10 < 10)%N by (apply N.Div0.div_lt_upper_bound; lia).
  assert (n mod 10 < 10)%N by (apply N.mod_lt; lia).
  rewrite !digit_val_char by assumption. f_equal.
  symmetry. apply N.div_mod. lia.
Qed.

Lemma pad2_parse2 (a b : ascii) (n : N) :
  parse2 a b = Some n -> pad2 n = String a (String b EmptyString) /\ (n < 100)%N.
Proof.
  unfold parse2.
  destruct (digit_val a) as [x|] eqn:Ea; [|discriminate].
  destruct (digit_val b) as [y|] eqn:Eb; [|discriminate].
  intros H. assert (n = (10 * x + y)%N) as -> by congruence. clear H.
  apply digit_char_val in Ea as [<- Hx]. apply digit_char_val in Eb as [<- Hy].
  split; [|lia]. unfold pad2.
  assert ((10 * x + y) / 10 = x)%N as ->
      by (symmetry; apply (N.div_unique _ _ x y); lia).
  assert ((10 * x + y) mod 10 = y)%N as ->
      by (symmetry; apply (N.mod_unique _ _ x y); lia).
  reflexivity.
Qed.

Lemma parse4_pad4 (n : N) :
  (n < 10000)%N ->
  parse4 (digit_char (n / 1000)) (digit_char ((n / 100) mod 10))
    (digit_char ((n mod 100) / 10)) (digit_char ((n mod 100) mod 10)) = Some n.
Proof.
  intros H. unfold parse4.
  assert (n / 100 < 100)%N by (apply N.Div0.div_lt_upper_bound; lia).
  assert (n mod 100 < 100)%N by (apply N.mod_lt; lia).
  assert (n / 1000 = (n / 100) / 10)%N as ->
      by (rewrite N.Div0.div_div; reflexivity).
  rewrite !parse2_pad2 by assumption. f_equal.
  symmetry. apply N.div_mod. lia.
Qed.

Lemma pad4_parse4 (a b c d : ascii) (n : N) :
  parse4 a b c d = Some n ->
  pad4 n = String a (String b (String c (String d EmptyString)))
  /\ (n < 10000)%N.
Proof.
  unfold parse4.
  destruct (parse2 a b) as [x|] eqn:Ea; [|discriminate].
  destruct (parse2 c d) as [y|] eqn:Eb; [|discriminate].
  intros H. assert (n = (100 * x + y)%N) as -> by congruence. clear H.
  apply pad2_parse2 in Ea as [Ea Hx]. apply pad2_parse2 in Eb as [Eb Hy].
  split; [|lia]. unfold pad4.
  assert ((100 * x + y) mod 100 = y)%N as ->
      by (symmetry; apply (N.mod_unique _ _ x y); lia).
  assert ((100 * x + y) / 100 = x)%N as Hq
      by (symmetry; apply (N.div_unique _ _ x y); lia).
  assert ((100 * x + y) / 1000 = x / 10)%N as ->.
  { change 1000%N with (100 * 10)%N. now rewrite <- N.Div0.div_div, Hq. }
  rewrite Hq, Eb. unfold pad2 in Ea. now injection Ea as -> ->.
Qed.

Lemma time_fromisoformat_strftime (t : time) :
  time_ok t = true -> time_fromisoformat (time_strftime t) = Some t.
Proof.
  intros Ok. pose proof Ok as Ok'. unfold time_ok in Ok'.
  apply andb_prop in Ok' as [Ok' Hs]. apply andb_prop in Ok' as [Hh Hm].
  apply N.ltb_lt in Hh, Hm, Hs.
  unfold time_strftime, pad2, time_fromisoformat. simpl.
  rewrite !parse2_pad2 by lia.
  destruct t as [h m s]. simpl in *. now rewrite Ok.
Qed.

Lemma time_strftime_fromisoformat (s : string) (t : time) :
  time_fromisoformat s = Some t -> time_strftime t = s /\ time_ok t = true.
Proof.
  unfold time_fromisoformat.
  destruct s as [|h1 [|h2 [|c1 [|m1 [|m2 [|c2 [|s1 [|s2 [|? ?]]]]]]]]];
    try discriminate.
  destruct (Ascii.eqb_spec c1 colon) as [->|]; [|discriminate].
  destruct (Ascii.eqb_spec c2 colon) as [->|]; [|discriminate]. simpl.
  destruct (parse2 h1 h2) as [h|] eqn:Eh; [|discriminate].
  destruct (parse2 m1 m2) as [m|] eqn:Em; [|discriminate].
  destruct (parse2 s1 s2) as [sec|] eqn:Es; [|discriminate].
  destruct (time_ok (mktime h m sec)) eqn:Ok; [|discriminate].
  intros [= <-]. split; [|assumption].
  apply pad2_parse2 in Eh as [Eh _]. apply pad2_parse2 in Em as [Em _].
  apply pad2_parse2 in Es as [Es _].
  unfold time_strftime. cbn [hour minute second]. now rewrite Eh, Em, Es.
Qed.

Lemma date_ok_bounds (d : date) :
  date_ok d = true -> (year d < 10000 /\ month d < 100 /\ day d < 100)%N.
Proof.
  unfold date_ok, days_in_month. intros H.
  repeat (apply andb_prop in H as [H ?]).
  repeat match goal with
         | X : (_ <=? _)%N = true |- _ => apply N.leb_le in X
         end.
  repeat split; try lia.
  destruct (month d) as [|[[[|[]|]|[[]|[]|]|]|[[[]|[]|]|[[]|[]|]|]|]];
    destruct (is_leap (year d)); lia.
Qed.

Lemma date_fromisoformat_strftime (d : date) :
  date_ok d = true -> date_fromisoformat (date_strftime d) = Some d.
Proof.
  intros Ok. destruct (date_ok_bounds d Ok) as (Hy & Hm & Hd).
  unfold date_strftime, pad4, pad2, date_fromisoformat. simpl.
  rewrite parse4_pad4, !parse2_pad2 by lia.
  destruct d as [y m dd]. simpl in *. now rewrite Ok.
Qed.

Lemma date_strftime_fromisoformat (s : string) (d : date) :
  date_fromisoformat s = Some d -> date_strftime d = s /\ date_ok d = true.
Proof.
  unfold date_fromisoformat.
  destruct s as [|y1 [|y2 [|y3 [|y4 [|c1 [|m1 [|m2 [|c2 [|d1 [|d2 [|? ?]]]]]]]]]]];
    try discriminate.
  destruct (Ascii.eqb_spec c1 "-"%char) as [->|]; [|discriminate].
  destruct (Ascii.eqb_spec c2 "-"%char) as [->|]; [|discriminate]. simpl.
  destruct (parse4 y1 y2 y3 y4) as [y|] eqn:Ey; [|discriminate].
  destruct (parse2 m1 m2) as [m|] eqn:Em; [|discriminate].
  destruct (parse2 d1 d2) as [dd|] eqn:Ed; [|discriminate].
  destruct (date_ok (mkdate y m dd)) eqn:Ok; [|discriminate].
  intros [= <-]. split; [|assumption].
  apply pad4_parse4 in Ey as [Ey _].
  apply pad2_parse2 in Em as [Em _]. apply pad2_parse2 in Ed as [Ed _].
  unfold date_strftime. cbn [year month day]. now rewrite Ey, Em, Ed.
Qed.

(** ** Queries *)

Lemma sorted_no_order (rows : list Row.t) : sorted (order_leb []) rows = rows.
Proof.
  induction rows as [|r rest IH]; cbn [sorted]; [reflexivity|]. rewrite IH.
  destruct rest; reflexivity.
Qed.

Lemma filter_nonempty {A : Type} (p : A -> bool) (l : list A) :
  (0 <? List.length (filter p l))%nat = existsb p l.
Proof.
  induction l as [|x l IH]; simpl; [reflexivity|].
  destruct (p x); simpl; [reflexivity|exact IH].
Qed.

Lemma existsb_pointwise {A : Type} (p q : A -> bool) (l : list A) :
  (forall x, p x = q x) -> existsb p l = existsb q l.
Proof.
  intros H. induction l as [|x l IH]; simpl; [reflexivity|].
  now rewrite H, IH.
Qed.

Lemma filter_pointwise {A : Type} (p q : A -> bool) (l : list A) :
  (forall x, p x = q x) -> filter p l = filter q l.
Proof.
  intros H. induction l as [|x l IH]; simpl; [reflexivity|].
  now rewrite H, IH.
Qed.

Lemma status_is_scheduled (st : ReservationStatus) :
  String.eqb (value st) (value SCHEDULED) = status_eqb st SCHEDULED.
Proof. destruct st; reflexivity. Qed.

Lemma status_eqb_eq (a b : ReservationStatus) :
  status_eqb a b = true <-> a = b.
Proof. destruct a, b; simpl; split; intros; congruence. Qed.

Lemma slot_query_matches stylist d tm exclude_id (r : Row.t) :
  matches_all
    (let query :=
       [eq_stylist_name stylist; eq_reservation_date d;
        eq_reservation_time tm; eq_status (value SCHEDULED)] in
     match exclude_id with
     | Some id => query ++ [neq_reservation_id id]
     | None => query
     end) r
  = occupies stylist d tm r && not_excluded exclude_id r.
Proof.
  unfold matches_all, occupies, not_excluded.
  destruct exclude_id; cbn [forallb app matches];
    rewrite status_is_scheduled, ?andb_true_r, ?andb_assoc; reflexivity.
Qed.

Lemma occupies_iff stylist d tm (r : Row.t) :
  occupies stylist d tm r = true
  <-> Row.stylist_name r = stylist /\ Row.reservation_date r = d
      /\ Row.reservation_time r = tm /\ Row.status r = SCHEDULED.
Proof.
  unfold occupies. rewrite !andb_true_iff, !String.eqb_eq, status_eqb_eq.
  tauto.
Qed.

Lemma not_excluded_iff exclude_id (r : Row.t) :
  not_excluded exclude_id r = true
  <-> forall id, exclude_id = Some id -> Row.reservation_id r <> id.
Proof.
  unfold not_excluded. destruct exclude_id as [i|].
  - rewrite negb_true_iff, N.eqb_neq. split.
    + intros H id [= <-]. exact H.
    + intros H. now apply H.
  - split; [discriminate|reflexivity].
Qed.

(** What a run of [check_availability_conflict] amounts to: one [SELECT],
    answered by whether some row occupies the slot and is not excluded. *)
Lemma check_availability_conflict_run stylist d tm exclude_id db :
  check_availability_conflict stylist d tm exclude_id db
  = (inr (existsb (fun r => occupies stylist (date_strftime d)
                              (time_strftime tm) r
                            && not_excluded exclude_id r)
            (salon_reservations db)),
     logged SELECT db).
Proof.
  unfold check_availability_conflict, reraise_as_500, bind, select, ret.
  rewrite sorted_no_order, filter_nonempty. f_equal. f_equal.
  apply existsb_pointwise. intros r. apply slot_query_matches.
Qed.

(** ** The conflict check *)

(** C2. [check_availability_conflict] makes one query and answers [true]
    exactly when the table holds a reservation, other than the excluded one
    when an [exclude_id] is given, whose stylist, date and [HH:MM:SS] time
    equal the arguments and whose status is [scheduled]; if every
    reservation at the slot is cancelled or completed the answer is
    [false]. *)
Theorem check_availability_conflict_iff
    (stylist : string) (d : date) (tm : time) (exclude_id : option UUID)
    (db : Database) :
  exists conflict : bool,
    check_availability_conflict stylist d tm exclude_id db
    = (inr conflict, logged SELECT db)
    /\ (conflict = true <->
        exists r, In r (salon_reservations db)
                  /\ (forall id, exclude_id = Some id ->
                                 Row.reservation_id r <> id)
                  /\ Row.stylist_name r = stylist
                  /\ Row.reservation_date r = date_strftime d
                  /\ Row.reservation_time r = time_strftime tm
                  /\ Row.status r = SCHEDULED)
    /\ ((forall r, In r (salon_reservations db) ->
                   Row.stylist_name r = stylist ->
                   Row.reservation_date r = date_strftime d ->
                   Row.reservation_time r = time_strftime tm ->
                   Row.status r = CANCELLED \/ Row.status r = COMPLETED) ->
        conflict = false).
Proof.
  eexists. split; [apply check_availability_conflict_run|]. split.
  - rewrite existsb_exists. split.
    + intros (r & Hin & H). apply andb_prop in H as [Ho He].
      apply occupies_iff in Ho. exists r. split; [assumption|].
      split; [now apply not_excluded_iff|tauto].
    + intros (r & Hin & He & Ho). exists r. split; [assumption|].
      apply andb_true_intro. split; [now apply occupies_iff|].
      now apply not_excluded_iff.
  - intros H. apply not_true_is_false. rewrite existsb_exists.
    intros (r & Hin & Hr). apply andb_prop in Hr as [Ho _].
    apply occupies_iff in Ho as (Hs & Hd & Ht & Hst).
    destruct (H r Hin Hs Hd Ht) as [C|C]; congruence.
Qed.

(** ** Validation *)

(** C4, as amended. For an input of shape [H:MM], [HH:MM], [H:MM:SS] or
    [HH:MM:SS] the validator, which is the same function for create and
    update, returns the form of the specification: hour zero-padded to two
    digits, [":00"] appended when the seconds are omitted, so the result has
    the shape [HH:MM:SS]. A string comes back unchanged exactly when it
    has no colon or more than two, or has two colons and an hour segment
    of at least two characters; a string with one or two colons is
    rewritten on its segments whatever they hold. *)
Theorem normalize_time_spec (s : string) :
  ReservationUpdate.normalize_time (RawStr s)
  = ReservationCreate.normalize_time (RawStr s)
  /\ (time_shaped s = true ->
      ReservationCreate.normalize_time (RawStr s) = RawStr (spec_normal_form s)
      /\ shape_HH_MM_SS (spec_normal_form s) = true)
  /\ (ReservationCreate.normalize_time (RawStr s) = RawStr s
      <-> count_colons s <> 1%nat
          /\ (count_colons s = 2%nat ->
              (2 <= String.length (hd EmptyString (split_colon s)))%nat)).
Proof.
  split; [apply normalize_time_same|].
  split; [apply spec_normal_form_shaped|apply normalize_time_fixed_iff].
Qed.

Lemma normalize_time_spec_witness :
  time_shaped "9:30" = true
  /\ ReservationCreate.normalize_time (RawStr "9:30") = RawStr "09:30:00".
Proof.
  split; [reflexivity|].
  exact (proj1 (proj1 (proj2 (normalize_time_spec "9:30")) eq_refl)).
Defined.

(** C4, as stated, fails: ["abc:def"] has none of the four shapes and is
    not passed through unchanged. *)
Lemma normalize_time_unshaped_rewritten :
  time_shaped "abc:def" = false
  /\ ReservationCreate.normalize_time (RawStr "abc:def") = RawStr "abc:def:00"
  /\ ReservationCreate.normalize_time (RawStr "abc:def") <> RawStr "abc:def".
Proof. repeat split; discriminate. Qed.

(** The four inputs named by the specification. *)
Example normalize_time_examples :
  ReservationCreate.normalize_time (RawStr "9:30") = RawStr "09:30:00"
  /\ ReservationCreate.normalize_time (RawStr "09:30") = RawStr "09:30:00"
  /\ ReservationCreate.normalize_time (RawStr "9:30:15") = RawStr "09:30:15"
  /\ ReservationCreate.normalize_time (RawStr "09:30:15") = RawStr "09:30:15"
  /\ ReservationCreate.normalize_time RawNone = RawNone.
Proof. repeat split. Qed.

(** A shapeless input that normalisation turns into a valid time. *)
Example normalize_time_empty_hour :
  ReservationCreate.normalize_time (RawStr ":30") = RawStr "00:30:00".
Proof. reflexivity. Qed.

(** C7. A [duration_minutes] of zero or less fails both validators, and
    the request is answered 422 with the store untouched: no row written,
    no query made. *)
Theorem nonpositive_duration_rejected (v : Z) (db : Database) :
  (v <= 0)%Z ->
  ReservationCreate.validate_duration v = None
  /\ ReservationUpdate.validate_duration (Some v) = None
  /\ (forall b, ReservationCreate.body_duration_minutes b = Some v ->
                serve (POST_add b) db
                = (mkResponse HTTP_422_UNPROCESSABLE Error, db))
  /\ (forall id b, ReservationUpdate.body_duration_minutes b = Some v ->
                   serve (PUT_modify id b) db
                   = (mkResponse HTTP_422_UNPROCESSABLE Error, db)).
Proof.
  intros Hv. apply Z.leb_le in Hv.
  assert (ReservationCreate.validate_duration v = None) as Hc
      by (unfold ReservationCreate.validate_duration; now rewrite Hv).
  assert (ReservationUpdate.validate_duration (Some v) = None) as Hu
      by (unfold ReservationUpdate.validate_duration; now rewrite Hv).
  repeat split; try assumption.
  - intros b Hb.
    assert (ReservationCreate.model_validate b = None) as E.
    { unfold ReservationCreate.model_validate. cbv zeta. rewrite Hb, Hc.
      repeat match goal with
             | |- context [match ?x with _ => _ end] => destruct x
             end; reflexivity. }
    unfold serve. now rewrite E.
  - intros id b Hb.
    assert (ReservationUpdate.model_validate b = None) as E.
    { unfold ReservationUpdate.model_validate. cbv zeta. rewrite Hb, Hu.
      repeat match goal with
             | |- context [match ?x with _ => _ end] => destruct x
             end; reflexivity. }
    unfold serve. now rewrite E.
Qed.

Lemma nonpositive_duration_rejected_witness :
  (0 <= 0)%Z
  /\ serve (POST_add (ReservationCreate.mk_body "Ann" "555" "2025-06-01"
                        (RawStr "9:00") "Kim" "cut" (Some 0%Z) None))
       empty_database
     = (mkResponse HTTP_422_UNPROCESSABLE Error, empty_database).
Proof.
  split; [apply Z.le_refl|].
  apply (proj1 (proj2 (proj2
           (nonpositive_duration_rejected 0%Z empty_database (Z.le_refl 0))))).
  reflexivity.
Defined.

(** ** The booking invariant *)

Lemma keyed_same_id (rows : list Row.t) (r1 r2 : Row.t) :
  keyed rows -> In r1 rows -> In r2 rows ->
  Row.reservation_id r1 = Row.reservation_id r2 -> r1 = r2.
Proof.
  unfold keyed. induction rows as [|r rest IH]; simpl; [tauto|].
  intros K [<-|H1] [<-|H2] E; inversion K as [|? ? Hnot K']; subst.
  - reflexivity.
  - exfalso. apply Hnot. rewrite E. now apply in_map.
  - exfalso. apply Hnot. rewrite <- E. now apply in_map.
  - now apply IH.
Qed.

Lemma filter_two {A : Type} (p : A -> bool) (l : list A) (a b : A) :
  In a l -> In b l -> a <> b -> p a = true -> p b = true ->
  (2 <= List.length (filter p l))%nat.
Proof.
  induction l as [|x l IH]; simpl; [tauto|].
  intros Ha Hb Hab Pa Pb.
  assert (forall y, In y l -> p y = true ->
                    (1 <= List.length (filter p l))%nat) as One.
  { intros y Hy Py. assert (In y (filter p l)) as F
        by (apply filter_In; now split).
    destruct (filter p l); [destruct F|simpl; lia]. }
  destruct Ha as [<-|Ha], Hb as [<-|Hb].
  - congruence.
  - rewrite Pa. simpl. specialize (One b Hb Pb). lia.
  - rewrite Pb. simpl. specialize (One a Ha Pa). lia.
  - specialize (IH Ha Hb Hab Pa Pb). destruct (p x); simpl; lia.
Qed.

Lemma exclusive_iff (rows : list Row.t) :
  keyed rows -> (at_most_one_scheduled_per_slot rows <-> exclusive rows).
Proof.
  intros K. split.
  - intros H s d t r1 r2 In1 In2 O1 O2.
    destruct (N.eq_dec (Row.reservation_id r1) (Row.reservation_id r2))
      as [E|N]; [exact E|].
    assert (r1 <> r2) as Hne by congruence.
    pose proof (filter_two _ _ _ _ In1 In2 Hne O1 O2) as Two.
    specialize (H s d t). lia.
  - intros H s d t.
    destruct (filter (occupies s d t) rows) as [|a [|b rest]] eqn:F;
      simpl; try lia.
    exfalso.
    assert (In a (filter (occupies s d t) rows)) as Fa
        by (rewrite F; simpl; tauto).
    assert (In b (filter (occupies s d t) rows)) as Fb
        by (rewrite F; simpl; tauto).
    apply filter_In in Fa as [Ia Oa], Fb as [Ib Ob].
    pose proof (H s d t a b Ia Ib Oa Ob) as E.
    pose proof (keyed_same_id _ _ _ K Ia Ib E) as ->.
    assert (NoDup (filter (occupies s d t) rows)) as ND.
    { apply NoDup_filter. apply (NoDup_map_inv Row.reservation_id). exact K. }
    rewrite F in ND. inversion ND as [|? ? Hnot _]. apply Hnot. simpl. tauto.
Qed.

Lemma fresh_id_above (rows : list Row.t) (r : Row.t) :
  In r rows -> (Row.reservation_id r < fresh_id rows)%N.
Proof.
  unfold fresh_id. induction rows as [|x rest IH]; simpl; [tauto|].
  intros [<-|H]; [lia|]. specialize (IH H). lia.
Qed.

Lemma fresh_id_new (rows : list Row.t) :
  ~ In (fresh_id rows) (map Row.reservation_id rows).
Proof.
  intros H. apply in_map_iff in H as (r & E & Hin).
  pose proof (fresh_id_above _ _ Hin). lia.
Qed.

(** ** What the handlers do to the table *)

Lemma by_id_matches (id : UUID) (r : Row.t) :
  matches_all [eq_reservation_id id] r = has_id id r.
Proof. unfold matches_all, has_id. simpl. apply andb_true_r. Qed.

Lemma select_by_id (id : UUID) (db : Database) :
  select [eq_reservation_id id] [] db
  = (inr (filter (has_id id) (salon_reservations db)), logged SELECT db).
Proof.
  unfold select. rewrite sorted_no_order. do 2 f_equal.
  apply filter_pointwise, by_id_matches.
Qed.

Lemma update_by_id (data : UpdateData.t) (id : UUID) (db : Database) :
  update data [eq_reservation_id id] db
  = (inr (map (apply_update data (clock db))
            (filter (has_id id) (salon_reservations db))),
     mkDatabase (map (written id data (clock db)) (salon_reservations db))
       (N.succ (clock db)) (calls db ++ [UPDATE])).
Proof.
  unfold update. f_equal.
  - do 2 f_equal. apply filter_pointwise, by_id_matches.
  - f_equal. apply map_ext. intros r. unfold written.
    now rewrite by_id_matches.
Qed.

Lemma create_reservation_run (reservation : ReservationCreate.t)
    (db : Database) :
  create_reservation reservation db
  = if existsb (occupies (ReservationCreate.stylist_name reservation)
                  (date_strftime (ReservationCreate.reservation_date reservation))
                  (time_strftime (ReservationCreate.reservation_time reservation)))
         (salon_reservations db)
    then (inl (mkHTTPException HTTP_409_CONFLICT), logged SELECT db)
    else
      (match to_response (created_row reservation db) with
       | Some response =>
           inr (ReservationCreateResponse.mk
                  ("Reservation created successfully for "
                   ++ ReservationCreate.customer_name reservation)
                  (ReservationResponse.reservation_id response) response)
       | None => inl (mkHTTPException HTTP_500_INTERNAL_SERVER_ERROR)
       end,
       mkDatabase (salon_reservations db ++ [created_row reservation db])
         (N.succ (clock db)) ((calls db ++ [SELECT]) ++ [INSERT])).
Proof.
  unfold create_reservation, bind.
  rewrite check_availability_conflict_run.
  rewrite (existsb_pointwise _
             (occupies (ReservationCreate.stylist_name reservation)
                (date_strftime (ReservationCreate.reservation_date reservation))
                (time_strftime (ReservationCreate.reservation_time reservation))))
    by (intros r; apply andb_true_r).
  destruct (existsb _ _); [reflexivity|].
  unfold insert, logged. cbn [salon_reservations clock calls].
  fold (created_row reservation db).
  destruct (to_response (created_row reservation db)); reflexivity.
Qed.

Lemma modify_reservation_run (id : UUID) (updates : ReservationUpdate.t)
    (db : Database) :
  modify_reservation id updates db
  = match filter (has_id id) (salon_reservations db) with
    | [] => (inl (mkHTTPException HTTP_404_NOT_FOUND), logged SELECT db)
    | existing_record :: _ =>
        let data := build_update_data updates in
        match date_fromisoformat
                (UpdateData.get (UpdateData.reservation_date data)
                   (Row.reservation_date existing_record)),
              time_fromisoformat
                (UpdateData.get (UpdateData.reservation_time data)
                   (Row.reservation_time existing_record)) with
        | Some d, Some tm =>
            if existsb
                 (fun r =>
                    occupies
                      (UpdateData.get (UpdateData.stylist_name data)
                         (Row.stylist_name existing_record))
                      (date_strftime d) (time_strftime tm) r
                    && not_excluded (Some id) r)
                 (salon_reservations db)
            then (inl (mkHTTPException HTTP_409_CONFLICT),
                  logged SELECT (logged SELECT db))
            else
              (match map (apply_update data (clock db))
                       (filter (has_id id) (salon_reservations db)) with
               | [] => inl (mkHTTPException HTTP_500_INTERNAL_SERVER_ERROR)
               | updated_record :: _ =>
                   match to_response updated_record with
                   | Some response => inr response
                   | None => inl (mkHTTPException HTTP_500_INTERNAL_SERVER_ERROR)
                   end
               end,
               mkDatabase
                 (map (written id data (clock db)) (salon_reservations db))
                 (N.succ (clock db))
                 (((calls db ++ [SELECT]) ++ [SELECT]) ++ [UPDATE]))
        | _, _ =>
            (inl (mkHTTPException HTTP_500_INTERNAL_SERVER_ERROR),
             logged SELECT db)
        end
    end.
Proof.
  unfold modify_reservation, bind. rewrite select_by_id.
  destruct (filter (has_id id) (salon_reservations db)) as [|e rest] eqn:F;
    [reflexivity|].
  cbv zeta.
  destruct (date_fromisoformat _) as [d|]; [|reflexivity].
  destruct (time_fromisoformat _) as [tm|]; [|reflexivity].
  rewrite check_availability_conflict_run.
  cbn [salon_reservations logged].
  destruct (existsb _ _); [reflexivity|].
  rewrite update_by_id. cbn [salon_reservations logged clock calls]. rewrite F.
  cbn [map]. destruct (to_response _); reflexivity.
Qed.

Lemma cancel_reservation_run (id : UUID) (db : Database) :
  cancel_reservation id db
  = match filter (has_id id) (salon_reservations db) with
    | [] => (inl (mkHTTPException HTTP_404_NOT_FOUND), logged SELECT db)
    | existing_record :: _ =>
        (match to_response
                 (apply_update cancel_update (clock db) existing_record) with
         | Some response => inr response
         | None => inl (mkHTTPException HTTP_500_INTERNAL_SERVER_ERROR)
         end,
         mkDatabase
           (map (written id cancel_update (clock db)) (salon_reservations db))
           (N.succ (clock db)) ((calls db ++ [SELECT]) ++ [UPDATE]))
    end.
Proof.
  unfold cancel_reservation, bind. rewrite select_by_id.
  destruct (filter (has_id id) (salon_reservations db)) as [|e rest] eqn:F;
    [reflexivity|].
  rewrite update_by_id. cbn [salon_reservations logged clock calls]. rewrite F.
  cbn [map]. destruct (to_response _); reflexivity.
Qed.

Lemma lookup_reservations_table (phone_number : string) (db : Database) :
  snd (lookup_reservations phone_number db) = logged SELECT db.
Proof.
  unfold lookup_reservations, bind, select.
  destruct (sorted _ _); [reflexivity|].
  destruct (to_responses _); reflexivity.
Qed.

Lemma check_availability_table (d : date) (stylist : string) (db : Database) :
  snd (check_availability d stylist db) = logged SELECT db.
Proof.
  unfold check_availability, bind, select.
  destruct (parse_times _); reflexivity.
Qed.

(** ** Preservation of the booking invariant *)

Lemma written_id (id : UUID) (data : UpdateData.t) (now : N) (r : Row.t) :
  Row.reservation_id (written id data now r) = Row.reservation_id r.
Proof. unfold written. destruct (N.eqb _ _); reflexivity. Qed.

Lemma written_ids (id : UUID) (data : UpdateData.t) (now : N)
    (rows : list Row.t) :
  map Row.reservation_id (map (written id data now) rows)
  = map Row.reservation_id rows.
Proof. rewrite map_map. apply map_ext. intros r. apply written_id. Qed.

Lemma written_other (id : UUID) (data : UpdateData.t) (now : N) (r : Row.t) :
  Row.reservation_id r <> id -> written id data now r = r.
Proof.
  intros H. unfold written. apply N.eqb_neq in H. now rewrite H.
Qed.

Lemma keyed_append (rows : list Row.t) (r : Row.t) :
  keyed rows -> ~ In (Row.reservation_id r) (map Row.reservation_id rows) ->
  keyed (rows ++ [r]).
Proof.
  unfold keyed. intros K N. rewrite map_app. simpl.
  apply NoDup_app; [exact K|repeat constructor; simpl; tauto|].
  intros x Hx [<-|[]]. now apply N.
Qed.

Lemma exclusive_create (rows : list Row.t) (r : Row.t) :
  exclusive rows ->
  existsb (occupies (Row.stylist_name r) (Row.reservation_date r)
             (Row.reservation_time r)) rows = false ->
  exclusive (rows ++ [r]).
Proof.
  intros H Free s d t r1 r2 In1 In2 O1 O2.
  assert (forall x, In x rows -> occupies s d t x = true ->
                    occupies s d t r = true -> False) as Clash.
  { intros x Hx Ox Or. apply occupies_iff in Or as (<- & <- & <- & _).
    apply not_true_iff_false in Free. apply Free.
    apply existsb_exists. now exists x. }
  apply in_app_or in In1 as [In1|[<-|[]]], In2 as [In2|[<-|[]]].
  - now apply (H s d t).
  - exfalso. now apply (Clash r1).
  - exfalso. now apply (Clash r2).
  - reflexivity.
Qed.

Lemma exclusive_cancel (id : UUID) (now : N) (rows : list Row.t) :
  exclusive rows -> exclusive (map (written id cancel_update now) rows).
Proof.
  intros H s d t r1' r2' In1 In2 O1 O2.
  assert (forall r', In r' (map (written id cancel_update now) rows) ->
                     occupies s d t r' = true -> In r' rows) as Kept.
  { intros r' Hin O. apply in_map_iff in Hin as (r & <- & Hr).
    unfold written in *. destruct (N.eqb _ _); [|exact Hr].
    apply occupies_iff in O as (_ & _ & _ & C). discriminate C. }
  apply (H s d t); auto.
Qed.

Lemma exclusive_modify (id : UUID) (data : UpdateData.t) (now : N)
    (rows : list Row.t) (e : Row.t) :
  keyed rows -> exclusive rows ->
  In e rows -> Row.reservation_id e = id ->
  existsb (fun r =>
             occupies (Row.stylist_name (apply_update data now e))
               (Row.reservation_date (apply_update data now e))
               (Row.reservation_time (apply_update data now e)) r
             && not_excluded (Some id) r) rows = false ->
  exclusive (map (written id data now) rows).
Proof.
  intros K H He Hid Free s d t r1' r2' In1 In2 O1 O2.
  apply in_map_iff in In1 as (r1 & <- & In1).
  apply in_map_iff in In2 as (r2 & <- & In2).
  assert (forall a b, In a rows -> In b rows ->
            Row.reservation_id a = id -> Row.reservation_id b <> id ->
            occupies s d t (written id data now a) = true ->
            occupies s d t (written id data now b) = true -> False) as Clash.
  { intros a b Ha Hb Ia Ib Oa Ob.
    assert (a = e) as -> by (apply (keyed_same_id rows); congruence).
    rewrite (written_other _ _ _ _ Ib) in Ob.
    unfold written in Oa. apply N.eqb_eq in Ia. rewrite Ia in Oa.
    apply occupies_iff in Oa as (<- & <- & <- & _).
    apply not_true_iff_false in Free. apply Free.
    apply existsb_exists. exists b. split; [exact Hb|].
    rewrite Ob. simpl. now apply negb_true_iff, N.eqb_neq. }
  rewrite !written_id.
  destruct (N.eq_dec (Row.reservation_id r1) id) as [E1|N1],
           (N.eq_dec (Row.reservation_id r2) id) as [E2|N2].
  - congruence.
  - exfalso. now apply (Clash r1 r2).
  - exfalso. now apply (Clash r2 r1).
  - rewrite (written_other _ _ _ _ N1) in O1.
    rewrite (written_other _ _ _ _ N2) in O2. now apply (H s d t).
Qed.

Lemma filter_head_in {A : Type} (p : A -> bool) (l : list A) (x : A)
    (rest : list A) :
  filter p l = x :: rest -> In x l /\ p x = true.
Proof.
  intros F. apply filter_In. rewrite F. simpl. tauto.
Qed.

Lemma create_reservation_invariant (reservation : ReservationCreate.t)
    (db : Database) :
  booking_invariant db ->
  booking_invariant (snd (create_reservation reservation db)).
Proof.
  intros [K Hone]. rewrite create_reservation_run.
  destruct (existsb _ _) eqn:Free; [now split|].
  cbn [snd]. unfold booking_invariant. cbn [salon_reservations].
  assert (keyed (salon_reservations db ++ [created_row reservation db])) as K'.
  { apply keyed_append; [exact K|]. apply fresh_id_new. }
  split; [exact K'|]. apply exclusive_iff; [exact K'|].
  apply exclusive_create; [now apply exclusive_iff|exact Free].
Qed.

Lemma cancel_reservation_invariant (id : UUID) (db : Database) :
  booking_invariant db -> booking_invariant (snd (cancel_reservation id db)).
Proof.
  intros [K Hone]. rewrite cancel_reservation_run.
  destruct (filter _ _); [now split|].
  cbn [snd]. unfold booking_invariant. cbn [salon_reservations].
  assert (keyed (map (written id cancel_update (clock db))
                   (salon_reservations db))) as K'
      by (unfold keyed; now rewrite written_ids).
  split; [exact K'|]. apply exclusive_iff; [exact K'|].
  apply exclusive_cancel. now apply exclusive_iff.
Qed.

Lemma modify_reservation_invariant (id : UUID)
    (updates : ReservationUpdate.t) (db : Database) :
  booking_invariant db ->
  booking_invariant (snd (modify_reservation id updates db)).
Proof.
  intros [K Hone]. rewrite modify_reservation_run.
  destruct (filter _ _) as [|e rest] eqn:F; [now split|].
  cbv zeta.
  destruct (date_fromisoformat _) as [d|] eqn:Ed; [|now split].
  destruct (time_fromisoformat _) as [tm|] eqn:Et; [|now split].
  destruct (existsb _ _) eqn:Free; [now split|].
  cbn [snd]. unfold booking_invariant. cbn [salon_reservations].
  set (data := build_update_data updates) in *.
  assert (keyed (map (written id data (clock db)) (salon_reservations db)))
    as K' by (unfold keyed; now rewrite written_ids).
  split; [exact K'|]. apply exclusive_iff; [exact K'|].
  apply filter_head_in in F as [He Hid]. apply N.eqb_eq in Hid.
  apply date_strftime_fromisoformat in Ed as [Ed _].
  apply time_strftime_fromisoformat in Et as [Et _].
  apply (exclusive_modify id data (clock db) _ e); auto.
  - now apply exclusive_iff.
  - cbn [apply_update Row.stylist_name Row.reservation_date
           Row.reservation_time]. rewrite <- Ed, <- Et. exact Free.
Qed.

Lemma serve_invariant (req : Request) (db : Database) :
  booking_invariant db -> booking_invariant (snd (serve req db)).
Proof.
  intros Inv.
  assert (forall (A : Type) (code : nat) (wrap : A -> Payload) (m : M A),
             booking_invariant (snd (m db)) ->
             booking_invariant (snd (respond code wrap m db))) as Resp.
  { intros A c w m H. unfold respond. destruct (m db) as [[e|a] db']; exact H. }
  destruct req as [b|phone|id b|id|ds stylist|]; cbn [serve];
    unfold route_add, route_lookup, route_modify, route_cancel,
           route_availability.
  - destruct (ReservationCreate.model_validate b); [|exact Inv].
    apply Resp. now apply create_reservation_invariant.
  - apply Resp. now rewrite lookup_reservations_table.
  - destruct (ReservationUpdate.model_validate b); [|exact Inv].
    apply Resp. now apply modify_reservation_invariant.
  - apply Resp. now apply cancel_reservation_invariant.
  - destruct (date_fromisoformat ds); [|exact Inv].
    apply Resp. now rewrite check_availability_table.
  - exact Inv.
Qed.

Lemma distinct_ids_sound (ids : list UUID) :
  distinct_ids ids = true -> NoDup ids.
Proof.
  induction ids as [|i rest IH]; simpl; [constructor|].
  intros H. apply andb_prop in H as [Hi Hrest].
  constructor; [|now apply IH].
  intros Hin. apply negb_true_iff, not_true_iff_false in Hi. apply Hi.
  apply existsb_exists. exists i. split; [exact Hin|apply N.eqb_refl].
Qed.

Lemma no_double_booking_sound (rows : list Row.t) :
  no_double_booking rows = true -> exclusive rows.
Proof.
  induction rows as [|r rest IH]; simpl; [intros _ s d t r1 r2 []|].
  intros H. apply andb_prop in H as [Hr Hrest].
  apply negb_true_iff in Hr. specialize (IH Hrest).
  assert (forall s d t x, In x rest -> occupies s d t r = true ->
                          occupies s d t x = true -> False) as Clash.
  { intros s d t x Hx Or Ox. apply not_true_iff_false in Hr. apply Hr.
    pose proof Or as Or'. apply occupies_iff in Or' as (<- & <- & <- & ->).
    simpl. apply existsb_exists. now exists x. }
  intros s d t r1 r2 [<-|In1] [<-|In2] O1 O2.
  - reflexivity.
  - exfalso. now apply (Clash s d t r2).
  - exfalso. now apply (Clash s d t r1).
  - now apply (IH s d t).
Qed.

Lemma booking_invariantb_sound (db : Database) :
  booking_invariantb db = true -> booking_invariant db.
Proof.
  unfold booking_invariantb. intros H. apply andb_prop in H as [Hk He].
  assert (keyed (salon_reservations db)) as K
      by (now apply distinct_ids_sound).
  split; [exact K|]. apply exclusive_iff; [exact K|].
  now apply no_double_booking_sound.
Qed.

(** C1. Run one after another, the operations keep the booking invariant:
    on a table keyed by [reservation_id] in which no (stylist, date, time)
    slot holds two reservations with status [scheduled], every request of
    the HTTP surface leaves a table that is again keyed and in which no
    slot holds two. *)
Theorem serve_preserves_booking_invariant (req : Request) (db : Database) :
  keyed (salon_reservations db) ->
  at_most_one_scheduled_per_slot (salon_reservations db) ->
  keyed (salon_reservations (snd (serve req db)))
  /\ at_most_one_scheduled_per_slot (salon_reservations (snd (serve req db))).
Proof.
  intros K H. now apply (serve_invariant req db).
Qed.

Lemma serve_preserves_booking_invariant_witness :
  keyed (salon_reservations db_ann)
  /\ at_most_one_scheduled_per_slot (salon_reservations db_ann)
  /\ keyed (salon_reservations (snd (serve (POST_add bob) db_ann)))
  /\ at_most_one_scheduled_per_slot
       (salon_reservations (snd (serve (POST_add bob) db_ann))).
Proof.
  assert (booking_invariant db_ann) as [K H]
      by (apply booking_invariantb_sound; reflexivity).
  split; [exact K|]. split; [exact H|].
  exact (serve_preserves_booking_invariant (POST_add bob) db_ann K H).
Defined.

(** Every table reached from the empty one by a sequence of requests
    satisfies the booking invariant. *)
Lemma serve_all_invariant (reqs : list Request) (db : Database) :
  booking_invariant db -> booking_invariant (snd (serve_all reqs db)).
Proof.
  revert db. induction reqs as [|req rest IH]; intros db Inv; [exact Inv|].
  cbn [serve_all]. pose proof (serve_invariant req db Inv) as Step.
  destruct (serve req db) as [resp db']. specialize (IH db' Step).
  destruct (serve_all rest db') as [resps db'']. exact IH.
Qed.

Corollary reachable_tables_invariant (reqs : list Request) :
  booking_invariant (snd (serve_all reqs empty_database)).
Proof.
  apply serve_all_invariant. apply booking_invariantb_sound. reflexivity.
Qed.

(** ** Conversion to responses *)

Lemma row_readable_fields (r r' : Row.t) :
  Row.reservation_date r' = Row.reservation_date r ->
  Row.reservation_time r' = Row.reservation_time r ->
  row_readable r' = row_readable r.
Proof.
  unfold row_readable, to_response. intros Hd Ht. rewrite Hd, Ht.
  destruct (date_fromisoformat (Row.reservation_date r)),
           (time_fromisoformat (Row.reservation_time r)); reflexivity.
Qed.

Lemma to_response_readable (r : Row.t) :
  row_readable r = true -> exists resp, to_response r = Some resp.
Proof.
  unfold row_readable. destruct (to_response r) as [resp|];
    [now exists resp|discriminate].
Qed.

Lemma to_response_fields (r : Row.t) (resp : ReservationResponse.t) :
  to_response r = Some resp ->
  ReservationResponse.reservation_id resp = Row.reservation_id r
  /\ ReservationResponse.customer_name resp = Row.customer_name r
  /\ ReservationResponse.phone_number resp = Row.phone_number r
  /\ date_strftime (ReservationResponse.reservation_date resp)
     = Row.reservation_date r
  /\ time_strftime (ReservationResponse.reservation_time resp)
     = Row.reservation_time r
  /\ ReservationResponse.stylist_name resp = Row.stylist_name r
  /\ ReservationResponse.service_menu resp = Row.service_menu r
  /\ ReservationResponse.duration_minutes resp = Row.duration_minutes r
  /\ ReservationResponse.status resp = value (Row.status r)
  /\ ReservationResponse.notes resp = Row.notes r.
Proof.
  unfold to_response.
  destruct (date_fromisoformat _) as [d|] eqn:Ed; [|discriminate].
  destruct (time_fromisoformat _) as [tm|] eqn:Et; [|discriminate].
  intros [= <-]. cbn.
  apply date_strftime_fromisoformat in Ed as [Ed _].
  apply time_strftime_fromisoformat in Et as [Et _].
  repeat split; assumption.
Qed.

Lemma filter_no_id (id : UUID) (rows : list Row.t) :
  ~ In id (map Row.reservation_id rows) -> filter (has_id id) rows = [].
Proof.
  induction rows as [|r rest IH]; simpl; [reflexivity|].
  intros H. unfold has_id at 1.
  destruct (N.eqb_spec (Row.reservation_id r) id) as [E|_]; [tauto|].
  apply IH. tauto.
Qed.

Lemma written_no_id (id : UUID) (data : UpdateData.t) (now : N)
    (rows : list Row.t) :
  ~ In id (map Row.reservation_id rows) ->
  map (written id data now) rows = rows.
Proof.
  induction rows as [|r rest IH]; simpl; [reflexivity|].
  intros H. rewrite written_other by tauto. f_equal. apply IH. tauto.
Qed.

(** ** Create, conflict, cancel, create again *)

(** C5. After a create at (S, D, T) has been answered 201, a second create
    at the same (S, D, T) is answered 409 and leaves the table and its
    clock as they were; cancelling the first reservation is answered 200
    with status [cancelled]; and the same create is then answered 201. *)
Theorem create_conflict_cancel_create
    (first second : ReservationCreate.t) (db db1 : Database)
    (created : ReservationCreateResponse.t) :
  route_add first db = (mkResponse 201 (Created created), db1) ->
  ReservationCreate.stylist_name second = ReservationCreate.stylist_name first ->
  ReservationCreate.reservation_date second
  = ReservationCreate.reservation_date first ->
  ReservationCreate.reservation_time second
  = ReservationCreate.reservation_time first ->
  exists db2 cancelled db3 created' db4,
    route_add second db1 = (mkResponse HTTP_409_CONFLICT Error, db2)
    /\ salon_reservations db2 = salon_reservations db1
    /\ clock db2 = clock db1
    /\ route_cancel (ReservationCreateResponse.reservation_id created) db2
       = (mkResponse 200 (Reservation cancelled), db3)
    /\ ReservationResponse.status cancelled = value CANCELLED
    /\ route_add second db3 = (mkResponse 201 (Created created'), db4).
Proof.
  unfold route_add, route_cancel, respond.
  intros Hfirst Hs Hd Ht.
  rewrite create_reservation_run in Hfirst.
  destruct (existsb _ (salon_reservations db)) eqn:Free; [discriminate|].
  destruct (to_response (created_row first db)) as [resp|] eqn:Eresp;
    [|discriminate].
  injection Hfirst as <- <-.
  cbn [ReservationCreateResponse.reservation_id].
  pose proof (to_response_fields _ _ Eresp) as (Eid & _).
  cbn [created_row new_row Row.reservation_id] in Eid. rewrite Eid.
  set (row1 := created_row first db) in *.
  set (db1 := mkDatabase (salon_reservations db ++ [row1]) _ _).
  set (id := fresh_id (salon_reservations db)).
  (* the second create finds the first reservation *)
  assert (create_reservation second db1
          = (inl (mkHTTPException HTTP_409_CONFLICT), logged SELECT db1))
    as Second.
  { rewrite create_reservation_run.
    replace (existsb _ (salon_reservations db1)) with true; [reflexivity|].
    symmetry. apply existsb_exists. exists row1. split.
    - apply in_or_app. right. simpl. tauto.
    - rewrite Hs, Hd, Ht. apply occupies_iff. repeat split. }
  (* cancelling touches the first reservation only *)
  pose proof (fresh_id_new (salon_reservations db)) as Fresh. fold id in Fresh.
  set (db2 := logged SELECT db1) in *.
  set (db3 := mkDatabase
                (map (written id cancel_update (clock db2))
                   (salon_reservations db2))
                (N.succ (clock db2)) ((calls db2 ++ [SELECT]) ++ [UPDATE])).
  assert (exists cancelled,
             cancel_reservation id db2 = (inr cancelled, db3)
             /\ ReservationResponse.status cancelled = value CANCELLED)
    as (cancelled & Cancel & Est).
  { rewrite cancel_reservation_run.
    assert (filter (has_id id) (salon_reservations db2) = [row1]) as ->.
    { cbn [db2 logged salon_reservations db1]. rewrite filter_app.
      rewrite (filter_no_id _ _ Fresh). simpl. unfold has_id.
      cbn [row1 created_row new_row Row.reservation_id]. fold id.
      now rewrite N.eqb_refl. }
    assert (row_readable (apply_update cancel_update (clock db2) row1) = true)
      as Readable.
    { rewrite (row_readable_fields row1); [|reflexivity|reflexivity].
      unfold row_readable. now rewrite Eresp. }
    destruct (to_response_readable _ Readable) as [cancelled Ecancelled].
    rewrite Ecancelled. exists cancelled. split; [reflexivity|].
    now pose proof (to_response_fields _ _ Ecancelled)
      as (_ & _ & _ & _ & _ & _ & _ & _ & Est & _). }
  (* the slot is free again *)
  assert (exists created', exists db4,
             create_reservation second db3 = (inr created', db4))
    as (created' & db4 & Third).
  { rewrite create_reservation_run.
    replace (existsb _ (salon_reservations db3)) with false.
    - assert (row_readable (created_row second db3) = true) as Readable3.
      { rewrite (row_readable_fields row1).
        - unfold row_readable. now rewrite Eresp.
        - cbn. now rewrite Hd.
        - cbn. now rewrite Ht. }
      destruct (to_response_readable _ Readable3) as [resp3 Eresp3].
      rewrite Eresp3. now do 2 eexists.
    - symmetry. cbn [db3 db2 logged salon_reservations db1]. rewrite map_app.
      rewrite (written_no_id _ _ _ _ Fresh). rewrite existsb_app.
      rewrite Hs, Hd, Ht, Free. simpl. unfold written.
      cbn [row1 created_row new_row Row.reservation_id]. fold id.
      rewrite N.eqb_refl. unfold occupies. cbn. now rewrite !andb_false_r. }
  exists db2, cancelled, db3, created', db4.
  rewrite Second, Cancel, Third. repeat split. exact Est.
Qed.

Lemma create_conflict_cancel_create_witness :
  route_add ann_reservation empty_database
  = (mkResponse 201 (Created ann_created), db_ann)
  /\ exists db2 cancelled db3 created' db4,
       route_add bob_reservation db_ann
       = (mkResponse HTTP_409_CONFLICT Error, db2)
       /\ salon_reservations db2 = salon_reservations db_ann
       /\ clock db2 = clock db_ann
       /\ route_cancel (ReservationCreateResponse.reservation_id ann_created)
            db2
          = (mkResponse 200 (Reservation cancelled), db3)
       /\ ReservationResponse.status cancelled = value CANCELLED
       /\ route_add bob_reservation db3
          = (mkResponse 201 (Created created'), db4).
Proof.
  split; [reflexivity|].
  apply (create_conflict_cancel_create ann_reservation bob_reservation
           empty_database db_ann ann_created); reflexivity.
Defined.

(** ** Modifying a reservation onto its own slot *)

Lemma to_response_date (r : Row.t) (resp : ReservationResponse.t) :
  to_response r = Some resp ->
  date_fromisoformat (Row.reservation_date r)
  = Some (ReservationResponse.reservation_date resp).
Proof.
  unfold to_response.
  destruct (date_fromisoformat _) as [d|]; [|discriminate].
  destruct (time_fromisoformat _) as [tm|]; [|discriminate].
  now intros [= <-].
Qed.

Lemma filter_keyed_head (id : UUID) (rows : list Row.t) (e x : Row.t)
    (rest : list Row.t) :
  keyed rows -> In e rows -> Row.reservation_id e = id ->
  filter (has_id id) rows = x :: rest -> x = e.
Proof.
  intros K He Hid F. apply filter_head_in in F as [Hx Ix].
  apply N.eqb_eq in Ix. apply (keyed_same_id rows); congruence.
Qed.

(** In a table that satisfies the invariant, the slot of a scheduled
    reservation holds no other scheduled reservation. *)
Lemma own_slot_free (rows : list Row.t) (e : Row.t) :
  keyed rows -> at_most_one_scheduled_per_slot rows ->
  In e rows -> Row.status e = SCHEDULED ->
  forall r, In r rows -> Row.reservation_id r <> Row.reservation_id e ->
            occupies (Row.stylist_name e) (Row.reservation_date e)
              (Row.reservation_time e) r = false.
Proof.
  intros K H He Hst r Hr Hid. apply not_true_is_false. intros O.
  apply Hid. apply exclusive_iff in H; [|exact K].
  apply (H (Row.stylist_name e) (Row.reservation_date e)
           (Row.reservation_time e)); auto.
  apply occupies_iff. tauto.
Qed.

(** C6, as amended. For a reservation dated in the year 1000 or later, a
    modify request whose resulting (stylist, date, time) is the
    reservation's own is answered 200 whenever no other scheduled
    reservation holds that slot: the check leaves the reservation's own
    identifier out, so it never conflicts with itself. The row keeps its
    slot. (Below the year 1000 the answer depends on how the platform
    prints the year.) *)
Theorem modify_to_own_slot (id : UUID) (updates : ReservationUpdate.t)
    (db : Database) (e : Row.t) :
  keyed (salon_reservations db) ->
  In e (salon_reservations db) ->
  Row.reservation_id e = id ->
  row_readable e = true ->
  row_full_year e = true ->
  (forall s, ReservationUpdate.stylist_name updates = Some s ->
             s = Row.stylist_name e) ->
  (forall d, ReservationUpdate.reservation_date updates = Some d ->
             date_strftime d = Row.reservation_date e) ->
  (forall tm, ReservationUpdate.reservation_time updates = Some tm ->
              time_strftime tm = Row.reservation_time e) ->
  (forall r, In r (salon_reservations db) -> Row.reservation_id r <> id ->
             occupies (Row.stylist_name e) (Row.reservation_date e)
               (Row.reservation_time e) r = false) ->
  exists resp db',
    route_modify id updates db = (mkResponse 200 (Reservation resp), db')
    /\ ReservationResponse.reservation_id resp = id
    /\ ReservationResponse.stylist_name resp = Row.stylist_name e
    /\ date_strftime (ReservationResponse.reservation_date resp)
       = Row.reservation_date e
    /\ time_strftime (ReservationResponse.reservation_time resp)
       = Row.reservation_time e
    /\ In (apply_update (build_update_data updates) (clock db) e)
         (salon_reservations db')
    /\ full_year (ReservationResponse.reservation_date resp) = true.
Proof.
  intros K He Hid Readable Full Hs Hd Ht Others.
  unfold route_modify, respond. rewrite modify_reservation_run.
  destruct (filter (has_id id) (salon_reservations db)) as [|x rest] eqn:F.
  { exfalso. assert (In e (filter (has_id id) (salon_reservations db))) as C.
    { apply filter_In. split; [exact He|]. now apply N.eqb_eq. }
    now rewrite F in C. }
  pose proof (filter_keyed_head _ _ _ _ _ K He Hid F) as ->.
  cbv zeta. set (data := build_update_data updates).
  assert (UpdateData.get (UpdateData.stylist_name data) (Row.stylist_name e)
          = Row.stylist_name e) as Es.
  { unfold data, build_update_data. cbn.
    destruct (ReservationUpdate.stylist_name updates) as [s|] eqn:E;
      [now apply Hs|reflexivity]. }
  assert (UpdateData.get (UpdateData.reservation_date data)
            (Row.reservation_date e) = Row.reservation_date e) as Ed.
  { unfold data, build_update_data. cbn.
    destruct (ReservationUpdate.reservation_date updates) as [d|] eqn:E;
      [now apply Hd|reflexivity]. }
  assert (UpdateData.get (UpdateData.reservation_time data)
            (Row.reservation_time e) = Row.reservation_time e) as Et.
  { unfold data, build_update_data. cbn.
    destruct (ReservationUpdate.reservation_time updates) as [tm|] eqn:E;
      [now apply Ht|reflexivity]. }
  rewrite Es, Ed, Et.
  assert (row_readable (apply_update data (clock db) e) = true) as Readable'.
  { rewrite (row_readable_fields e); [exact Readable| |]; cbn; assumption. }
  assert (row_full_year (apply_update data (clock db) e) = true) as Full'.
  { unfold row_full_year. cbn [apply_update Row.reservation_date].
    rewrite Ed. exact Full. }
  unfold row_readable, to_response in Readable.
  destruct (date_fromisoformat (Row.reservation_date e)) as [d|] eqn:Pd;
    [|discriminate].
  destruct (time_fromisoformat (Row.reservation_time e)) as [tm|] eqn:Pt;
    [|discriminate].
  apply date_strftime_fromisoformat in Pd as [Pd _].
  apply time_strftime_fromisoformat in Pt as [Pt _].
  rewrite Pd, Pt.
  replace (existsb _ (salon_reservations db)) with false.
  - cbn [map]. destruct (to_response_readable _ Readable') as [resp Eresp].
    rewrite Eresp. exists resp. eexists. split; [reflexivity|].
    pose proof (to_response_fields _ _ Eresp)
      as (Rid & _ & _ & Rd & Rt & Rs & _).
    cbn [apply_update Row.reservation_id Row.stylist_name
           Row.reservation_date Row.reservation_time] in Rid, Rd, Rt, Rs.
    rewrite Es in Rs. rewrite Ed in Rd. rewrite Et in Rt.
    repeat split; try congruence.
    + cbn [salon_reservations]. apply in_map_iff. exists e.
      split; [|exact He].
      unfold written. apply N.eqb_eq in Hid. now rewrite Hid.
    + unfold row_full_year in Full'.
      now rewrite (to_response_date _ _ Eresp) in Full'.
  - symmetry. apply not_true_is_false. rewrite existsb_exists.
    intros (r & Hr & C). apply andb_prop in C as [O X].
    cbn in X. apply negb_true_iff, N.eqb_neq in X.
    now rewrite (Others r Hr X) in O.
Qed.

(** C6, as stated, fails: Ann's reservation was cancelled and Bob then
    booked the slot; re-saving Ann's reservation at its own time is
    answered 409. *)
Lemma modify_own_slot_conflict :
  (exists e, In e (salon_reservations db_ann_cancelled_bob)
             /\ Row.reservation_id e = 1%N
             /\ Row.reservation_time e = time_strftime (mktime 9 0 0))
  /\ fst (route_modify 1%N at_nine db_ann_cancelled_bob)
     = mkResponse HTTP_409_CONFLICT Error
  /\ booking_invariant db_ann_cancelled_bob.
Proof.
  split; [|split].
  - eexists. split; [left; reflexivity|]. split; reflexivity.
  - reflexivity.
  - apply reachable_tables_invariant.
Qed.

Lemma modify_to_own_slot_witness :
  keyed (salon_reservations db_ann)
  /\ In ann_row (salon_reservations db_ann)
  /\ row_readable ann_row = true
  /\ row_full_year ann_row = true
  /\ exists resp db',
       route_modify 1%N at_nine db_ann
       = (mkResponse 200 (Reservation resp), db')
       /\ ReservationResponse.reservation_id resp = 1%N
       /\ ReservationResponse.stylist_name resp = Row.stylist_name ann_row
       /\ date_strftime (ReservationResponse.reservation_date resp)
          = Row.reservation_date ann_row
       /\ time_strftime (ReservationResponse.reservation_time resp)
          = Row.reservation_time ann_row
       /\ In (apply_update (build_update_data at_nine) (clock db_ann) ann_row)
            (salon_reservations db')
       /\ full_year (ReservationResponse.reservation_date resp) = true.
Proof.
  assert (keyed (salon_reservations db_ann)) as K
      by (apply distinct_ids_sound; reflexivity).
  assert (In ann_row (salon_reservations db_ann)) as He
      by (left; reflexivity).
  split; [exact K|]. split; [exact He|]. split; [reflexivity|].
  split; [reflexivity|].
  apply (modify_to_own_slot 1%N at_nine db_ann ann_row K He eq_refl eq_refl
           eq_refl).
  - intros s H. discriminate H.
  - intros d H. discriminate H.
  - intros tm H. injection H as <-. reflexivity.
  - intros r [<-|[]] H. now contradiction H.
Defined.

(** ** What a modification leaves alone *)

Lemma Forall2_same {A : Type} (R : A -> A -> Prop) (l : list A) :
  (forall x, R x x) -> Forall2 R l l.
Proof. intros H. induction l; constructor; auto. Qed.

Lemma Forall2_map_right {A : Type} (R : A -> A -> Prop) (f : A -> A)
    (l : list A) :
  (forall x, R x (f x)) -> Forall2 R l (map f l).
Proof. intros H. induction l; simpl; constructor; auto. Qed.

(** C8. Whatever the outcome of a modify request, every row keeps its
    identifier, customer name, phone number, status and creation time, a
    row with another identifier is not touched at all, and a field the
    request omits keeps its stored value. When the request succeeds, each
    field it carries, the empty string included, is what the row with
    that identifier now holds. *)
Theorem modify_reservation_frame (id : UUID) (updates : ReservationUpdate.t)
    (db : Database) :
  Forall2 (left_alone id updates)
    (salon_reservations db)
    (salon_reservations (snd (modify_reservation id updates db)))
  /\ (forall resp,
        fst (modify_reservation id updates db) = inr resp ->
        Forall2 (stored_as_requested id updates)
          (salon_reservations db)
          (salon_reservations (snd (modify_reservation id updates db)))
        /\ ReservationResponse.reservation_id resp = id).
Proof.
  rewrite modify_reservation_run.
  assert (forall R : Row.t -> Row.t -> Prop, (forall x, R x x) ->
            Forall2 R (salon_reservations db) (salon_reservations db))
    as Same by (intros; now apply Forall2_same).
  destruct (filter (has_id id) (salon_reservations db)) as [|e rest] eqn:F.
  { split; [|discriminate]. apply Same. intros x.
    unfold left_alone, same_identity. tauto. }
  cbv zeta.
  destruct (date_fromisoformat _) as [d|];
    [|split; [apply Same; unfold left_alone, same_identity; tauto
             |discriminate]].
  destruct (time_fromisoformat _) as [tm|];
    [|split; [apply Same; unfold left_alone, same_identity; tauto
             |discriminate]].
  destruct (existsb _ _);
    [split; [apply Same; unfold left_alone, same_identity; tauto
            |discriminate]|].
  cbn [fst snd salon_reservations]. split.
  - apply Forall2_map_right. intros r.
    unfold left_alone, written, same_identity.
    destruct (N.eqb_spec (Row.reservation_id r) id) as [E|N]; [|tauto].
    cbn [apply_update Row.reservation_id Row.customer_name Row.phone_number
           Row.created_at Row.status Row.reservation_date Row.reservation_time
           Row.stylist_name Row.service_menu Row.duration_minutes Row.notes
           build_update_data UpdateData.reservation_date
           UpdateData.reservation_time UpdateData.stylist_name
           UpdateData.service_menu UpdateData.duration_minutes
           UpdateData.notes UpdateData.status UpdateData.get].
    repeat split; try tauto; intros ->; reflexivity.
  - intros resp Hresp. split.
    + apply Forall2_map_right. intros r Hid. unfold written.
      apply N.eqb_eq in Hid. rewrite Hid.
      cbn [apply_update Row.reservation_date Row.reservation_time
             Row.stylist_name Row.service_menu Row.duration_minutes Row.notes
             build_update_data UpdateData.reservation_date
             UpdateData.reservation_time UpdateData.stylist_name
             UpdateData.service_menu UpdateData.duration_minutes
             UpdateData.notes UpdateData.get].
      unfold requested.
      destruct (ReservationUpdate.reservation_date updates),
               (ReservationUpdate.reservation_time updates),
               (ReservationUpdate.notes updates); repeat split.
    + cbn [map] in Hresp.
      destruct (to_response _) as [resp'|] eqn:E; [|discriminate].
      injection Hresp as <-.
      pose proof (to_response_fields _ _ E) as (Rid & _).
      rewrite Rid. cbn [apply_update Row.reservation_id].
      apply filter_head_in in F as [_ Hid]. now apply N.eqb_eq.
Qed.

Lemma modify_reservation_frame_witness :
  exists resp,
    fst (modify_reservation 1%N blank_service db_ann) = inr resp
    /\ Forall2 (stored_as_requested 1%N blank_service)
         (salon_reservations db_ann)
         (salon_reservations (snd (modify_reservation 1%N blank_service db_ann)))
    /\ ReservationResponse.reservation_id resp = 1%N.
Proof.
  eexists. split; [reflexivity|].
  apply (proj2 (modify_reservation_frame 1%N blank_service db_ann)).
  reflexivity.
Defined.

(** The row after that request: service blank, time moved, the rest as
    Ann booked it. *)
Example blank_service_stored :
  salon_reservations (snd (modify_reservation 1%N blank_service db_ann))
  = [Row.mk 1%N "Ann" "555" "2025-06-01" "10:30:00" "Kim" "" 60
       SCHEDULED None 0 1].
Proof. reflexivity. Qed.

(** ** Cancelling *)

Lemma cancel_reservation_ok (id : UUID) (db : Database) :
  In id (map Row.reservation_id (salon_reservations db)) ->
  table_readable db = true ->
  exists cancelled,
    cancel_reservation id db = (inr cancelled, after_cancel id db)
    /\ ReservationResponse.status cancelled = value CANCELLED
    /\ ReservationResponse.reservation_id cancelled = id.
Proof.
  intros Hid Readable. rewrite cancel_reservation_run.
  apply in_map_iff in Hid as (r & Er & Hr).
  destruct (filter (has_id id) (salon_reservations db)) as [|e rest] eqn:F.
  { exfalso. assert (In r (filter (has_id id) (salon_reservations db))) as C.
    { apply filter_In. split; [exact Hr|]. now apply N.eqb_eq. }
    now rewrite F in C. }
  apply filter_head_in in F as [He Ie]. apply N.eqb_eq in Ie.
  unfold table_readable in Readable. rewrite forallb_forall in Readable.
  assert (row_readable (apply_update cancel_update (clock db) e) = true) as R.
  { rewrite (row_readable_fields e); [now apply Readable| |]; reflexivity. }
  destruct (to_response_readable _ R) as [cancelled E]. rewrite E.
  exists cancelled. split; [reflexivity|].
  pose proof (to_response_fields _ _ E)
    as (Rid & _ & _ & _ & _ & _ & _ & _ & Rst & _).
  split; [exact Rst|]. now rewrite Rid.
Qed.

Lemma after_cancel_readable (id : UUID) (db : Database) :
  table_readable db = true -> table_readable (after_cancel id db) = true.
Proof.
  unfold table_readable, after_cancel. cbn [salon_reservations].
  rewrite !forallb_forall. intros H r' Hr'.
  apply in_map_iff in Hr' as (r & <- & Hr). unfold written.
  destruct (N.eqb _ _); [|now apply H].
  rewrite (row_readable_fields r); [now apply H| |]; reflexivity.
Qed.

Lemma after_cancel_twice (id : UUID) (db : Database) :
  map without_updated_at
    (salon_reservations (after_cancel id (after_cancel id db)))
  = map without_updated_at (salon_reservations (after_cancel id db)).
Proof.
  unfold after_cancel. cbn [salon_reservations clock].
  rewrite !map_map. apply map_ext. intros r. unfold written.
  destruct (N.eqb (Row.reservation_id r) id) eqn:E.
  - cbn [apply_update Row.reservation_id]. now rewrite E.
  - now rewrite E.
Qed.

(** C10. Cancelling needs the identifier to exist and nothing more: it is
    answered 200 with status [cancelled] whatever the status was, so a
    second cancel of the same reservation is answered the same way, and
    leaves the table as the first left it, [updated_at] apart. Of a row
    it changes the status and nothing else, and it changes no row with
    another identifier. *)
Theorem cancel_reservation_idempotent (id : UUID) (db : Database) :
  In id (map Row.reservation_id (salon_reservations db)) ->
  table_readable db = true ->
  exists cancelled db1 again db2,
    route_cancel id db = (mkResponse 200 (Reservation cancelled), db1)
    /\ ReservationResponse.status cancelled = value CANCELLED
    /\ route_cancel id db1 = (mkResponse 200 (Reservation again), db2)
    /\ ReservationResponse.status again = value CANCELLED
    /\ map without_updated_at (salon_reservations db2)
       = map without_updated_at (salon_reservations db1)
    /\ Forall2 (cancelled_only id)
         (salon_reservations db) (salon_reservations db1).
Proof.
  intros Hid Readable.
  destruct (cancel_reservation_ok id db Hid Readable)
    as (cancelled & Run1 & St1 & _).
  assert (In id (map Row.reservation_id
                   (salon_reservations (after_cancel id db)))) as Hid'.
  { unfold after_cancel. cbn [salon_reservations]. now rewrite written_ids. }
  destruct (cancel_reservation_ok id (after_cancel id db) Hid'
              (after_cancel_readable id db Readable))
    as (again & Run2 & St2 & _).
  exists cancelled, (after_cancel id db), again,
    (after_cancel id (after_cancel id db)).
  unfold route_cancel, respond. rewrite Run1, Run2.
  repeat split; try assumption.
  - apply after_cancel_twice.
  - unfold after_cancel. cbn [salon_reservations].
    apply Forall2_map_right. intros r. unfold cancelled_only, written.
    destruct (N.eqb_spec (Row.reservation_id r) id) as [E|N].
    + unfold same_identity. cbn. repeat split; congruence.
    + unfold same_identity. repeat split; congruence.
Qed.

Lemma cancel_reservation_idempotent_witness :
  In 1%N (map Row.reservation_id (salon_reservations db_ann_cancelled_bob))
  /\ table_readable db_ann_cancelled_bob = true
  /\ exists cancelled db1 again db2,
       route_cancel 1%N db_ann_cancelled_bob
       = (mkResponse 200 (Reservation cancelled), db1)
       /\ ReservationResponse.status cancelled = value CANCELLED
       /\ route_cancel 1%N db1 = (mkResponse 200 (Reservation again), db2)
       /\ ReservationResponse.status again = value CANCELLED
       /\ map without_updated_at (salon_reservations db2)
          = map without_updated_at (salon_reservations db1)
       /\ Forall2 (cancelled_only 1%N)
            (salon_reservations db_ann_cancelled_bob)
            (salon_reservations db1).
Proof.
  assert (In 1%N (map Row.reservation_id
                    (salon_reservations db_ann_cancelled_bob))) as Hid
      by (left; reflexivity).
  split; [exact Hid|]. split; [reflexivity|].
  exact (cancel_reservation_idempotent 1%N db_ann_cancelled_bob Hid eq_refl).
Defined.

(** An unknown identifier is answered 404 and nothing is written. *)
Lemma cancel_reservation_unknown (id : UUID) (db : Database) :
  ~ In id (map Row.reservation_id (salon_reservations db)) ->
  route_cancel id db = (mkResponse HTTP_404_NOT_FOUND Error, logged SELECT db).
Proof.
  intros H. unfold route_cancel, respond. rewrite cancel_reservation_run.
  now rewrite (filter_no_id _ _ H).
Qed.

(** ** Sorting *)

Section SortedFacts.
Variable A : Type.
Variable leb : A -> A -> bool.
Hypothesis leb_total : forall a b, leb a b = true \/ leb b a = true.

Let le (a b : A) : Prop := leb a b = true.

Lemma insert_sorted_perm (x : A) (l : list A) :
  Permutation (insert_sorted leb x l) (x :: l).
Proof.
  induction l as [|y l IH]; simpl; [reflexivity|].
  destruct (leb x y); [reflexivity|].
  rewrite IH. apply perm_swap.
Qed.

Lemma sorted_perm (l : list A) : Permutation (sorted leb l) l.
Proof.
  induction l as [|x l IH]; simpl; [reflexivity|].
  rewrite insert_sorted_perm. now constructor.
Qed.

Lemma insert_sorted_Sorted (x : A) (l : list A) :
  Sorted le l -> Sorted le (insert_sorted leb x l).
Proof.
  induction l as [|y l IH]; simpl; intros H.
  - repeat constructor.
  - destruct (leb x y) eqn:E.
    + constructor; [exact H|]. constructor. exact E.
    + inversion H as [|? ? Hl Hd]; subst. constructor; [now apply IH|].
      assert (le y x) as Hyx by (destruct (leb_total x y); congruence).
      destruct l as [|z l]; simpl; [now constructor|].
      destruct (leb x z); constructor; [exact Hyx|].
      now inversion Hd.
Qed.

Lemma sorted_Sorted (l : list A) : Sorted le (sorted leb l).
Proof.
  induction l as [|x l IH]; simpl; [constructor|].
  now apply insert_sorted_Sorted.
Qed.

Lemma sorted_fixed (l : list A) : Sorted le l -> sorted leb l = l.
Proof.
  induction l as [|x l IH]; simpl; [reflexivity|].
  intros H. inversion H as [|? ? Hl Hd]; subst. rewrite (IH Hl).
  destruct l as [|y l]; simpl; [reflexivity|].
  inversion Hd as [|? ? Hxy]; subst. unfold le in Hxy. now rewrite Hxy.
Qed.
End SortedFacts.

Lemma StronglySorted_filter {A : Type} (R : A -> A -> Prop) (p : A -> bool)
    (l : list A) :
  StronglySorted R l -> StronglySorted R (filter p l).
Proof.
  induction 1 as [|x l Hl IH Hx]; simpl; [constructor|].
  destruct (p x); [|exact IH]. constructor; [exact IH|].
  rewrite Forall_forall in *. intros y Hy. apply Hx.
  now apply filter_In in Hy as [Hy _].
Qed.

(** ** The order on times of day *)

Lemma time_eqb_eq (a b : time) : time_eqb a b = true <-> a = b.
Proof.
  destruct a as [h m s], b as [h' m' s']. unfold time_eqb. simpl.
  rewrite !andb_true_iff, !N.eqb_eq. split.
  - now intros [[-> ->] ->].
  - intros [= -> -> ->]. tauto.
Qed.

Lemma time_in_iff (t : time) (ts : list time) :
  time_in t ts = true <-> In t ts.
Proof.
  unfold time_in. rewrite existsb_exists. split.
  - intros (x & Hx & E). apply time_eqb_eq in E. now subst.
  - intros H. exists t. split; [exact H|]. now apply time_eqb_eq.
Qed.

Lemma time_leb_iff (a b : time) :
  time_leb a b = true
  <-> (hour a < hour b
       \/ hour a = hour b
          /\ (minute a < minute b
              \/ minute a = minute b /\ second a <= second b))%N.
Proof.
  unfold time_leb.
  rewrite !orb_true_iff, !andb_true_iff, !orb_true_iff, !andb_true_iff,
    !N.ltb_lt, !N.eqb_eq, N.leb_le.
  tauto.
Qed.

Lemma time_leb_total (a b : time) :
  time_leb a b = true \/ time_leb b a = true.
Proof. rewrite !time_leb_iff. lia. Qed.

Lemma time_le_trans : Relations_1.Transitive time_le.
Proof.
  intros a b c. unfold time_le. rewrite !time_leb_iff. lia.
Qed.

Lemma sorted_times_ascending (ts : list time) :
  StronglySorted time_le (sorted time_leb ts).
Proof.
  apply Sorted_StronglySorted; [exact time_le_trans|].
  apply (sorted_Sorted _ time_leb time_leb_total).
Qed.

Lemma all_hours_ascending : StronglySorted time_le get_all_hours_in_day.
Proof.
  unfold get_all_hours_in_day. simpl.
  repeat (constructor; [|repeat (constructor; try reflexivity)]).
  constructor.
Qed.

(** ** Availability *)

Lemma availability_query_matches (stylist date_text : string) (r : Row.t) :
  matches_all [eq_stylist_name stylist; eq_reservation_date date_text;
               eq_status (value SCHEDULED)] r
  = scheduled_on stylist date_text r.
Proof.
  unfold matches_all, scheduled_on. cbn [forallb matches].
  now rewrite status_is_scheduled, andb_true_r, andb_assoc.
Qed.

Lemma check_availability_run (d : date) (stylist : string) (db : Database) :
  check_availability d stylist db
  = (match parse_times (filter (scheduled_on stylist (date_strftime d))
                          (salon_reservations db)) with
     | None => inl (mkHTTPException HTTP_500_INTERNAL_SERVER_ERROR)
     | Some booked_times =>
         inr (AvailabilityResponse.mk d stylist
                (sorted time_leb booked_times)
                (sorted time_leb
                   (filter (fun t => negb (time_in t booked_times))
                      get_all_hours_in_day)))
     end,
     logged SELECT db).
Proof.
  unfold check_availability, bind, select. rewrite sorted_no_order.
  rewrite (filter_pointwise _ (scheduled_on stylist (date_strftime d)))
    by (intros r; apply availability_query_matches).
  destruct (parse_times _); reflexivity.
Qed.

Lemma row_readable_time (r : Row.t) :
  row_readable r = true ->
  exists tm, time_fromisoformat (Row.reservation_time r) = Some tm
             /\ time_strftime tm = Row.reservation_time r.
Proof.
  unfold row_readable, to_response.
  destruct (date_fromisoformat _); [|discriminate].
  destruct (time_fromisoformat _) as [tm|] eqn:E; [|discriminate].
  intros _. exists tm. split; [reflexivity|].
  now apply time_strftime_fromisoformat in E as [E _].
Qed.

Lemma parse_times_readable (rows : list Row.t) :
  forallb row_readable rows = true ->
  exists ts, parse_times rows = Some ts
             /\ map time_strftime ts = map Row.reservation_time rows.
Proof.
  induction rows as [|r rest IH]; simpl; intros H.
  - now exists [].
  - apply andb_prop in H as [Hr Hrest].
    destruct (row_readable_time r Hr) as (tm & -> & Etm).
    destruct (IH Hrest) as (ts & -> & Ets).
    exists (tm :: ts). split; [reflexivity|]. simpl. now rewrite Etm, Ets.
Qed.

Lemma forallb_filter {A : Type} (p q : A -> bool) (l : list A) :
  forallb p l = true -> forallb p (filter q l) = true.
Proof.
  rewrite !forallb_forall. intros H x Hx. apply H.
  now apply filter_In in Hx as [Hx _].
Qed.

Lemma at_most_one_tail (r : Row.t) (rest : list Row.t) :
  at_most_one_scheduled_per_slot (r :: rest) ->
  at_most_one_scheduled_per_slot rest.
Proof.
  intros H s d t. specialize (H s d t). simpl in H.
  destruct (occupies s d t r); simpl in H; lia.
Qed.

Lemma booked_times_distinct (stylist date_text : string) (rows : list Row.t) :
  at_most_one_scheduled_per_slot rows ->
  NoDup (map Row.reservation_time (filter (scheduled_on stylist date_text) rows)).
Proof.
  induction rows as [|r rest IH]; simpl; intros H; [constructor|].
  pose proof (IH (at_most_one_tail _ _ H)) as ND.
  destruct (scheduled_on stylist date_text r) eqn:Sr; [|exact ND].
  simpl. constructor; [|exact ND].
  intros Hin. apply in_map_iff in Hin as (r' & Et & Hr').
  apply filter_In in Hr' as [Hr' Sr'].
  specialize (H stylist date_text (Row.reservation_time r)). simpl in H.
  assert (forall x, scheduled_on stylist date_text x = true ->
                    Row.reservation_time x = Row.reservation_time r ->
                    occupies stylist date_text (Row.reservation_time r) x
                    = true) as Occ.
  { intros x Sx Ex. unfold scheduled_on in Sx. unfold occupies.
    apply andb_prop in Sx as [Sx St]. apply andb_prop in Sx as [Ss Sd].
    rewrite Ss, Sd, St, Ex, String.eqb_refl. reflexivity. }
  rewrite (Occ r Sr eq_refl) in H. simpl in H.
  assert (In r' (filter (occupies stylist date_text (Row.reservation_time r))
                   rest)) as C by (apply filter_In; auto).
  destruct (filter (occupies stylist date_text (Row.reservation_time r)) rest);
    [destruct C|simpl in H; lia].
Qed.

Lemma time_in_perm (t : time) (l l' : list time) :
  Permutation l l' -> time_in t l = time_in t l'.
Proof.
  intros P. apply eq_true_iff_eq. rewrite !time_in_iff.
  split; apply Permutation_in; [exact P|now symmetry].
Qed.

Lemma all_hours_distinct : NoDup get_all_hours_in_day.
Proof.
  apply (NoDup_map_inv hour). unfold get_all_hours_in_day. simpl.
  repeat (constructor; [simpl; intuition discriminate|]). constructor.
Qed.

Lemma parse_times_ignores_duration (stylist date_text : string)
    (rows rows' : list Row.t) :
  map without_duration rows' = map without_duration rows ->
  parse_times (filter (scheduled_on stylist date_text) rows')
  = parse_times (filter (scheduled_on stylist date_text) rows).
Proof.
  revert rows'. induction rows as [|r rest IH]; intros [|r' rest'];
    simpl; try discriminate; [reflexivity|].
  intros H. injection H as _ _ _ Hd Ht Hs _ Hst _ _ _ Hrest.
  assert (scheduled_on stylist date_text r' = scheduled_on stylist date_text r)
    as -> by (unfold scheduled_on; now rewrite Hd, Hs, Hst).
  specialize (IH rest' Hrest).
  destruct (scheduled_on stylist date_text r); simpl; [|exact IH].
  now rewrite Ht, IH.
Qed.

(** C3, as amended. The availability answer is computed over the eight
    hourly slots 09:00:00 to 16:00:00 and does not depend on any duration.
    [booked_slots] holds the start times of the scheduled reservations of
    the stylist on the date, one entry for each reservation, in ascending
    order; its entries are distinct when no slot is double-booked.
    [available_slots] is the universe without the booked times, in
    ascending order and without repetition, so the two lists are
    disjoint. *)
Theorem check_availability_slots (d : date) (stylist : string)
    (db : Database) :
  table_readable db = true ->
  exists a,
    route_availability d stylist db
    = (mkResponse 200 (Availability a), logged SELECT db)
    /\ map time_strftime get_all_hours_in_day
       = ["09:00:00"; "10:00:00"; "11:00:00"; "12:00:00";
          "13:00:00"; "14:00:00"; "15:00:00"; "16:00:00"]
    /\ Permutation
         (map time_strftime (AvailabilityResponse.booked_slots a))
         (map Row.reservation_time
            (filter (scheduled_on stylist (date_strftime d))
               (salon_reservations db)))
    /\ StronglySorted time_le (AvailabilityResponse.booked_slots a)
    /\ AvailabilityResponse.available_slots a
       = filter (fun t => negb (time_in t (AvailabilityResponse.booked_slots a)))
           get_all_hours_in_day
    /\ StronglySorted time_le (AvailabilityResponse.available_slots a)
    /\ NoDup (AvailabilityResponse.available_slots a)
    /\ (forall t, In t (AvailabilityResponse.available_slots a) ->
                  ~ In t (AvailabilityResponse.booked_slots a))
    /\ (at_most_one_scheduled_per_slot (salon_reservations db) ->
        NoDup (AvailabilityResponse.booked_slots a))
    /\ (forall db2,
          map without_duration (salon_reservations db2)
          = map without_duration (salon_reservations db) ->
          fst (route_availability d stylist db2)
          = mkResponse 200 (Availability a)).
Proof.
  intros Readable. unfold route_availability, respond.
  rewrite check_availability_run.
  set (rows := filter (scheduled_on stylist (date_strftime d))
                 (salon_reservations db)).
  destruct (parse_times_readable rows) as (booked & Eparse & Etimes).
  { apply forallb_filter. exact Readable. }
  rewrite Eparse.
  pose proof (sorted_perm time time_leb booked) as Perm.
  assert (filter (fun t => negb (time_in t booked)) get_all_hours_in_day
          = filter (fun t => negb (time_in t (sorted time_leb booked)))
              get_all_hours_in_day) as Eavail.
  { apply filter_pointwise. intros t. f_equal. apply time_in_perm.
    now symmetry. }
  assert (sorted time_leb
            (filter (fun t => negb (time_in t booked)) get_all_hours_in_day)
          = filter (fun t => negb (time_in t (sorted time_leb booked)))
              get_all_hours_in_day) as Esorted.
  { rewrite <- Eavail. apply sorted_fixed. apply StronglySorted_Sorted.
    apply StronglySorted_filter. exact all_hours_ascending. }
  eexists. split; [reflexivity|].
  cbn [AvailabilityResponse.booked_slots AvailabilityResponse.available_slots].
  rewrite Esorted.
  split; [reflexivity|].
  split; [rewrite <- Etimes; now apply Permutation_map|].
  split; [apply sorted_times_ascending|].
  split; [reflexivity|].
  split; [apply StronglySorted_filter; exact all_hours_ascending|].
  split; [apply NoDup_filter; exact all_hours_distinct|].
  split.
  { intros t Hin Hb. apply filter_In in Hin as [_ Hin].
    apply negb_true_iff in Hin. apply time_in_iff in Hb. congruence. }
  split.
  { intros Hone. apply (Permutation_NoDup (l := booked)); [now symmetry|].
    apply (NoDup_map_inv time_strftime). rewrite Etimes.
    now apply booked_times_distinct. }
  intros db2 Hdb2. rewrite check_availability_run.
  rewrite (parse_times_ignores_duration _ _ _ _ Hdb2). fold rows.
  rewrite Eparse. cbn [fst]. now rewrite Esorted.
Qed.

Lemma check_availability_slots_witness :
  table_readable db_ann = true
  /\ exists a,
       route_availability (mkdate 2025 6 1) "Kim" db_ann
       = (mkResponse 200 (Availability a), logged SELECT db_ann)
       /\ AvailabilityResponse.booked_slots a = [mktime 9 0 0]
       /\ List.length (AvailabilityResponse.available_slots a) = 7%nat.
Proof.
  split; [reflexivity|].
  destruct (check_availability_slots (mkdate 2025 6 1) "Kim" db_ann eq_refl)
    as (a & Run & _).
  exists a. split; [exact Run|].
  injection Run as <-. split; reflexivity.
Defined.

(** C3, as stated, fails on a double-booked table: the booked list holds
    09:00 twice. *)
Lemma availability_repeats_double_booking :
  table_readable db_double_booked = true
  /\ exists a,
       fst (route_availability (mkdate 2025 6 1) "Kim" db_double_booked)
       = mkResponse 200 (Availability a)
       /\ AvailabilityResponse.booked_slots a = [mktime 9 0 0; mktime 9 0 0]
       /\ ~ NoDup (AvailabilityResponse.booked_slots a).
Proof.
  split; [reflexivity|]. eexists. split; [reflexivity|].
  split; [reflexivity|].
  cbn. intros H. inversion H as [|? ? Hnot _]. apply Hnot. now left.
Qed.

(** The availability example of the specification: one scheduled
    reservation at 09:00. *)
Example availability_one_booking :
  fst (route_availability (mkdate 2025 6 1) "Kim" db_ann)
  = mkResponse 200
      (Availability
         (AvailabilityResponse.mk (mkdate 2025 6 1) "Kim"
            [mktime 9 0 0]
            [mktime 10 0 0; mktime 11 0 0; mktime 12 0 0; mktime 13 0 0;
             mktime 14 0 0; mktime 15 0 0; mktime 16 0 0])).
Proof. reflexivity. Qed.

(** ** The text order of the table is the chronological order *)

Lemma N_compare_lex (k q1 r1 q2 r2 : N) :
  (r1 < k)%N -> (r2 < k)%N ->
  (k * q1 + r1 ?= k * q2 + r2)%N
  = match (q1 ?= q2)%N with
    | Eq => (r1 ?= r2)%N
    | c => c
    end.
Proof.
  intros H1 H2.
  destruct (N.compare_spec q1 q2) as [->|Hq|Hq].
  - destruct (N.compare_spec r1 r2) as [->|Hr|Hr].
    + apply N.compare_refl.
    + apply N.compare_lt_iff. lia.
    + apply N.compare_gt_iff. lia.
  - apply N.compare_lt_iff. nia.
  - apply N.compare_gt_iff. nia.
Qed.

Lemma digit_char_compare (a b : N) :
  (a < 10)%N -> (b < 10)%N ->
  Ascii.compare (digit_char a) (digit_char b) = (a ?= b)%N.
Proof.
  intros Ha Hb. unfold Ascii.compare, digit_char.
  rewrite !N_ascii_embedding by lia.
  destruct (N.compare_spec a b) as [->|H|H].
  - apply N.compare_refl.
  - apply N.compare_lt_iff. lia.
  - apply N.compare_gt_iff. lia.
Qed.

Lemma pad2_compare (a b : N) (s s' : string) :
  (a < 100)%N -> (b < 100)%N ->
  String.compare (pad2 a ++ s) (pad2 b ++ s')
  = match (a ?= b)%N with
    | Eq => String.compare s s'
    | c => c
    end.
Proof.
  intros Ha Hb. unfold pad2. cbn [append String.compare].
  assert (a / 10 < 10)%N by (apply N.Div0.div_lt_upper_bound; lia).
  assert (b / 10 < 10)%N by (apply N.Div0.div_lt_upper_bound; lia).
  assert (a mod 10 < 10)%N by (apply N.mod_lt; lia).
  assert (b mod 10 < 10)%N by (apply N.mod_lt; lia).
  rewrite !digit_char_compare by assumption.
  rewrite (N.div_mod a 10) at 3 by lia.
  rewrite (N.div_mod b 10) at 3 by lia.
  rewrite N_compare_lex by assumption.
  destruct (a / 10 ?= b / 10)%N, (a mod 10 ?= b mod 10)%N; reflexivity.
Qed.

Lemma pad4_pad2 (n : N) : pad4 n = (pad2 (n / 100) ++ pad2 (n mod 100))%string.
Proof.
  unfold pad4, pad2. cbn [append]. now rewrite N.Div0.div_div.
Qed.

Lemma append_assoc (a b c : string) :
  ((a ++ b) ++ c)%string = (a ++ (b ++ c))%string.
Proof. induction a as [|x a IH]; simpl; [reflexivity|now rewrite IH]. Qed.

Lemma time_strings_compare (a b : time) :
  time_ok a = true -> time_ok b = true ->
  String.compare (time_strftime a) (time_strftime b) = time_compare a b.
Proof.
  unfold time_ok. intros Ha Hb.
  apply andb_prop in Ha as [Ha Has]. apply andb_prop in Ha as [Hah Ham].
  apply andb_prop in Hb as [Hb Hbs]. apply andb_prop in Hb as [Hbh Hbm].
  apply N.ltb_lt in Hah, Ham, Has, Hbh, Hbm, Hbs.
  unfold time_strftime, time_compare.
  rewrite pad2_compare by lia.
  destruct (hour a ?= hour b)%N; try reflexivity.
  cbn [append String.compare]. change (Ascii.compare ":" ":") with Eq.
  cbv iota. rewrite pad2_compare by lia.
  destruct (minute a ?= minute b)%N; try reflexivity.
  cbn [append String.compare]. change (Ascii.compare ":" ":") with Eq.
  cbv iota.
  change (pad2 (second a)) with (pad2 (second a) ++ "")%string.
  change (pad2 (second b)) with (pad2 (second b) ++ "")%string.
  rewrite pad2_compare by lia.
  destruct (second a ?= second b)%N; reflexivity.
Qed.

Lemma date_strings_compare (a b : date) :
  date_ok a = true -> date_ok b = true ->
  String.compare (date_strftime a) (date_strftime b) = date_compare a b.
Proof.
  intros Ha Hb.
  destruct (date_ok_bounds a Ha) as (Hay & Ham & Had).
  destruct (date_ok_bounds b Hb) as (Hby & Hbm & Hbd).
  unfold date_strftime, date_compare. rewrite !pad4_pad2.
  assert (year a / 100 < 100)%N by (apply N.Div0.div_lt_upper_bound; lia).
  assert (year b / 100 < 100)%N by (apply N.Div0.div_lt_upper_bound; lia).
  assert (year a mod 100 < 100)%N by (apply N.mod_lt; lia).
  assert (year b mod 100 < 100)%N by (apply N.mod_lt; lia).
  rewrite !append_assoc. rewrite pad2_compare by assumption.
  rewrite pad2_compare by assumption.
  rewrite (N.div_mod (year a) 100) at 3 by lia.
  rewrite (N.div_mod (year b) 100) at 3 by lia.
  rewrite N_compare_lex by assumption.
  destruct (year a / 100 ?= year b / 100)%N; try reflexivity.
  destruct (year a mod 100 ?= year b mod 100)%N; try reflexivity.
  cbn [append String.compare]. change (Ascii.compare "-" "-") with Eq.
  cbv iota. rewrite pad2_compare by lia.
  destruct (month a ?= month b)%N; try reflexivity.
  cbn [append String.compare]. change (Ascii.compare "-" "-") with Eq.
  cbv iota.
  change (pad2 (day a)) with (pad2 (day a) ++ "")%string.
  change (pad2 (day b)) with (pad2 (day b) ++ "")%string.
  rewrite pad2_compare by lia.
  destruct (day a ?= day b)%N; reflexivity.
Qed.

(** ** Lookup *)

Lemma lookup_query_matches (phone_number : string) (r : Row.t) :
  matches_all [eq_phone_number phone_number; eq_status (value SCHEDULED)] r
  = scheduled_for phone_number r.
Proof.
  unfold matches_all, scheduled_for. cbn [forallb matches].
  now rewrite status_is_scheduled, andb_true_r.
Qed.

Lemma lookup_reservations_run (phone_number : string) (db : Database) :
  lookup_reservations phone_number db
  = (match sorted (order_leb [by_reservation_date; by_reservation_time])
             (filter (scheduled_for phone_number) (salon_reservations db)) with
     | [] => inl (mkHTTPException HTTP_404_NOT_FOUND)
     | rows =>
         match to_responses rows with
         | Some reservations => inr reservations
         | None => inl (mkHTTPException HTTP_500_INTERNAL_SERVER_ERROR)
         end
     end,
     logged SELECT db).
Proof.
  unfold lookup_reservations, bind, select.
  rewrite (filter_pointwise _ (scheduled_for phone_number))
    by (intros r; apply lookup_query_matches).
  destruct (sorted _ _); [reflexivity|].
  destruct (to_responses _); reflexivity.
Qed.

Lemma to_responses_readable (rows : list Row.t) :
  forallb row_readable rows = true ->
  exists l, to_responses rows = Some l
            /\ Forall2 (fun r x => to_response r = Some x) rows l.
Proof.
  induction rows as [|r rest IH]; simpl; intros H.
  - exists []. split; [reflexivity|constructor].
  - apply andb_prop in H as [Hr Hrest].
    destruct (to_response_readable r Hr) as [x Ex].
    destruct (IH Hrest) as (l & El & Hl).
    exists (x :: l). rewrite Ex, El. split; [reflexivity|].
    now constructor.
Qed.

Lemma order_leb_total (cs : list OrderColumn) (a b : Row.t) :
  order_leb cs a b = true \/ order_leb cs b a = true.
Proof.
  induction cs as [|c cs IH]; simpl; [now left|].
  rewrite (String.compare_antisym (order_key c b) (order_key c a)).
  destruct (String.compare (order_key c a) (order_key c b)); simpl; auto.
Qed.

Lemma to_response_ok (r : Row.t) (x : ReservationResponse.t) :
  to_response r = Some x ->
  date_ok (ReservationResponse.reservation_date x) = true
  /\ time_ok (ReservationResponse.reservation_time x) = true.
Proof.
  unfold to_response.
  destruct (date_fromisoformat _) as [d|] eqn:Ed; [|discriminate].
  destruct (time_fromisoformat _) as [tm|] eqn:Et; [|discriminate].
  intros [= <-]. cbn.
  apply date_strftime_fromisoformat in Ed as [_ Ed].
  apply time_strftime_fromisoformat in Et as [_ Et]. now split.
Qed.

Lemma order_is_chronological (r1 r2 : Row.t) (a b : ReservationResponse.t) :
  to_response r1 = Some a -> to_response r2 = Some b ->
  order_leb [by_reservation_date; by_reservation_time] r1 r2 = true ->
  chronological a b.
Proof.
  intros Ea Eb.
  pose proof (to_response_fields _ _ Ea) as (_ & _ & _ & Da & Ta & _).
  pose proof (to_response_fields _ _ Eb) as (_ & _ & _ & Db & Tb & _).
  destruct (to_response_ok _ _ Ea) as [Oda Ota].
  destruct (to_response_ok _ _ Eb) as [Odb Otb].
  unfold chronological. cbn [order_leb order_key].
  rewrite <- Da, <- Db, <- Ta, <- Tb.
  rewrite date_strings_compare, time_strings_compare by assumption.
  destruct (date_compare _ _); try tauto; try discriminate.
  destruct (time_compare _ _); intros H; discriminate.
Qed.

Lemma N_compare_trans_le (a b c : N) :
  (a ?= b)%N <> Gt -> (b ?= c)%N <> Gt -> (a ?= c)%N <> Gt.
Proof. rewrite !N.compare_le_iff. lia. Qed.

Lemma date_compare_spec (a b : date) :
  match date_compare a b with
  | Lt => (year a < year b
           \/ year a = year b
              /\ (month a < month b
                  \/ month a = month b /\ day a < day b))%N
  | Eq => a = b
  | Gt => (year b < year a
           \/ year a = year b
              /\ (month b < month a
                  \/ month a = month b /\ day b < day a))%N
  end.
Proof.
  destruct a as [y m d], b as [y' m' d']. unfold date_compare. simpl.
  destruct (N.compare_spec y y'); try lia.
  destruct (N.compare_spec m m'); try lia.
  destruct (N.compare_spec d d'); try lia. congruence.
Qed.

Lemma time_compare_spec (a b : time) :
  match time_compare a b with
  | Lt => (hour a < hour b
           \/ hour a = hour b
              /\ (minute a < minute b
                  \/ minute a = minute b /\ second a < second b))%N
  | Eq => a = b
  | Gt => (hour b < hour a
           \/ hour a = hour b
              /\ (minute b < minute a
                  \/ minute a = minute b /\ second b < second a))%N
  end.
Proof.
  destruct a as [h m s], b as [h' m' s']. unfold time_compare. simpl.
  destruct (N.compare_spec h h'); try lia.
  destruct (N.compare_spec m m'); try lia.
  destruct (N.compare_spec s s'); try lia. congruence.
Qed.

Lemma chronological_iff (a b : ReservationResponse.t) :
  chronological a b
  <-> (let da := ReservationResponse.reservation_date a in
       let db := ReservationResponse.reservation_date b in
       let ta := ReservationResponse.reservation_time a in
       let tb := ReservationResponse.reservation_time b in
       year da < year db
       \/ year da = year db
          /\ (month da < month db
              \/ month da = month db
                 /\ (day da < day db
                     \/ day da = day db
                        /\ (hour ta < hour tb
                            \/ hour ta = hour tb
                               /\ (minute ta < minute tb
                                   \/ minute ta = minute tb
                                      /\ second ta <= second tb)))))%N.
Proof.
  unfold chronological. cbv zeta.
  pose proof (date_compare_spec (ReservationResponse.reservation_date a)
                (ReservationResponse.reservation_date b)) as D.
  pose proof (time_compare_spec (ReservationResponse.reservation_time a)
                (ReservationResponse.reservation_time b)) as T.
  destruct (date_compare _ _); [|split; [lia|tauto]|split; [tauto|lia]].
  rewrite D.
  destruct (time_compare _ _).
  - rewrite T. split; [lia|congruence].
  - split; [lia|congruence].
  - split; [congruence|lia].
Qed.

Lemma chronological_trans : Relations_1.Transitive chronological.
Proof.
  intros a b c. rewrite !chronological_iff. cbv zeta. lia.
Qed.

Lemma Sorted_Forall2 {A B : Type} (R1 : A -> A -> Prop) (R2 : B -> B -> Prop)
    (P : A -> B -> Prop) (rows : list A) (l : list B) :
  (forall r1 r2 a b, P r1 a -> P r2 b -> R1 r1 r2 -> R2 a b) ->
  Forall2 P rows l -> Sorted R1 rows -> Sorted R2 l.
Proof.
  intros Step F. induction F as [|r a rows l Hra F IH]; intros S;
    [constructor|].
  inversion S as [|? ? Srest Hd]; subst. constructor; [now apply IH|].
  destruct F as [|r' a' rows' l' Hra' F']; constructor.
  inversion Hd; subst. now apply (Step r r').
Qed.

Lemma scheduled_for_iff (phone_number : string) (r : Row.t) :
  scheduled_for phone_number r = true
  <-> Row.phone_number r = phone_number /\ Row.status r = SCHEDULED.
Proof.
  unfold scheduled_for.
  now rewrite andb_true_iff, String.eqb_eq, status_eqb_eq.
Qed.

(** C9. Lookup makes one query and writes nothing. It is answered 404
    exactly when the table holds no reservation with status [scheduled]
    under the phone number, cancelled or completed ones notwithstanding;
    otherwise it is answered 200 with the scheduled reservations of that
    phone number, each once, ordered by date and then by time. *)
Theorem lookup_reservations_spec (phone_number : string) (db : Database) :
  table_readable db = true ->
  (route_lookup phone_number db
   = (mkResponse HTTP_404_NOT_FOUND Error, logged SELECT db)
   <-> forall r, In r (salon_reservations db) ->
                 Row.phone_number r = phone_number ->
                 Row.status r <> SCHEDULED)
  /\ ((exists r, In r (salon_reservations db)
                 /\ Row.phone_number r = phone_number
                 /\ Row.status r = SCHEDULED) ->
      exists rows l,
        route_lookup phone_number db
        = (mkResponse 200 (Reservations l), logged SELECT db)
        /\ Permutation rows
             (filter (scheduled_for phone_number) (salon_reservations db))
        /\ Forall2 (fun r x => to_response r = Some x) rows l
        /\ Forall (fun x =>
                     ReservationResponse.phone_number x = phone_number
                     /\ ReservationResponse.status x = value SCHEDULED) l
        /\ StronglySorted chronological l).
Proof.
  intros Readable. unfold route_lookup, respond.
  rewrite lookup_reservations_run.
  set (found := filter (scheduled_for phone_number) (salon_reservations db)).
  set (rows := sorted (order_leb [by_reservation_date; by_reservation_time])
                 found).
  pose proof (sorted_perm _
                (order_leb [by_reservation_date; by_reservation_time]) found)
    as Perm. fold rows in Perm.
  assert (forallb row_readable rows = true) as Rrows.
  { apply forallb_forall. intros r Hr.
    apply (Permutation_in _ Perm) in Hr. apply filter_In in Hr as [Hr _].
    unfold table_readable in Readable. rewrite forallb_forall in Readable.
    now apply Readable. }
  destruct (to_responses_readable rows Rrows) as (l & El & Hl).
  assert (forall r, In r found <->
                    In r (salon_reservations db)
                    /\ Row.phone_number r = phone_number
                    /\ Row.status r = SCHEDULED) as Found.
  { intros r. unfold found. rewrite filter_In, scheduled_for_iff. tauto. }
  split.
  - split.
    + intros Run r Hr Hp Hs.
      assert (In r rows) as Hin
          by (apply (Permutation_in _ (Permutation_sym Perm)), Found; auto).
      destruct rows as [|x xs]; [destruct Hin|].
      rewrite El in Run. discriminate Run.
    + intros None.
      assert (rows = []) as ->; [|reflexivity].
      destruct rows as [|x xs]; [reflexivity|]. exfalso.
      assert (In x found) as Hx
          by (apply (Permutation_in _ Perm); now left).
      apply Found in Hx as (Hin & Hp & Hs). now apply (None x).
  - intros (r & Hr & Hp & Hs). exists rows, l.
    assert (In r rows) as Hin
        by (apply (Permutation_in _ (Permutation_sym Perm)), Found; auto).
    split; [|split; [exact Perm|split; [exact Hl|split]]].
    + destruct rows as [|x xs]; [destruct Hin|]. now rewrite El.
    + assert (Forall (fun x => scheduled_for phone_number x = true) rows)
        as Frows.
      { apply Forall_forall. intros x Hx.
        apply (Permutation_in _ Perm) in Hx.
        now apply filter_In in Hx as [_ Hx]. }
      clear - Hl Frows. induction Hl as [|x a xs l' Hxa Hl IH];
        [constructor|].
      inversion Frows as [|? ? Hx Hxs]; subst. constructor; [|now apply IH].
      apply scheduled_for_iff in Hx as [Hp Hs].
      pose proof (to_response_fields _ _ Hxa)
        as (_ & _ & Rp & _ & _ & _ & _ & _ & Rs & _).
      rewrite Rp, Rs, Hs. now split.
    + apply Sorted_StronglySorted; [exact chronological_trans|].
      apply (Sorted_Forall2
               (fun r1 r2 =>
                  order_leb [by_reservation_date; by_reservation_time] r1 r2
                  = true)
               chronological (fun r x => to_response r = Some x) rows l).
      * intros r1 r2 a b. apply order_is_chronological.
      * exact Hl.
      * apply sorted_Sorted. apply order_leb_total.
Qed.

Lemma lookup_reservations_spec_witness :
  table_readable db_ann_cancelled_bob = true
  /\ route_lookup "555" db_ann_cancelled_bob
     = (mkResponse HTTP_404_NOT_FOUND Error,
        logged SELECT db_ann_cancelled_bob).
Proof.
  split; [reflexivity|].
  apply (proj1 (lookup_reservations_spec "555" db_ann_cancelled_bob eq_refl)).
  intros r [<-|[<-|[]]] Hp Hs; simpl in *; discriminate.
Defined.

(** Three bookings made out of order come back by date, then time. *)
Example lookup_in_order :
  match fst (route_lookup "555" db_ann_twice) with
  | mkResponse status (Reservations l) =>
      status = 200%nat
      /\ map (fun x => (date_strftime (ReservationResponse.reservation_date x),
                        time_strftime (ReservationResponse.reservation_time x)))
           l
         = [("2025-06-01", "09:00:00"); ("2025-06-01", "14:30:00");
            ("2025-06-02", "10:00:00")]
  | _ => False
  end.
Proof. split; reflexivity. Qed.

(** The end-to-end example of the specification. *)
Example add_ann :
  serve (POST_add ann) empty_database
  = (mkResponse 201 (Created ann_created),
     mkDatabase [ann_row] 1 [SELECT; INSERT]).
Proof. reflexivity. Qed.

(* ===================================================================== *)
(** * Further properties of the validators and handlers                   *)
(* ===================================================================== *)

(** ** Normalisation is idempotent *)

Lemma count_colons_app (a b : string) :
  count_colons (a ++ b) = (count_colons a + count_colons b)%nat.
Proof.
  induction a as [|c a IH]; simpl; [reflexivity|]. rewrite IH. lia.
Qed.

Lemma split_colon_plain (s : string) :
  count_colons s = 0%nat -> split_colon s = [s].
Proof.
  induction s as [|c s IH]; simpl; [reflexivity|].
  destruct (Ascii.eqb c colon); simpl; [discriminate|].
  intros H. now rewrite (IH H).
Qed.

Lemma split_colon_cons (a b : string) :
  count_colons a = 0%nat ->
  split_colon (a ++ String colon b) = a :: split_colon b.
Proof.
  induction a as [|c a IH]; simpl; [reflexivity|].
  destruct (Ascii.eqb c colon); simpl; [discriminate|].
  intros H. now rewrite (IH H).
Qed.

Lemma split_colon_app (a b : string) :
  count_colons a = 0%nat ->
  split_colon (a ++ ":" ++ b) = a :: split_colon b.
Proof. exact (split_colon_cons a b). Qed.

Lemma split_colon_segments (s : string) :
  Forall (fun p => count_colons p = 0%nat) (split_colon s).
Proof.
  induction s as [|c s IH]; simpl; [repeat constructor|].
  destruct (Ascii.eqb c colon) eqn:E; [now constructor|].
  destruct (split_colon s) as [|p ps]; [repeat constructor; simpl; now rewrite E|].
  inversion IH as [|? ? Hp Hps]; subst. constructor; [|exact Hps].
  simpl. now rewrite E.
Qed.

Lemma zeros_no_colon (n : nat) : count_colons (zeros n) = 0%nat.
Proof. induction n as [|n IH]; simpl; [reflexivity|exact IH]. Qed.

Lemma zfill_no_colon (width : nat) (h : string) :
  count_colons h = 0%nat -> count_colons (zfill width h) = 0%nat.
Proof.
  intros H. unfold zfill. destruct (width <=? String.length h)%nat; [exact H|].
  destruct h as [|c rest]; [apply zeros_no_colon|].
  simpl in H. destruct (is_sign c).
  - simpl. rewrite count_colons_app, zeros_no_colon. exact H.
  - rewrite count_colons_app, zeros_no_colon. exact H.
Qed.

Lemma zfill_2_twice (h : string) : zfill 2 (zfill 2 h) = zfill 2 h.
Proof. apply zfill_2_long. rewrite zfill_2_length. lia. Qed.

(** The three segments of a rewritten string. *)
Lemma split_colon_rebuilt (h m sec : string) :
  count_colons h = 0%nat -> count_colons m = 0%nat ->
  count_colons sec = 0%nat ->
  split_colon (h ++ ":" ++ m ++ ":" ++ sec) = [h; m; sec].
Proof.
  intros Hh Hm Hs.
  rewrite (split_colon_app h _ Hh), (split_colon_app m _ Hm).
  now rewrite (split_colon_plain sec Hs).
Qed.

(** What normalisation returns for a string of two or three segments:
    three segments again, none holding a colon, the first at least two
    characters long. *)
Lemma normalize_time_segments (s : string) :
  count_colons s = 1%nat \/ count_colons s = 2%nat ->
  exists h m sec,
    ReservationCreate.normalize_time (RawStr s)
    = RawStr (h ++ ":" ++ m ++ ":" ++ sec)
    /\ split_colon (h ++ ":" ++ m ++ ":" ++ sec) = [h; m; sec]
    /\ (2 <= String.length h)%nat
    /\ (count_colons s = 1%nat -> sec = "00").
Proof.
  intros C. pose proof (split_colon_length s) as L.
  pose proof (split_colon_segments s) as Seg.
  unfold ReservationCreate.normalize_time.
  destruct (split_colon s) as [|h [|m [|sec [|x xs]]]]; simpl in L;
    try (exfalso; lia).
  - inversion Seg as [|? ? Hh Seg']; subst.
    inversion Seg' as [|? ? Hm _]; subst.
    exists (zfill 2 h), m, "00". split; [reflexivity|]. split; [|split].
    + apply split_colon_rebuilt; [now apply zfill_no_colon|exact Hm|reflexivity].
    + rewrite zfill_2_length. lia.
    + reflexivity.
  - inversion Seg as [|? ? Hh Seg']; subst.
    inversion Seg' as [|? ? Hm Seg'']; subst.
    inversion Seg'' as [|? ? Hs _]; subst.
    exists (zfill 2 h), m, sec. split; [reflexivity|]. split; [|split].
    + apply split_colon_rebuilt; [now apply zfill_no_colon|exact Hm|exact Hs].
    + rewrite zfill_2_length. lia.
    + intros C1. exfalso. lia.
Qed.

(** X1. Normalising twice is normalising once, for every raw value and
    for both request models. *)
Theorem normalize_time_idempotent (v : raw_value) :
  ReservationCreate.normalize_time (ReservationCreate.normalize_time v)
  = ReservationCreate.normalize_time v
  /\ ReservationUpdate.normalize_time (ReservationUpdate.normalize_time v)
     = ReservationUpdate.normalize_time v.
Proof.
  assert (ReservationCreate.normalize_time (ReservationCreate.normalize_time v)
          = ReservationCreate.normalize_time v) as H.
  { destruct v as [s|]; [|reflexivity].
    destruct (Nat.eq_dec (count_colons s) 1) as [C1|N1];
      [|destruct (Nat.eq_dec (count_colons s) 2) as [C2|N2]].
    - destruct (normalize_time_segments s (or_introl C1))
        as (h & m & sec & -> & Split & Len & _).
      unfold ReservationCreate.normalize_time. rewrite Split.
      now rewrite (zfill_2_long h Len).
    - destruct (normalize_time_segments s (or_intror C2))
        as (h & m & sec & -> & Split & Len & _).
      unfold ReservationCreate.normalize_time. rewrite Split.
      now rewrite (zfill_2_long h Len).
    - assert (ReservationCreate.normalize_time (RawStr s) = RawStr s) as E.
      { apply normalize_time_fixed_iff. split; [exact N1|]. intros C.
        now contradiction N2. }
      now rewrite !E. }
  split; [exact H|]. now rewrite !normalize_time_same.
Qed.

(** X2. Whatever its segments hold, a string with one or two colons comes
    out with exactly three segments, none holding a colon, and an hour
    segment of at least two characters. *)
Theorem normalize_time_three_segments (s : string) :
  count_colons s = 1%nat \/ count_colons s = 2%nat ->
  exists h m sec,
    ReservationCreate.normalize_time (RawStr s)
    = RawStr (h ++ ":" ++ m ++ ":" ++ sec)
    /\ split_colon (h ++ ":" ++ m ++ ":" ++ sec) = [h; m; sec]
    /\ (2 <= String.length h)%nat
    /\ (count_colons s = 1%nat -> sec = "00").
Proof. exact (normalize_time_segments s). Qed.

Lemma normalize_time_three_segments_witness :
  count_colons "abc:def" = 1%nat
  /\ exists h m sec,
       ReservationCreate.normalize_time (RawStr "abc:def")
       = RawStr (h ++ ":" ++ m ++ ":" ++ sec)
       /\ split_colon (h ++ ":" ++ m ++ ":" ++ sec) = [h; m; sec]
       /\ (2 <= String.length h)%nat
       /\ (count_colons "abc:def" = 1%nat -> sec = "00").
Proof.
  split; [reflexivity|].
  exact (normalize_time_three_segments "abc:def" (or_introl eq_refl)).
Defined.

(** ** What a validated request holds *)

(** X3. A create body in the documented forms validates to the
    reservation it spells: with the date written [YYYY-MM-DD] for a valid
    date, the time in one of the shapes [H:MM], [HH:MM], [H:MM:SS],
    [HH:MM:SS] for a valid time of day, and a duration that is absent or
    positive, validation succeeds and yields that date, the time whose
    [HH:MM:SS] text is the normalised input, the duration or 60 in its
    absence, and the text fields as sent. *)
Theorem create_body_validated (b : ReservationCreate.body) (d : date)
    (s : string) (tm : time) :
  date_ok d = true ->
  ReservationCreate.body_reservation_date b = date_strftime d ->
  ReservationCreate.body_reservation_time b = RawStr s ->
  time_shaped s = true ->
  time_ok tm = true ->
  spec_normal_form s = time_strftime tm ->
  (forall v, ReservationCreate.body_duration_minutes b = Some v -> (0 < v)%Z) ->
  ReservationCreate.model_validate b
  = Some (ReservationCreate.mk
            (ReservationCreate.body_customer_name b)
            (ReservationCreate.body_phone_number b)
            d tm
            (ReservationCreate.body_stylist_name b)
            (ReservationCreate.body_service_menu b)
            (match ReservationCreate.body_duration_minutes b with
             | Some v => v
             | None => DEFAULT_DURATION_MINUTES
             end)
            (ReservationCreate.body_notes b)).
Proof.
  intros Okd Ed Es Shaped Okt Norm Dur.
  unfold ReservationCreate.model_validate. cbv zeta.
  rewrite Ed, (date_fromisoformat_strftime d Okd), Es.
  destruct (spec_normal_form_shaped s Shaped) as [-> _].
  rewrite Norm, (time_fromisoformat_strftime tm Okt).
  destruct (ReservationCreate.body_duration_minutes b) as [v|];
    [|reflexivity].
  unfold ReservationCreate.validate_duration.
  specialize (Dur v eq_refl). apply Z.leb_gt in Dur. now rewrite Dur.
Qed.

Lemma create_body_validated_witness :
  time_shaped "9:00" = true
  /\ spec_normal_form "9:00" = time_strftime (mktime 9 0 0)
  /\ ReservationCreate.model_validate ann = Some ann_reservation.
Proof.
  split; [reflexivity|]. split; [reflexivity|].
  refine (create_body_validated ann (mkdate 2025 6 1) "9:00" (mktime 9 0 0)
            eq_refl eq_refl eq_refl eq_refl eq_refl eq_refl _).
  intros v H. discriminate H.
Defined.

(** X4. An update body in the documented forms validates to the request
    it spells: each field absent or present as sent, a date written
    [YYYY-MM-DD] read as that date, a time in one of the four shapes read
    as the time whose [HH:MM:SS] text is the normalised input, a duration
    kept when positive, and the text fields, the empty string included,
    as sent. *)
Theorem update_body_validated (b : ReservationUpdate.body)
    (od : option date) (ot : option time) :
  (forall d, od = Some d -> date_ok d = true) ->
  ReservationUpdate.body_reservation_date b = option_map date_strftime od ->
  match ReservationUpdate.body_reservation_time b, ot with
  | RawStr s, Some tm =>
      time_shaped s = true /\ time_ok tm = true
      /\ spec_normal_form s = time_strftime tm
  | RawNone, None => True
  | _, _ => False
  end ->
  (forall v, ReservationUpdate.body_duration_minutes b = Some v -> (0 < v)%Z) ->
  ReservationUpdate.model_validate b
  = Some (ReservationUpdate.mk od ot
            (ReservationUpdate.body_stylist_name b)
            (ReservationUpdate.body_service_menu b)
            (ReservationUpdate.body_duration_minutes b)
            (ReservationUpdate.body_notes b)).
Proof.
  intros Okd Ed Et Dur.
  unfold ReservationUpdate.model_validate. cbv zeta. rewrite Ed.
  assert (match option_map date_strftime od with
          | Some s => option_map Some (date_fromisoformat s)
          | None => Some None
          end = Some od) as ->.
  { destruct od as [d|]; cbn [option_map]; [|reflexivity].
    now rewrite (date_fromisoformat_strftime d (Okd d eq_refl)). }
  assert (match ReservationUpdate.normalize_time
                  (ReservationUpdate.body_reservation_time b) with
          | RawStr s => option_map Some (time_fromisoformat s)
          | RawNone => Some None
          end = Some ot) as ->.
  { destruct (ReservationUpdate.body_reservation_time b) as [s|],
             ot as [tm|]; try contradiction; [|reflexivity].
    destruct Et as (Shaped & Okt & Norm).
    rewrite normalize_time_same.
    destruct (spec_normal_form_shaped s Shaped) as [-> _].
    now rewrite Norm, (time_fromisoformat_strftime tm Okt). }
  unfold ReservationUpdate.validate_duration.
  destruct (ReservationUpdate.body_duration_minutes b) as [v|];
    [|reflexivity].
  specialize (Dur v eq_refl). apply Z.leb_gt in Dur. now rewrite Dur.
Qed.

Lemma update_body_validated_witness :
  ReservationUpdate.body_reservation_time blank_service_body = RawStr "10:30"
  /\ spec_normal_form "10:30" = time_strftime (mktime 10 30 0)
  /\ ReservationUpdate.model_validate blank_service_body = Some blank_service.
Proof.
  split; [reflexivity|]. split; [reflexivity|].
  refine (update_body_validated blank_service_body None
            (Some (mktime 10 30 0)) _ eq_refl _ _).
  - intros d H. discriminate H.
  - repeat split.
  - intros v H. discriminate H.
Defined.

(** ** The outcome of a create *)

Lemma created_row_response (reservation : ReservationCreate.t)
    (db : Database) :
  reservation_ok reservation = true ->
  to_response (created_row reservation db)
  = Some (created_response reservation db).
Proof.
  unfold reservation_ok. intros H. apply andb_prop in H as [Hd Ht].
  unfold to_response, created_row, new_row.
  cbn [Row.reservation_date Row.reservation_time ReservationData.reservation_date
         ReservationData.reservation_time].
  rewrite (date_fromisoformat_strftime _ Hd), (time_fromisoformat_strftime _ Ht).
  reflexivity.
Qed.

Lemma route_add_run (reservation : ReservationCreate.t) (db : Database) :
  reservation_ok reservation = true ->
  route_add reservation db
  = if slot_taken reservation db
    then (mkResponse HTTP_409_CONFLICT Error, logged SELECT db)
    else (mkResponse 201
            (Created
               (ReservationCreateResponse.mk
                  ("Reservation created successfully for "
                   ++ ReservationCreate.customer_name reservation)
                  (fresh_id (salon_reservations db))
                  (created_response reservation db))),
          mkDatabase (salon_reservations db ++ [created_row reservation db])
            (N.succ (clock db)) ((calls db ++ [SELECT]) ++ [INSERT])).
Proof.
  intros Ok. unfold route_add, respond, slot_taken.
  rewrite create_reservation_run.
  destruct (existsb _ _); [reflexivity|].
  now rewrite (created_row_response _ _ Ok).
Qed.

(** X5. When the store answers, a create with a valid date of the year
    1000 or later and a valid time is answered 409, with nothing written,
    if a scheduled reservation holds its (stylist, date, time); otherwise
    it is answered 201, one row is appended under an identifier the table
    did not hold, with status [scheduled] and the time stored as
    [HH:MM:SS], and the response echoes the request. *)
Theorem create_reservation_outcome (reservation : ReservationCreate.t)
    (db : Database) :
  reservation_ok reservation = true ->
  full_year (ReservationCreate.reservation_date reservation) = true ->
  (slot_taken reservation db = true ->
   route_add reservation db
   = (mkResponse HTTP_409_CONFLICT Error, logged SELECT db))
  /\ (slot_taken reservation db = false ->
      exists row,
        route_add reservation db
        = (mkResponse 201
             (Created
                (ReservationCreateResponse.mk
                   ("Reservation created successfully for "
                    ++ ReservationCreate.customer_name reservation)
                   (Row.reservation_id row)
                   (created_response reservation db))),
           mkDatabase (salon_reservations db ++ [row]) (N.succ (clock db))
             ((calls db ++ [SELECT]) ++ [INSERT]))
        /\ to_response row = Some (created_response reservation db)
        /\ ~ In (Row.reservation_id row)
               (map Row.reservation_id (salon_reservations db))
        /\ Row.status row = SCHEDULED
        /\ Row.reservation_time row
           = time_strftime (ReservationCreate.reservation_time reservation)
        /\ shape_HH_MM_SS (Row.reservation_time row) = true
        /\ row_full_year row = true).
Proof.
  intros Ok Full. split; intros Taken; rewrite (route_add_run _ _ Ok), Taken;
    [reflexivity|].
  exists (created_row reservation db).
  split; [reflexivity|]. split; [now apply created_row_response|].
  split; [apply fresh_id_new|]. split; [reflexivity|]. split; [reflexivity|].
  assert (row_full_year (created_row reservation db) = true) as RowFull.
  { unfold row_full_year.
    now rewrite (to_response_date _ _ (created_row_response _ _ Ok)). }
  split; [|exact RowFull].
  cbn [created_row new_row Row.reservation_time
         ReservationData.reservation_time].
  unfold reservation_ok in Ok. apply andb_prop in Ok as [_ Ht].
  pose proof (time_fromisoformat_strftime _ Ht) as Parse.
  unfold time_fromisoformat in Parse. unfold shape_HH_MM_SS.
  destruct (time_strftime (ReservationCreate.reservation_time reservation))
    as [|h1 [|h2 [|c1 [|m1 [|m2 [|c2 [|s1 [|s2 [|? ?]]]]]]]]];
    try discriminate.
  destruct (Ascii.eqb c1 colon); [|discriminate].
  destruct (Ascii.eqb c2 colon); [|discriminate].
  cbn [andb] in Parse. unfold parse2, digit_val in Parse.
  destruct (is_digit h1); [|discriminate].
  destruct (is_digit h2); [|discriminate].
  destruct (is_digit m1); [|discriminate].
  destruct (is_digit m2); [|discriminate].
  destruct (is_digit s1); [|discriminate].
  destruct (is_digit s2); [|discriminate].
  reflexivity.
Qed.

Lemma create_reservation_outcome_witness :
  reservation_ok bob_reservation = true
  /\ full_year (ReservationCreate.reservation_date bob_reservation) = true
  /\ slot_taken bob_reservation db_ann = true
  /\ route_add bob_reservation db_ann
     = (mkResponse HTTP_409_CONFLICT Error, logged SELECT db_ann)
  /\ slot_taken bob_reservation empty_database = false
  /\ exists row,
       route_add bob_reservation empty_database
       = (mkResponse 201
            (Created
               (ReservationCreateResponse.mk
                  ("Reservation created successfully for "
                   ++ ReservationCreate.customer_name bob_reservation)
                  (Row.reservation_id row)
                  (created_response bob_reservation empty_database))),
          mkDatabase (salon_reservations empty_database ++ [row])
            (N.succ (clock empty_database))
            ((calls empty_database ++ [SELECT]) ++ [INSERT]))
       /\ Row.status row = SCHEDULED
       /\ Row.reservation_time row = "09:00:00".
Proof.
  split; [reflexivity|]. split; [reflexivity|]. split; [reflexivity|].
  split.
  { exact (proj1 (create_reservation_outcome bob_reservation db_ann
                    eq_refl eq_refl) eq_refl). }
  split; [reflexivity|].
  destruct (proj2 (create_reservation_outcome bob_reservation empty_database
                     eq_refl eq_refl) eq_refl)
    as (row & Run & _ & _ & St & Tm & _).
  exists row. split; [exact Run|]. split; [exact St|exact Tm].
Defined.

(** ** The outcome of a modify *)

Lemma modified_row_readable (updates : ReservationUpdate.t) (now : N)
    (e : Row.t) :
  row_readable e = true -> updates_ok updates = true ->
  exists d tm,
    date_fromisoformat (Row.reservation_date (modified_row updates now e))
    = Some d
    /\ time_fromisoformat (Row.reservation_time (modified_row updates now e))
       = Some tm
    /\ date_strftime d = Row.reservation_date (modified_row updates now e)
    /\ time_strftime tm = Row.reservation_time (modified_row updates now e).
Proof.
  intros Re Ok. unfold updates_ok in Ok. apply andb_prop in Ok as [Okd Okt].
  unfold row_readable, to_response in Re.
  destruct (date_fromisoformat (Row.reservation_date e)) as [d0|] eqn:Ed;
    [|discriminate].
  destruct (time_fromisoformat (Row.reservation_time e)) as [t0|] eqn:Et;
    [|discriminate].
  unfold modified_row, build_update_data.
  cbn [apply_update Row.reservation_date Row.reservation_time
         UpdateData.reservation_date UpdateData.reservation_time].
  assert (exists d,
             date_fromisoformat
               (UpdateData.get
                  (option_map date_strftime
                     (ReservationUpdate.reservation_date updates))
                  (Row.reservation_date e)) = Some d) as [d Hd].
  { destruct (ReservationUpdate.reservation_date updates) as [x|]; simpl.
    - exists x. now apply date_fromisoformat_strftime.
    - now exists d0. }
  assert (exists tm,
             time_fromisoformat
               (UpdateData.get
                  (option_map time_strftime
                     (ReservationUpdate.reservation_time updates))
                  (Row.reservation_time e)) = Some tm) as [tm Htm].
  { destruct (ReservationUpdate.reservation_time updates) as [x|]; simpl.
    - exists x. now apply time_fromisoformat_strftime.
    - now exists t0. }
  exists d, tm. split; [exact Hd|]. split; [exact Htm|].
  apply date_strftime_fromisoformat in Hd as [Hd _].
  apply time_strftime_fromisoformat in Htm as [Htm _]. now split.
Qed.

Lemma filter_has_id_head (id : UUID) (rows : list Row.t) (e : Row.t) :
  keyed rows -> In e rows -> Row.reservation_id e = id ->
  exists rest, filter (has_id id) rows = e :: rest.
Proof.
  intros K He Hid.
  destruct (filter (has_id id) rows) as [|x rest] eqn:F.
  - exfalso. assert (In e (filter (has_id id) rows)) as C.
    { apply filter_In. split; [exact He|]. now apply N.eqb_eq. }
    now rewrite F in C.
  - exists rest. now rewrite (filter_keyed_head _ _ _ _ _ K He Hid F).
Qed.

Lemma route_modify_run (id : UUID) (updates : ReservationUpdate.t)
    (db : Database) (e : Row.t) :
  keyed (salon_reservations db) ->
  In e (salon_reservations db) ->
  Row.reservation_id e = id ->
  row_readable e = true ->
  updates_ok updates = true ->
  exists resp,
    to_response (modified_row updates (clock db) e) = Some resp
    /\ route_modify id updates db
       = if other_holds_target id updates e db
         then (mkResponse HTTP_409_CONFLICT Error,
               logged SELECT (logged SELECT db))
         else (mkResponse 200 (Reservation resp),
               mkDatabase
                 (map (written id (build_update_data updates) (clock db))
                    (salon_reservations db))
                 (N.succ (clock db))
                 (((calls db ++ [SELECT]) ++ [SELECT]) ++ [UPDATE])).
Proof.
  intros K He Hid Re Ok.
  destruct (modified_row_readable updates (clock db) e Re Ok)
    as (d & tm & Pd & Pt & Sd & St).
  assert (to_response (modified_row updates (clock db) e) <> None) as Some'.
  { unfold to_response. now rewrite Pd, Pt. }
  destruct (to_response (modified_row updates (clock db) e)) as [resp|] eqn:Er;
    [|now contradiction Some'].
  exists resp. split; [reflexivity|].
  unfold route_modify, respond. rewrite modify_reservation_run.
  destruct (filter_has_id_head id _ e K He Hid) as [rest ->].
  cbv zeta.
  change (UpdateData.get
            (UpdateData.reservation_date (build_update_data updates))
            (Row.reservation_date e))
    with (Row.reservation_date (modified_row updates (clock db) e)).
  change (UpdateData.get
            (UpdateData.reservation_time (build_update_data updates))
            (Row.reservation_time e))
    with (Row.reservation_time (modified_row updates (clock db) e)).
  rewrite Pd, Pt, Sd, St.
  unfold other_holds_target.
  change (UpdateData.get
            (UpdateData.stylist_name (build_update_data updates))
            (Row.stylist_name e))
    with (Row.stylist_name (modified_row updates 0 e)).
  change (Row.reservation_date (modified_row updates (clock db) e))
    with (Row.reservation_date (modified_row updates 0 e)).
  change (Row.reservation_time (modified_row updates (clock db) e))
    with (Row.reservation_time (modified_row updates 0 e)).
  destruct (existsb _ _); [reflexivity|].
  cbn [map]. fold (modified_row updates (clock db) e). now rewrite Er.
Qed.

(** X6. When the store answers, a modify of an existing, readable
    reservation with valid values, whose resulting date is of the year
    1000 or later, is answered 409, with nothing written, if a scheduled
    reservation with another identifier holds the resulting (stylist,
    date, time), whatever the status of the reservation being modified;
    otherwise it is answered 200, the row is rewritten and the response
    shows the resulting row: the requested values where the request
    carries them, the stored ones elsewhere, customer name and status as
    stored. *)
Theorem modify_reservation_outcome (id : UUID)
    (updates : ReservationUpdate.t) (db : Database) (e : Row.t) :
  keyed (salon_reservations db) ->
  In e (salon_reservations db) ->
  Row.reservation_id e = id ->
  row_readable e = true ->
  updates_ok updates = true ->
  row_full_year (modified_row updates 0 e) = true ->
  (other_holds_target id updates e db = true ->
   route_modify id updates db
   = (mkResponse HTTP_409_CONFLICT Error, logged SELECT (logged SELECT db)))
  /\ (other_holds_target id updates e db = false ->
      exists resp db',
        route_modify id updates db = (mkResponse 200 (Reservation resp), db')
        /\ In (modified_row updates (clock db) e) (salon_reservations db')
        /\ to_response (modified_row updates (clock db) e) = Some resp
        /\ ReservationResponse.reservation_id resp = id
        /\ ReservationResponse.customer_name resp = Row.customer_name e
        /\ ReservationResponse.status resp = value (Row.status e)
        /\ ReservationResponse.stylist_name resp
           = requested (ReservationUpdate.stylist_name updates)
               (Row.stylist_name e)
        /\ ReservationResponse.service_menu resp
           = requested (ReservationUpdate.service_menu updates)
               (Row.service_menu e)
        /\ ReservationResponse.duration_minutes resp
           = requested (ReservationUpdate.duration_minutes updates)
               (Row.duration_minutes e)
        /\ date_strftime (ReservationResponse.reservation_date resp)
           = requested (option_map date_strftime
                          (ReservationUpdate.reservation_date updates))
               (Row.reservation_date e)
        /\ time_strftime (ReservationResponse.reservation_time resp)
           = requested (option_map time_strftime
                          (ReservationUpdate.reservation_time updates))
               (Row.reservation_time e)
        /\ full_year (ReservationResponse.reservation_date resp) = true).
Proof.
  intros K He Hid Re Ok Full.
  destruct (route_modify_run id updates db e K He Hid Re Ok)
    as (resp & Er & Run).
  assert (full_year (ReservationResponse.reservation_date resp) = true)
    as FullResp.
  { unfold row_full_year in Full.
    change (Row.reservation_date (modified_row updates 0 e))
      with (Row.reservation_date (modified_row updates (clock db) e)) in Full.
    now rewrite (to_response_date _ _ Er) in Full. }
  split; intros Other; rewrite Run, Other; [reflexivity|].
  exists resp. eexists. split; [reflexivity|].
  cbn [salon_reservations]. split.
  { apply in_map_iff. exists e. split; [|exact He]. unfold written.
    apply N.eqb_eq in Hid. now rewrite Hid. }
  split; [exact Er|].
  pose proof (to_response_fields _ _ Er)
    as (Rid & Rc & _ & Rd & Rt & Rs & Rm & Rdur & Rst & _).
  unfold modified_row, build_update_data in Rid, Rc, Rd, Rt, Rs, Rm, Rdur, Rst.
  cbn [apply_update Row.reservation_id Row.customer_name Row.status
         Row.stylist_name Row.service_menu Row.duration_minutes
         Row.reservation_date Row.reservation_time
         UpdateData.reservation_date UpdateData.reservation_time
         UpdateData.stylist_name UpdateData.service_menu
         UpdateData.duration_minutes UpdateData.status UpdateData.get]
    in Rid, Rc, Rd, Rt, Rs, Rm, Rdur, Rst.
  unfold requested. repeat split; try assumption; congruence.
Qed.

Lemma modify_reservation_outcome_witness :
  keyed (salon_reservations db_ann_cancelled_bob)
  /\ In ann_row_cancelled (salon_reservations db_ann_cancelled_bob)
  /\ row_full_year (modified_row at_nine 0 ann_row_cancelled) = true
  /\ other_holds_target 1%N at_nine ann_row_cancelled db_ann_cancelled_bob
     = true
  /\ route_modify 1%N at_nine db_ann_cancelled_bob
     = (mkResponse HTTP_409_CONFLICT Error,
        logged SELECT (logged SELECT db_ann_cancelled_bob))
  /\ In ann_row (salon_reservations db_ann)
  /\ other_holds_target 1%N blank_service ann_row db_ann = false
  /\ exists resp db',
       route_modify 1%N blank_service db_ann
       = (mkResponse 200 (Reservation resp), db')
       /\ ReservationResponse.service_menu resp = ""
       /\ time_strftime (ReservationResponse.reservation_time resp)
          = "10:30:00".
Proof.
  assert (keyed (salon_reservations db_ann_cancelled_bob)) as K
      by (apply distinct_ids_sound; reflexivity).
  assert (In ann_row_cancelled (salon_reservations db_ann_cancelled_bob))
    as He by (left; reflexivity).
  assert (keyed (salon_reservations db_ann)) as K'
      by (apply distinct_ids_sound; reflexivity).
  assert (In ann_row (salon_reservations db_ann)) as He'
      by (left; reflexivity).
  split; [exact K|]. split; [exact He|]. split; [reflexivity|].
  split; [reflexivity|]. split.
  { exact (proj1 (modify_reservation_outcome 1%N at_nine db_ann_cancelled_bob
                    ann_row_cancelled K He eq_refl eq_refl eq_refl eq_refl)
             eq_refl). }
  split; [exact He'|]. split; [reflexivity|].
  destruct (proj2 (modify_reservation_outcome 1%N blank_service db_ann
                     ann_row K' He' eq_refl eq_refl eq_refl eq_refl) eq_refl)
    as (resp & db' & Run & _ & _ & _ & _ & _ & _ & Sm & _ & _ & Tm & _).
  exists resp, db'. split; [exact Run|]. split; [exact Sm|exact Tm].
Defined.

(** X7. A modify under an identifier the table does not hold is answered
    404 after one query, and nothing is written. *)
Theorem modify_reservation_unknown (id : UUID)
    (updates : ReservationUpdate.t) (db : Database) :
  ~ In id (map Row.reservation_id (salon_reservations db)) ->
  route_modify id updates db
  = (mkResponse HTTP_404_NOT_FOUND Error, logged SELECT db).
Proof.
  intros H. unfold route_modify, respond. rewrite modify_reservation_run.
  now rewrite (filter_no_id _ _ H).
Qed.

Lemma modify_reservation_unknown_witness :
  ~ In 7%N (map Row.reservation_id (salon_reservations db_ann))
  /\ route_modify 7%N at_nine db_ann
     = (mkResponse HTTP_404_NOT_FOUND Error, logged SELECT db_ann).
Proof.
  assert (~ In 7%N (map Row.reservation_id (salon_reservations db_ann))) as H
      by (intros [C|[]]; discriminate C).
  split; [exact H|].
  exact (modify_reservation_unknown 7%N at_nine db_ann H).
Defined.

(** X8. A cancel under an identifier the table does not hold is answered
    404 after one query, and nothing is written. *)
Theorem cancel_reservation_not_found (id : UUID) (db : Database) :
  ~ In id (map Row.reservation_id (salon_reservations db)) ->
  route_cancel id db
  = (mkResponse HTTP_404_NOT_FOUND Error, logged SELECT db).
Proof.
  intros H. unfold route_cancel, respond. rewrite cancel_reservation_run.
  now rewrite (filter_no_id _ _ H).
Qed.

Lemma cancel_reservation_not_found_witness :
  ~ In 7%N (map Row.reservation_id (salon_reservations db_ann))
  /\ route_cancel 7%N db_ann
     = (mkResponse HTTP_404_NOT_FOUND Error, logged SELECT db_ann).
Proof.
  assert (~ In 7%N (map Row.reservation_id (salon_reservations db_ann))) as H
      by (intros [C|[]]; discriminate C).
  split; [exact H|].
  exact (cancel_reservation_not_found 7%N db_ann H).
Defined.

(** ** What no request does *)

Lemma validated_reservation_ok (b : ReservationCreate.body)
    (r : ReservationCreate.t) :
  ReservationCreate.model_validate b = Some r -> reservation_ok r = true.
Proof.
  unfold ReservationCreate.model_validate. cbv zeta.
  destruct (date_fromisoformat _) as [d|] eqn:Ed; [|discriminate].
  destruct (ReservationCreate.normalize_time _) as [s|]; [|discriminate].
  destruct (time_fromisoformat s) as [tm|] eqn:Et; [|discriminate].
  apply date_strftime_fromisoformat in Ed as [_ Okd].
  apply time_strftime_fromisoformat in Et as [_ Okt].
  destruct (match ReservationCreate.body_duration_minutes b with
            | Some v => ReservationCreate.validate_duration v
            | None => Some DEFAULT_DURATION_MINUTES
            end); [|discriminate].
  intros [= <-]. unfold reservation_ok. cbn. now rewrite Okd, Okt.
Qed.

Lemma validated_updates_ok (b : ReservationUpdate.body)
    (u : ReservationUpdate.t) :
  ReservationUpdate.model_validate b = Some u -> updates_ok u = true.
Proof.
  unfold ReservationUpdate.model_validate. cbv zeta. intros H.
  assert (forall d, ReservationUpdate.reservation_date u = Some d ->
                    date_ok d = true) as Hd.
  { revert H.
    destruct (ReservationUpdate.body_reservation_date b) as [s|].
    - destruct (date_fromisoformat s) as [x|] eqn:E; [|discriminate].
      apply date_strftime_fromisoformat in E as [_ Ok]. simpl.
      destruct (match ReservationUpdate.normalize_time _ with
                | RawStr s0 => _ | RawNone => _ end); [|discriminate].
      destruct (ReservationUpdate.validate_duration _); [|discriminate].
      intros [= <-] d [= <-]. exact Ok.
    - destruct (match ReservationUpdate.normalize_time _ with
                | RawStr s0 => _ | RawNone => _ end); [|discriminate].
      destruct (ReservationUpdate.validate_duration _); [|discriminate].
      intros [= <-] d. discriminate. }
  assert (forall tm, ReservationUpdate.reservation_time u = Some tm ->
                     time_ok tm = true) as Ht.
  { revert H.
    destruct (match ReservationUpdate.body_reservation_date b with
              | Some s => _ | None => _ end); [|discriminate].
    destruct (ReservationUpdate.normalize_time _) as [s|].
    - destruct (time_fromisoformat s) as [x|] eqn:E; [|discriminate].
      apply time_strftime_fromisoformat in E as [_ Ok]. simpl.
      destruct (ReservationUpdate.validate_duration _); [|discriminate].
      intros [= <-] tm [= <-]. exact Ok.
    - destruct (ReservationUpdate.validate_duration _); [|discriminate].
      intros [= <-] tm. discriminate. }
  unfold updates_ok.
  destruct (ReservationUpdate.reservation_date u) as [d|];
    destruct (ReservationUpdate.reservation_time u) as [tm|];
    rewrite ?(Hd _ eq_refl), ?(Ht _ eq_refl); reflexivity.
Qed.

Lemma row_readable_created (reservation : ReservationCreate.t)
    (db : Database) :
  reservation_ok reservation = true ->
  row_readable (created_row reservation db) = true.
Proof.
  intros Ok. unfold row_readable. now rewrite (created_row_response _ _ Ok).
Qed.

Lemma row_readable_modified (updates : ReservationUpdate.t) (now : N)
    (e : Row.t) :
  row_readable e = true -> updates_ok updates = true ->
  row_readable (modified_row updates now e) = true.
Proof.
  intros Re Ok.
  destruct (modified_row_readable updates now e Re Ok)
    as (d & tm & Pd & Pt & _).
  unfold row_readable, to_response. now rewrite Pd, Pt.
Qed.

Lemma row_step_same (r : Row.t) : row_step r r.
Proof. unfold row_step, same_identity. tauto. Qed.

Lemma row_step_modified (id : UUID) (updates : ReservationUpdate.t)
    (now : N) (r : Row.t) :
  updates_ok updates = true ->
  row_step r (written id (build_update_data updates) now r).
Proof.
  intros Ok. unfold written. destruct (N.eqb _ _); [|apply row_step_same].
  unfold row_step, same_identity. repeat split; try reflexivity.
  - now left.
  - intros Re. now apply (row_readable_modified updates now r).
Qed.

Lemma row_step_cancelled (id : UUID) (now : N) (r : Row.t) :
  row_step r (written id cancel_update now r).
Proof.
  unfold written. destruct (N.eqb _ _); [|apply row_step_same].
  unfold row_step, same_identity. repeat split; try reflexivity.
  - now right.
  - intros Re. rewrite (row_readable_fields r); [exact Re| |]; reflexivity.
Qed.

(** The table after any request: the stored rows, each stepped, followed
    by what was added. *)
Lemma serve_table (req : Request) (db : Database) :
  exists kept added,
    salon_reservations (snd (serve req db)) = kept ++ added
    /\ Forall2 row_step (salon_reservations db) kept
    /\ rows_added (salon_reservations db) added.
Proof.
  assert (exists kept added,
             salon_reservations db = kept ++ added
             /\ Forall2 row_step (salon_reservations db) kept
             /\ rows_added (salon_reservations db) added) as Same.
  { exists (salon_reservations db), []. rewrite app_nil_r.
    split; [reflexivity|]. split; [|now left].
    apply Forall2_same, row_step_same. }
  destruct req as [b|phone|id b|id|ds stylist|]; cbn [serve];
    unfold route_add, route_lookup, route_modify, route_cancel,
           route_availability, respond.
  - destruct (ReservationCreate.model_validate b) as [r|] eqn:V;
      [|exact Same].
    pose proof (validated_reservation_ok _ _ V) as Ok.
    rewrite create_reservation_run.
    destruct (existsb _ _); [exact Same|].
    rewrite (created_row_response _ _ Ok). cbn [snd salon_reservations].
    exists (salon_reservations db), [created_row r db].
    split; [reflexivity|]. split; [apply Forall2_same, row_step_same|].
    right. exists (created_row r db). split; [reflexivity|].
    split; [reflexivity|]. split; [now apply row_readable_created|reflexivity].
  - pose proof (lookup_reservations_table phone db) as T.
    destruct (lookup_reservations phone db) as [[e|l] db']; simpl in T;
      subst db'; exact Same.
  - destruct (ReservationUpdate.model_validate b) as [u|] eqn:V;
      [|exact Same].
    pose proof (validated_updates_ok _ _ V) as Ok.
    rewrite modify_reservation_run.
    destruct (filter _ _) as [|e rest]; [exact Same|]. cbv zeta.
    destruct (date_fromisoformat _); [|exact Same].
    destruct (time_fromisoformat _); [|exact Same].
    destruct (existsb _ _); [exact Same|].
    assert (exists kept added,
               map (written id (build_update_data u) (clock db))
                 (salon_reservations db) = kept ++ added
               /\ Forall2 row_step (salon_reservations db) kept
               /\ rows_added (salon_reservations db) added) as Written.
    { eexists. exists []. rewrite app_nil_r. split; [reflexivity|].
      split; [|now left]. apply Forall2_map_right. intros r.
      now apply row_step_modified. }
    cbn [map]. destruct (to_response _); exact Written.
  - rewrite cancel_reservation_run.
    destruct (filter _ _) as [|e rest]; [exact Same|].
    assert (exists kept added,
               map (written id cancel_update (clock db))
                 (salon_reservations db) = kept ++ added
               /\ Forall2 row_step (salon_reservations db) kept
               /\ rows_added (salon_reservations db) added) as Written.
    { eexists. exists []. rewrite app_nil_r. split; [reflexivity|].
      split; [|now left]. apply Forall2_map_right. intros r.
      apply row_step_cancelled. }
    destruct (to_response _); exact Written.
  - destruct (date_fromisoformat ds) as [d|]; [|exact Same].
    pose proof (check_availability_table d stylist db) as T.
    destruct (check_availability d stylist db) as [[e|a] db']; simpl in T;
      subst db'; exact Same.
  - exact Same.
Qed.

Lemma Forall2_weaken {A B : Type} (P Q : A -> B -> Prop) (l : list A)
    (l' : list B) :
  (forall a b, P a b -> Q a b) -> Forall2 P l l' -> Forall2 Q l l'.
Proof. intros H F. induction F; constructor; auto. Qed.

(** X9. The three GET routes only read: rows and clock are as before,
    and the store saw at most one [SELECT]. *)
Theorem read_requests_write_nothing (req : Request) (db : Database) :
  is_read req = true ->
  salon_reservations (snd (serve req db)) = salon_reservations db
  /\ clock (snd (serve req db)) = clock db
  /\ (calls (snd (serve req db)) = calls db
      \/ calls (snd (serve req db)) = calls db ++ [SELECT]).
Proof.
  destruct req as [b|phone|id b|id|ds stylist|]; try discriminate; intros _;
    cbn [serve]; unfold route_lookup, route_availability, respond.
  - pose proof (lookup_reservations_table phone db) as T.
    destruct (lookup_reservations phone db) as [[e|l] db']; simpl in T;
      subst db'; cbn; auto.
  - destruct (date_fromisoformat ds) as [d|]; [|cbn; auto].
    pose proof (check_availability_table d stylist db) as T.
    destruct (check_availability d stylist db) as [[e|a] db']; simpl in T;
      subst db'; cbn; auto.
  - cbn. auto.
Qed.

Lemma read_requests_write_nothing_witness :
  is_read (GET_lookup "555") = true
  /\ salon_reservations (snd (serve (GET_lookup "555") db_ann))
     = salon_reservations db_ann.
Proof.
  split; [reflexivity|].
  exact (proj1 (read_requests_write_nothing (GET_lookup "555") db_ann eq_refl)).
Defined.

(** X10. No request deletes a row or rewrites an identity: after any
    request the table is the stored rows in their order, each with its
    identifier, customer name, phone number and creation time, followed by
    at most one new row, whose identifier the table did not hold. *)
Theorem no_request_deletes (req : Request) (db : Database) :
  exists kept added,
    salon_reservations (snd (serve req db)) = kept ++ added
    /\ Forall2 same_identity (salon_reservations db) kept
    /\ (List.length added <= 1)%nat
    /\ (forall r, In r added ->
                  ~ In (Row.reservation_id r)
                      (map Row.reservation_id (salon_reservations db))).
Proof.
  destruct (serve_table req db) as (kept & added & E & F & A).
  exists kept, added. split; [exact E|]. split.
  { apply (Forall2_weaken row_step); [|exact F]. now intros a b [H _]. }
  destruct A as [->|(r & -> & _ & _ & Hid)].
  - split; [simpl; lia|intros r []].
  - split; [simpl; lia|]. intros r' [<-|[]]. rewrite Hid.
    apply fresh_id_new.
Qed.

(** X11. Status moves one way: after any request a stored row has the
    status it had or [cancelled], and a new row is [scheduled]. So a
    cancelled reservation stays cancelled, and none becomes completed. *)
Theorem status_only_moves_to_cancelled (req : Request) (db : Database) :
  exists kept added,
    salon_reservations (snd (serve req db)) = kept ++ added
    /\ Forall2 (fun old new =>
                  Row.reservation_id new = Row.reservation_id old
                  /\ (Row.status new = Row.status old
                      \/ Row.status new = CANCELLED))
         (salon_reservations db) kept
    /\ Forall (fun r => Row.status r = SCHEDULED) added.
Proof.
  destruct (serve_table req db) as (kept & added & E & F & A).
  exists kept, added. split; [exact E|]. split.
  { apply (Forall2_weaken row_step); [|exact F].
    intros a b ([H _] & S & _). now split. }
  destruct A as [->|(r & -> & S & _)]; repeat constructor. exact S.
Qed.

Lemma Forall2_Forall_right {A : Type} (R : A -> A -> Prop) (P : A -> Prop)
    (l l' : list A) :
  (forall a b, R a b -> P a -> P b) ->
  Forall2 R l l' -> Forall P l -> Forall P l'.
Proof.
  intros H F. induction F as [|a b l l' Hab F IH]; intros Pl; [constructor|].
  inversion Pl; subst. constructor; [now apply (H a)|now apply IH].
Qed.

Lemma serve_never_completes (req : Request) (db : Database) :
  Forall (fun r => Row.status r <> COMPLETED) (salon_reservations db) ->
  Forall (fun r => Row.status r <> COMPLETED)
    (salon_reservations (snd (serve req db))).
Proof.
  intros H. destruct (serve_table req db) as (kept & added & -> & F & A).
  apply Forall_app. split.
  - apply (Forall2_Forall_right row_step _ (salon_reservations db) kept);
      [|exact F|exact H].
    intros a b (_ & [S|S] & _) Pa; rewrite S; [exact Pa|discriminate].
  - destruct A as [->|(r & -> & S & _)]; repeat constructor.
    rewrite S. discriminate.
Qed.

(** ** The table a handler leaves *)

(** The rows after a call: as before, or with the created row appended,
    or with the row under the identifier rewritten. *)
Lemma handle_rows (c : Call) (db : Database) :
  salon_reservations (snd (handle c db)) = salon_reservations db
  \/ (exists r,
         c = Add r
         /\ salon_reservations (snd (handle c db))
            = salon_reservations db ++ [created_row r db])
  \/ (exists id u,
         c = Modify id u
         /\ salon_reservations (snd (handle c db))
            = map (written id (build_update_data u) (clock db))
                (salon_reservations db))
  \/ (exists id,
         c = Cancel id
         /\ salon_reservations (snd (handle c db))
            = map (written id cancel_update (clock db))
                (salon_reservations db)).
Proof.
  destruct c as [r|phone|id u|id|d stylist]; cbn [handle];
    unfold route_add, route_lookup, route_modify, route_cancel,
           route_availability, respond.
  - rewrite create_reservation_run.
    destruct (existsb _ _); [now left|].
    right; left. exists r. split; [reflexivity|].
    destruct (to_response _); reflexivity.
  - left. pose proof (lookup_reservations_table phone db) as T.
    destruct (lookup_reservations phone db) as [[e|l] db']; simpl in T;
      subst db'; reflexivity.
  - rewrite modify_reservation_run.
    destruct (filter _ _) as [|e rest]; [now left|]. cbv zeta.
    destruct (date_fromisoformat _); [|now left].
    destruct (time_fromisoformat _); [|now left].
    destruct (existsb _ _); [now left|].
    right; right; left. exists id, u. split; [reflexivity|].
    cbn [map]. destruct (to_response _); reflexivity.
  - rewrite cancel_reservation_run.
    destruct (filter _ _) as [|e rest]; [now left|].
    right; right; right. exists id. split; [reflexivity|].
    destruct (to_response _); reflexivity.
  - left. pose proof (check_availability_table d stylist db) as T.
    destruct (check_availability d stylist db) as [[e|a] db']; simpl in T;
      subst db'; reflexivity.
Qed.

Lemma forallb_map_step {A : Type} (p : A -> bool) (f : A -> A) (l : list A) :
  (forall a, p a = true -> p (f a) = true) ->
  forallb p l = true -> forallb p (map f l) = true.
Proof.
  intros H. induction l as [|a l IH]; simpl; [reflexivity|].
  intros E. apply andb_prop in E as [Ea El].
  now rewrite (H a Ea), (IH El).
Qed.

Lemma row_full_year_created (reservation : ReservationCreate.t)
    (db : Database) :
  reservation_ok reservation = true ->
  full_year (ReservationCreate.reservation_date reservation) = true ->
  row_full_year (created_row reservation db) = true.
Proof.
  intros Ok Full. unfold row_full_year.
  rewrite (to_response_date _ _ (created_row_response _ _ Ok)). exact Full.
Qed.

Lemma row_full_year_modified (updates : ReservationUpdate.t) (now : N)
    (e : Row.t) :
  updates_ok updates = true ->
  match ReservationUpdate.reservation_date updates with
  | Some d => full_year d
  | None => true
  end = true ->
  row_full_year e = true ->
  row_full_year (modified_row updates now e) = true.
Proof.
  intros Ok Full Fe. unfold updates_ok in Ok. apply andb_prop in Ok as [Okd _].
  unfold row_full_year, modified_row.
  cbn [apply_update Row.reservation_date build_update_data
         UpdateData.reservation_date].
  destruct (ReservationUpdate.reservation_date updates) as [d|];
    cbn [option_map UpdateData.get].
  - now rewrite (date_fromisoformat_strftime _ Okd).
  - exact Fe.
Qed.

Lemma row_full_year_cancelled (now : N) (e : Row.t) :
  row_full_year (apply_update cancel_update now e) = row_full_year e.
Proof. reflexivity. Qed.

Lemma written_keeps (p : Row.t -> bool) (id : UUID) (data : UpdateData.t)
    (now : N) (r : Row.t) :
  (p r = true -> p (apply_update data now r) = true) ->
  p r = true -> p (written id data now r) = true.
Proof. unfold written. destruct (N.eqb _ _); auto. Qed.

(** X12. When the store answers, the handlers keep the table readable: on
    a table whose rows all hold a date and a time that parse, with dates
    of the year 1000 or later, a handler called with valid arguments whose
    dates are of the year 1000 or later leaves such a table. *)
Theorem handle_keeps_table_readable (c : Call) (db : Database) :
  call_ok c = true ->
  table_readable db = true ->
  table_full_year db = true ->
  table_readable (snd (handle c db)) = true
  /\ table_full_year (snd (handle c db)) = true.
Proof.
  unfold table_readable, table_full_year. intros Ok Readable Full.
  destruct (handle_rows c db)
    as [->|[(r & -> & ->)|[(id & u & -> & ->)|(id & -> & ->)]]].
  - now split.
  - cbn [call_ok] in Ok. apply andb_prop in Ok as [Ok Fr].
    rewrite !forallb_app, Readable, Full. cbn [forallb].
    now rewrite (row_readable_created r db Ok),
                (row_full_year_created r db Ok Fr).
  - cbn [call_ok] in Ok. apply andb_prop in Ok as [Ok Fu]. split.
    + apply forallb_map_step; [|exact Readable]. intros a.
      apply written_keeps. intros Ra.
      now apply (row_readable_modified u (clock db) a).
    + apply forallb_map_step; [|exact Full]. intros a.
      apply written_keeps. intros Fa.
      now apply (row_full_year_modified u (clock db) a).
  - split.
    + apply forallb_map_step; [|exact Readable]. intros a.
      apply written_keeps. intros Ra.
      rewrite (row_readable_fields a); [exact Ra| |]; reflexivity.
    + apply forallb_map_step; [|exact Full]. intros a.
      apply written_keeps. now rewrite row_full_year_cancelled.
Qed.

Lemma handle_keeps_table_readable_witness :
  call_ok (Modify 1%N at_nine) = true
  /\ table_readable db_ann = true
  /\ table_full_year db_ann = true
  /\ table_readable (snd (handle (Modify 1%N at_nine) db_ann)) = true
  /\ table_full_year (snd (handle (Modify 1%N at_nine) db_ann)) = true.
Proof.
  split; [reflexivity|]. split; [reflexivity|]. split; [reflexivity|].
  exact (handle_keeps_table_readable (Modify 1%N at_nine) db_ann
           eq_refl eq_refl eq_refl).
Defined.

(** ** The answers of the handlers *)

Lemma filter_head_readable (id : UUID) (db : Database) (e : Row.t)
    (rest : list Row.t) :
  table_readable db = true ->
  filter (has_id id) (salon_reservations db) = e :: rest ->
  row_readable e = true.
Proof.
  unfold table_readable. rewrite forallb_forall. intros H F.
  apply filter_head_in in F as [He _]. now apply H.
Qed.

(** X13. When the store answers, a handler called with valid arguments on
    a readable table dated in the year 1000 or later answers with one of
    its own codes: a create 201 or 409, a lookup 200 or 404, a modify 200,
    404 or 409, a cancel 200 or 404, an availability query 200. Reading
    the stored rows back never fails there, so the handler's 500 is left
    to a store that does not answer. *)
Theorem handle_answers_own_code (c : Call) (db : Database) :
  call_ok c = true ->
  table_readable db = true ->
  table_full_year db = true ->
  In (code (fst (handle c db))) (possible_codes c).
Proof.
  intros Ok Readable _.
  destruct c as [r|phone|id u|id|d stylist];
    cbn [handle possible_codes call_ok] in *.
  - apply andb_prop in Ok as [Ok _].
    rewrite (route_add_run _ _ Ok).
    destruct (slot_taken r db); cbn; tauto.
  - unfold route_lookup, respond. rewrite lookup_reservations_run.
    set (rows := sorted _ _).
    assert (forallb row_readable rows = true) as R.
    { apply forallb_forall. intros r Hr.
      apply (Permutation_in _ (sorted_perm _ _ _)) in Hr.
      apply filter_In in Hr as [Hr _].
      unfold table_readable in Readable. rewrite forallb_forall in Readable.
      now apply Readable. }
    destruct (to_responses_readable rows R) as (l & El & _).
    destruct rows as [|x xs]; [cbn; tauto|]. rewrite El. cbn. tauto.
  - apply andb_prop in Ok as [Ok _].
    unfold route_modify, respond. rewrite modify_reservation_run.
    destruct (filter _ _) as [|e rest] eqn:F; [cbn; tauto|].
    pose proof (filter_head_readable _ _ _ _ Readable F) as Re.
    destruct (modified_row_readable u (clock db) e Re Ok)
      as (d & tm & Pd & Pt & _).
    cbv zeta.
    change (UpdateData.get (UpdateData.reservation_date (build_update_data u))
              (Row.reservation_date e))
      with (Row.reservation_date (modified_row u (clock db) e)).
    change (UpdateData.get (UpdateData.reservation_time (build_update_data u))
              (Row.reservation_time e))
      with (Row.reservation_time (modified_row u (clock db) e)).
    rewrite Pd, Pt.
    destruct (existsb _ _); [cbn; tauto|].
    cbn [map]. fold (modified_row u (clock db) e).
    unfold to_response. rewrite Pd, Pt. cbn. tauto.
  - unfold route_cancel, respond. rewrite cancel_reservation_run.
    destruct (filter _ _) as [|e rest] eqn:F; [cbn; tauto|].
    pose proof (filter_head_readable _ _ _ _ Readable F) as Re.
    assert (row_readable (apply_update cancel_update (clock db) e) = true)
      as R by (rewrite (row_readable_fields e); [exact Re| |]; reflexivity).
    destruct (to_response_readable _ R) as [resp ->]. cbn. tauto.
  - unfold route_availability, respond. rewrite check_availability_run.
    destruct (parse_times_readable
                (filter (scheduled_on stylist (date_strftime d))
                   (salon_reservations db))) as (ts & -> & _).
    { apply forallb_filter. exact Readable. }
    cbn. tauto.
Qed.

Lemma handle_answers_own_code_witness :
  call_ok (Add bob_reservation) = true
  /\ table_readable db_ann = true
  /\ table_full_year db_ann = true
  /\ In (code (fst (handle (Add bob_reservation) db_ann)))
       [201; HTTP_409_CONFLICT]%nat.
Proof.
  split; [reflexivity|]. split; [reflexivity|]. split; [reflexivity|].
  exact (handle_answers_own_code (Add bob_reservation) db_ann
           eq_refl eq_refl eq_refl).
Defined.

(** ** Tables reached from the empty one *)

Lemma serve_all_never_completes (reqs : list Request) (db : Database) :
  Forall (fun r => Row.status r <> COMPLETED) (salon_reservations db) ->
  Forall (fun r => Row.status r <> COMPLETED)
    (salon_reservations (snd (serve_all reqs db))).
Proof.
  revert db. induction reqs as [|req rest IH]; intros db C; [exact C|].
  cbn [serve_all]. pose proof (serve_never_completes req db C) as C'.
  destruct (serve req db) as [resp db']. specialize (IH db' C').
  destruct (serve_all rest db') as [resps db'']. exact IH.
Qed.

(** X14. Started on an empty table, the service never holds a double
    booking nor a completed reservation, whatever requests it is sent one
    after another: the identifiers of the table are distinct, no (stylist,
    date, time) slot holds two scheduled reservations, and every row is
    scheduled or cancelled. *)
Theorem reachable_tables_booked_once (reqs : list Request) :
  keyed (salon_reservations (snd (serve_all reqs empty_database)))
  /\ at_most_one_scheduled_per_slot
       (salon_reservations (snd (serve_all reqs empty_database)))
  /\ Forall scheduled_or_cancelled
       (salon_reservations (snd (serve_all reqs empty_database))).
Proof.
  destruct (serve_all_invariant reqs empty_database) as [K One].
  { apply booking_invariantb_sound. reflexivity. }
  split; [exact K|]. split; [exact One|].
  pose proof (serve_all_never_completes reqs empty_database (Forall_nil _))
    as C.
  apply (Forall_impl _ (P := fun r => Row.status r <> COMPLETED)); [|exact C].
  intros r H. unfold scheduled_or_cancelled.
  destruct (Row.status r); [now left|now elim H|now right].
Qed.

(** ** How the operations compose *)

Lemma Forall2_in_left {A B : Type} (P : A -> B -> Prop) (l : list A)
    (l' : list B) (a : A) :
  Forall2 P l l' -> In a l -> exists b, In b l' /\ P a b.
Proof.
  intros F. induction F as [|x y l l' Hxy F IH]; simpl; [tauto|].
  intros [<-|H].
  - exists y. tauto.
  - destruct (IH H) as (b & Hb & Pb). exists b. tauto.
Qed.

Lemma Forall2_in_right {A B : Type} (P : A -> B -> Prop) (l : list A)
    (l' : list B) (b : B) :
  Forall2 P l l' -> In b l' -> exists a, In a l /\ P a b.
Proof.
  intros F. induction F as [|x y l l' Hxy F IH]; simpl; [tauto|].
  intros [<-|H].
  - exists x. tauto.
  - destruct (IH H) as (a & Ha & Pa). exists a. tauto.
Qed.

Lemma to_responses_Forall2 (rows : list Row.t)
    (l : list ReservationResponse.t) :
  to_responses rows = Some l ->
  Forall2 (fun r x => to_response r = Some x) rows l.
Proof.
  revert l. induction rows as [|r rest IH]; simpl; intros l.
  - intros [= <-]. constructor.
  - destruct (to_response r) as [x|] eqn:E; [|discriminate].
    destruct (to_responses rest) as [xs|]; [|discriminate].
    intros [= <-]. constructor; [exact E|now apply IH].
Qed.

(** What a 200 from lookup lists: responses of scheduled rows of the
    table under the phone number. *)
Lemma lookup_listed (phone_number : string) (db db' : Database)
    (l : list ReservationResponse.t) (x : ReservationResponse.t) :
  route_lookup phone_number db = (mkResponse 200 (Reservations l), db') ->
  In x l ->
  exists r, In r (salon_reservations db)
            /\ scheduled_for phone_number r = true
            /\ to_response r = Some x.
Proof.
  unfold route_lookup, respond. rewrite lookup_reservations_run.
  set (rows := sorted _ _).
  pose proof (sorted_perm _ (order_leb [by_reservation_date; by_reservation_time])
                (filter (scheduled_for phone_number) (salon_reservations db)))
    as Perm. fold rows in Perm.
  destruct rows as [|r0 rest] eqn:Erows; [discriminate|]. rewrite <- Erows in *.
  destruct (to_responses rows) as [l'|] eqn:El; [|discriminate].
  intros [= <-] Hx.
  destruct (Forall2_in_right _ _ _ x (to_responses_Forall2 _ _ El) Hx)
    as (r & Hr & Er).
  exists r. apply (Permutation_in _ Perm) in Hr.
  apply filter_In in Hr as [Hin Hs]. auto.
Qed.

(** X15. A reservation just created is found by lookup under its phone
    number: the lookup on the table the create left is answered 200 and
    lists the reservation exactly as the create answered it. *)
Theorem created_reservation_is_found (reservation : ReservationCreate.t)
    (db db1 : Database) (created : ReservationCreateResponse.t) :
  table_readable db = true ->
  route_add reservation db = (mkResponse 201 (Created created), db1) ->
  exists l,
    route_lookup (ReservationCreate.phone_number reservation) db1
    = (mkResponse 200 (Reservations l), logged SELECT db1)
    /\ In (ReservationCreateResponse.reservation created) l.
Proof.
  intros Readable Run. unfold route_add, respond in Run.
  rewrite create_reservation_run in Run.
  destruct (existsb _ _); [discriminate|].
  destruct (to_response (created_row reservation db)) as [resp|] eqn:Eresp;
    [|discriminate].
  injection Run as <- <-.
  cbn [ReservationCreateResponse.reservation].
  set (row := created_row reservation db) in *.
  set (db1 := mkDatabase (salon_reservations db ++ [row]) _ _).
  assert (table_readable db1 = true) as R1.
  { unfold table_readable, db1. cbn [salon_reservations].
    rewrite forallb_app. apply andb_true_intro. split; [exact Readable|].
    simpl. unfold row_readable. now rewrite Eresp. }
  unfold route_lookup, respond. rewrite lookup_reservations_run.
  set (found := filter (scheduled_for (ReservationCreate.phone_number reservation))
                  (salon_reservations db1)).
  set (rows := sorted (order_leb [by_reservation_date; by_reservation_time])
                 found).
  pose proof (sorted_perm _
                (order_leb [by_reservation_date; by_reservation_time]) found)
    as Perm. fold rows in Perm.
  assert (In row rows) as Hrow.
  { apply (Permutation_in _ (Permutation_sym Perm)). apply filter_In. split.
    - unfold db1. cbn [salon_reservations]. apply in_or_app. right. now left.
    - apply scheduled_for_iff. split; reflexivity. }
  assert (forallb row_readable rows = true) as Rrows.
  { apply forallb_forall. intros r Hr.
    apply (Permutation_in _ Perm) in Hr. apply filter_In in Hr as [Hr _].
    unfold table_readable in R1. rewrite forallb_forall in R1. now apply R1. }
  destruct (to_responses_readable rows Rrows) as (l & El & Hl).
  exists l. split.
  - destruct rows as [|x xs]; [destruct Hrow|]. now rewrite El.
  - destruct (Forall2_in_left _ _ _ row Hl Hrow) as (x & Hx & Ex).
    rewrite Eresp in Ex. now injection Ex as <-.
Qed.

Lemma created_reservation_is_found_witness :
  table_readable empty_database = true
  /\ route_add ann_reservation empty_database
     = (mkResponse 201 (Created ann_created), db_ann)
  /\ exists l,
       route_lookup (ReservationCreate.phone_number ann_reservation) db_ann
       = (mkResponse 200 (Reservations l), logged SELECT db_ann)
       /\ In (ReservationCreateResponse.reservation ann_created) l.
Proof.
  split; [reflexivity|]. split; [reflexivity|].
  exact (created_reservation_is_found ann_reservation empty_database db_ann
           ann_created eq_refl eq_refl).
Defined.

Lemma cancelled_rows (id : UUID) (db : Database) (r : Row.t) :
  In r (salon_reservations (snd (cancel_reservation id db))) ->
  Row.reservation_id r = id -> Row.status r = CANCELLED.
Proof.
  rewrite cancel_reservation_run.
  destruct (filter (has_id id) (salon_reservations db)) as [|e rest] eqn:F.
  - cbn [snd logged salon_reservations]. intros Hin Hid. exfalso.
    assert (In r (filter (has_id id) (salon_reservations db))) as C.
    { apply filter_In. split; [exact Hin|]. now apply N.eqb_eq. }
    now rewrite F in C.
  - cbn [snd salon_reservations]. intros Hin Hid.
    apply in_map_iff in Hin as (x & <- & Hx).
    rewrite written_id in Hid. unfold written.
    apply N.eqb_eq in Hid. now rewrite Hid.
Qed.

(** X16. After a cancel, lookup no longer lists the reservation: whatever
    the phone number, a 200 from lookup on the table the cancel left
    holds no reservation with the cancelled identifier. *)
Theorem cancelled_reservation_is_not_listed (id : UUID) (db db' : Database)
    (phone_number : string) (l : list ReservationResponse.t) :
  route_lookup phone_number (snd (route_cancel id db))
  = (mkResponse 200 (Reservations l), db') ->
  Forall (fun x => ReservationResponse.reservation_id x <> id) l.
Proof.
  intros Run. apply Forall_forall. intros x Hx Hid.
  destruct (lookup_listed _ _ _ _ x Run Hx) as (r & Hr & Hs & Er).
  pose proof (to_response_fields _ _ Er) as (Rid & _).
  apply scheduled_for_iff in Hs as [_ Hs].
  assert (snd (route_cancel id db) = snd (cancel_reservation id db)) as E.
  { unfold route_cancel, respond.
    now destruct (cancel_reservation id db) as [[e|a] d]. }
  rewrite E in Hr.
  assert (Row.status r = CANCELLED) as C
      by (apply (cancelled_rows id db r Hr); congruence).
  congruence.
Qed.

Lemma cancelled_reservation_is_not_listed_witness :
  exists l db',
    route_lookup "556" (snd (route_cancel 1%N db_ann_cancelled_bob))
    = (mkResponse 200 (Reservations l), db')
    /\ Forall (fun x => ReservationResponse.reservation_id x <> 1%N) l.
Proof.
  assert (exists l db',
             route_lookup "556" (snd (route_cancel 1%N db_ann_cancelled_bob))
             = (mkResponse 200 (Reservations l), db')) as (l & db' & Run).
  { vm_compute. eexists. eexists. reflexivity. }
  exists l, db'. split; [exact Run|].
  exact (cancelled_reservation_is_not_listed 1%N db_ann_cancelled_bob db'
           "556" l Run).
Defined.

Lemma parse_times_Forall2 (rows : list Row.t) (ts : list time) :
  parse_times rows = Some ts ->
  Forall2 (fun r tm => time_fromisoformat (Row.reservation_time r) = Some tm)
    rows ts.
Proof.
  revert ts. induction rows as [|r rest IH]; simpl; intros ts.
  - intros [= <-]. constructor.
  - destruct (time_fromisoformat _) as [tm|] eqn:E; [|discriminate].
    destruct (parse_times rest) as [tms|]; [|discriminate].
    intros [= <-]. constructor; [exact E|now apply IH].
Qed.

Lemma scheduled_on_occupies (stylist date_text time_text : string)
    (r : Row.t) :
  occupies stylist date_text time_text r
  = scheduled_on stylist date_text r
    && String.eqb (Row.reservation_time r) time_text.
Proof.
  unfold occupies, scheduled_on.
  destruct (String.eqb (Row.stylist_name r) stylist),
           (String.eqb (Row.reservation_date r) date_text),
           (String.eqb (Row.reservation_time r) time_text),
           (status_eqb (Row.status r) SCHEDULED); reflexivity.
Qed.

(** A valid time is among the parsed start times exactly when a scheduled
    row of the stylist and date starts at it. *)
Lemma booked_iff_taken (stylist date_text : string) (tm : time)
    (rows : list Row.t) (ts : list time) :
  time_ok tm = true ->
  parse_times (filter (scheduled_on stylist date_text) rows) = Some ts ->
  (In tm ts
   <-> existsb (occupies stylist date_text (time_strftime tm)) rows = true).
Proof.
  intros Ok P. apply parse_times_Forall2 in P.
  rewrite existsb_exists. split.
  - intros Hin. destruct (Forall2_in_right _ _ _ tm P Hin) as (r & Hr & Er).
    apply filter_In in Hr as [Hr Sr].
    apply time_strftime_fromisoformat in Er as [Er _].
    exists r. split; [exact Hr|].
    rewrite scheduled_on_occupies, Sr, Er. apply String.eqb_refl.
  - intros (r & Hr & Or). rewrite scheduled_on_occupies in Or.
    apply andb_prop in Or as [Sr Et]. apply String.eqb_eq in Et.
    assert (In r (filter (scheduled_on stylist date_text) rows)) as Hf
        by (apply filter_In; auto).
    destruct (Forall2_in_left _ _ _ r P Hf) as (tm' & Hin & Er).
    rewrite Et, (time_fromisoformat_strftime _ Ok) in Er.
    now injection Er as <-.
Qed.

(** X17. The availability answer and the conflict check agree: when the
    store answers, for a valid request dated in the year 1000 or later at
    one of the eight hourly slots, the slot is listed as available exactly
    when a create at it would be answered 201, and as booked exactly when
    it would be answered 409. *)
Theorem available_means_bookable (reservation : ReservationCreate.t)
    (db : Database) :
  table_readable db = true ->
  reservation_ok reservation = true ->
  full_year (ReservationCreate.reservation_date reservation) = true ->
  In (ReservationCreate.reservation_time reservation) get_all_hours_in_day ->
  exists a,
    fst (route_availability (ReservationCreate.reservation_date reservation)
           (ReservationCreate.stylist_name reservation) db)
    = mkResponse 200 (Availability a)
    /\ (In (ReservationCreate.reservation_time reservation)
          (AvailabilityResponse.available_slots a)
        <-> code (fst (route_add reservation db)) = 201%nat)
    /\ (In (ReservationCreate.reservation_time reservation)
          (AvailabilityResponse.booked_slots a)
        <-> code (fst (route_add reservation db)) = HTTP_409_CONFLICT).
Proof.
  intros Readable Ok _ Hour.
  pose proof Ok as Ok'. unfold reservation_ok in Ok'.
  apply andb_prop in Ok' as [_ Okt].
  unfold route_availability, respond. rewrite check_availability_run.
  set (stylist := ReservationCreate.stylist_name reservation) in *.
  set (d := ReservationCreate.reservation_date reservation) in *.
  set (tm := ReservationCreate.reservation_time reservation) in *.
  destruct (parse_times_readable
              (filter (scheduled_on stylist (date_strftime d))
                 (salon_reservations db))) as (ts & Ets & _).
  { apply forallb_filter. exact Readable. }
  rewrite Ets. eexists. split; [reflexivity|].
  cbn [AvailabilityResponse.available_slots AvailabilityResponse.booked_slots].
  assert (In tm ts <-> slot_taken reservation db = true) as Booked
      by exact (booked_iff_taken stylist (date_strftime d) tm _ ts Okt Ets).
  rewrite (route_add_run _ _ Ok).
  assert (forall l, In tm (sorted time_leb l) <-> In tm l) as Sorted.
  { intros l. split; apply Permutation_in;
      [apply sorted_perm|apply Permutation_sym, sorted_perm]. }
  rewrite !Sorted, filter_In, negb_true_iff.
  destruct (slot_taken reservation db) eqn:Taken; cbn [fst code].
  - split; split.
    + intros [_ H]. apply not_true_iff_false in H. exfalso. apply H.
      apply time_in_iff. now apply Booked.
    + discriminate.
    + reflexivity.
    + intros _. now apply Booked.
  - split; split.
    + reflexivity.
    + intros _. split; [exact Hour|]. apply not_true_iff_false.
      intros H. apply time_in_iff in H. apply Booked in H. discriminate H.
    + intros H. apply Booked in H. discriminate H.
    + discriminate.
Qed.

Lemma available_means_bookable_witness :
  table_readable db_ann = true
  /\ reservation_ok bob_reservation = true
  /\ full_year (ReservationCreate.reservation_date bob_reservation) = true
  /\ In (ReservationCreate.reservation_time bob_reservation)
       get_all_hours_in_day
  /\ exists a,
       fst (route_availability
              (ReservationCreate.reservation_date bob_reservation)
              (ReservationCreate.stylist_name bob_reservation) db_ann)
       = mkResponse 200 (Availability a)
       /\ (In (ReservationCreate.reservation_time bob_reservation)
             (AvailabilityResponse.available_slots a)
           <-> code (fst (route_add bob_reservation db_ann)) = 201%nat)
       /\ (In (ReservationCreate.reservation_time bob_reservation)
             (AvailabilityResponse.booked_slots a)
           <-> code (fst (route_add bob_reservation db_ann))
               = HTTP_409_CONFLICT).
Proof.
  assert (In (ReservationCreate.reservation_time bob_reservation)
            get_all_hours_in_day) as Hour by (left; reflexivity).
  split; [reflexivity|]. split; [reflexivity|]. split; [reflexivity|].
  split; [exact Hour|].
  exact (available_means_bookable bob_reservation db_ann eq_refl eq_refl
           eq_refl Hour).
Defined.

(** X18. Cancelling frees the slot: in a table that satisfies the booking
    invariant, once a scheduled reservation has been cancelled (200), a
    create with valid values at its (stylist, date, time) is answered
    201. *)
Theorem cancel_frees_the_slot (id : UUID) (db : Database) (e : Row.t)
    (reservation : ReservationCreate.t) :
  keyed (salon_reservations db) ->
  at_most_one_scheduled_per_slot (salon_reservations db) ->
  table_readable db = true ->
  In e (salon_reservations db) ->
  Row.reservation_id e = id ->
  Row.status e = SCHEDULED ->
  reservation_ok reservation = true ->
  ReservationCreate.stylist_name reservation = Row.stylist_name e ->
  date_strftime (ReservationCreate.reservation_date reservation)
  = Row.reservation_date e ->
  time_strftime (ReservationCreate.reservation_time reservation)
  = Row.reservation_time e ->
  code (fst (route_add reservation db)) = HTTP_409_CONFLICT
  /\ code (fst (route_cancel id db)) = 200%nat
  /\ code (fst (route_add reservation (snd (route_cancel id db)))) = 201%nat.
Proof.
  intros K One Readable He Hid Hst Ok Es Ed Et.
  assert (In id (map Row.reservation_id (salon_reservations db))) as Hin
      by (rewrite <- Hid; now apply in_map).
  destruct (cancel_reservation_ok id db Hin Readable) as (c & Run & _).
  split.
  { rewrite (route_add_run _ _ Ok).
    replace (slot_taken reservation db) with true; [reflexivity|].
    symmetry. unfold slot_taken. apply existsb_exists. exists e.
    split; [exact He|]. rewrite Es, Ed, Et. apply occupies_iff. tauto. }
  unfold route_cancel, respond. rewrite Run. cbn [fst snd code].
  split; [reflexivity|].
  rewrite (route_add_run _ _ Ok).
  replace (slot_taken reservation (after_cancel id db)) with false;
    [reflexivity|].
  symmetry. apply not_true_is_false. unfold slot_taken, after_cancel.
  cbn [salon_reservations]. rewrite existsb_exists.
  intros (r' & Hr' & O). apply in_map_iff in Hr' as (r & <- & Hr).
  rewrite Es, Ed, Et in O. unfold written in O.
  destruct (N.eqb_spec (Row.reservation_id r) id) as [E|N].
  - apply occupies_iff in O as (_ & _ & _ & C). discriminate C.
  - rewrite <- Hid in N.
    now rewrite (own_slot_free _ e K One He Hst r Hr N) in O.
Qed.

Lemma cancel_frees_the_slot_witness :
  keyed (salon_reservations db_ann)
  /\ at_most_one_scheduled_per_slot (salon_reservations db_ann)
  /\ In ann_row (salon_reservations db_ann)
  /\ code (fst (route_add bob_reservation db_ann)) = HTTP_409_CONFLICT
  /\ code (fst (route_cancel 1%N db_ann)) = 200%nat
  /\ code (fst (route_add bob_reservation (snd (route_cancel 1%N db_ann))))
     = 201%nat.
Proof.
  assert (booking_invariant db_ann) as [K One]
      by (apply booking_invariantb_sound; reflexivity).
  assert (In ann_row (salon_reservations db_ann)) as He
      by (left; reflexivity).
  split; [exact K|]. split; [exact One|]. split; [exact He|].
  exact (cancel_frees_the_slot 1%N db_ann ann_row bob_reservation K One
           eq_refl He eq_refl eq_refl eq_refl eq_refl eq_refl eq_refl).
Defined.

(** X19. Modifying moves the booking: in a table that satisfies the
    booking invariant, when the store answers and a scheduled reservation
    is modified onto another slot, dated in the year 1000 or later, that
    no other scheduled reservation holds, the request is answered 200, the
    slot it left holds no scheduled reservation any more, and the slot it
    moved to holds one. *)
Theorem modify_moves_the_booking (id : UUID) (updates : ReservationUpdate.t)
    (db : Database) (e : Row.t) :
  keyed (salon_reservations db) ->
  at_most_one_scheduled_per_slot (salon_reservations db) ->
  In e (salon_reservations db) ->
  Row.reservation_id e = id ->
  Row.status e = SCHEDULED ->
  row_readable e = true ->
  updates_ok updates = true ->
  row_full_year (modified_row updates 0 e) = true ->
  other_holds_target id updates e db = false ->
  (Row.stylist_name (modified_row updates 0 e),
   Row.reservation_date (modified_row updates 0 e),
   Row.reservation_time (modified_row updates 0 e))
  <> (Row.stylist_name e, Row.reservation_date e, Row.reservation_time e) ->
  exists resp db',
    route_modify id updates db = (mkResponse 200 (Reservation resp), db')
    /\ existsb (occupies (Row.stylist_name e) (Row.reservation_date e)
                  (Row.reservation_time e)) (salon_reservations db') = false
    /\ existsb (occupies (Row.stylist_name (modified_row updates 0 e))
                  (Row.reservation_date (modified_row updates 0 e))
                  (Row.reservation_time (modified_row updates 0 e)))
         (salon_reservations db') = true.
Proof.
  intros K One He Hid Hst Re Ok _ Other Moved.
  destruct (route_modify_run id updates db e K He Hid Re Ok)
    as (resp & _ & Run).
  rewrite Other in Run. exists resp. eexists. split; [exact Run|].
  cbn [salon_reservations]. split.
  - apply not_true_is_false. rewrite existsb_exists.
    intros (r' & Hr' & O). apply in_map_iff in Hr' as (r & <- & Hr).
    unfold written in O.
    destruct (N.eqb_spec (Row.reservation_id r) id) as [E|N].
    + assert (r = e) as -> by (apply (keyed_same_id _ _ _ K Hr He); congruence).
      apply occupies_iff in O as (Os & Od & Ot & _). apply Moved.
      change (modified_row updates 0 e)
        with (apply_update (build_update_data updates) 0 e).
      cbn [apply_update Row.stylist_name Row.reservation_date
             Row.reservation_time] in *.
      now rewrite Os, Od, Ot.
    + rewrite <- Hid in N.
      now rewrite (own_slot_free _ e K One He Hst r Hr N) in O.
  - apply existsb_exists.
    exists (written id (build_update_data updates) (clock db) e).
    split; [now apply in_map|]. unfold written.
    apply N.eqb_eq in Hid. rewrite Hid. apply occupies_iff.
    repeat split. cbn [apply_update Row.status build_update_data
                         UpdateData.status UpdateData.get]. exact Hst.
Qed.

Lemma modify_moves_the_booking_witness :
  keyed (salon_reservations db_ann)
  /\ at_most_one_scheduled_per_slot (salon_reservations db_ann)
  /\ In ann_row (salon_reservations db_ann)
  /\ row_full_year (modified_row blank_service 0 ann_row) = true
  /\ other_holds_target 1%N blank_service ann_row db_ann = false
  /\ exists resp db',
       route_modify 1%N blank_service db_ann
       = (mkResponse 200 (Reservation resp), db')
       /\ existsb (occupies (Row.stylist_name ann_row)
                     (Row.reservation_date ann_row)
                     (Row.reservation_time ann_row))
            (salon_reservations db') = false
       /\ existsb (occupies
                     (Row.stylist_name (modified_row blank_service 0 ann_row))
                     (Row.reservation_date (modified_row blank_service 0 ann_row))
                     (Row.reservation_time (modified_row blank_service 0 ann_row)))
            (salon_reservations db') = true.
Proof.
  assert (booking_invariant db_ann) as [K One]
      by (apply booking_invariantb_sound; reflexivity).
  assert (In ann_row (salon_reservations db_ann)) as He
      by (left; reflexivity).
  split; [exact K|]. split; [exact One|]. split; [exact He|].
  split; [reflexivity|]. split; [reflexivity|].
  apply (modify_moves_the_booking 1%N blank_service db_ann ann_row K One He
           eq_refl eq_refl eq_refl eq_refl eq_refl eq_refl).
  discriminate.
Defined.

(** X20. Leaving an identifier out can only remove a conflict: a conflict
    reported with an [exclude_id] is also reported without one, and the
    two answers agree when no row with that identifier is a scheduled
    reservation at the slot. *)
Theorem exclusion_only_removes_conflicts (stylist : string) (d : date)
    (tm : time) (id : UUID) (db : Database) :
  exists with_id without,
    check_availability_conflict stylist d tm (Some id) db
    = (inr with_id, logged SELECT db)
    /\ check_availability_conflict stylist d tm None db
       = (inr without, logged SELECT db)
    /\ (with_id = true -> without = true)
    /\ ((forall r, In r (salon_reservations db) ->
                   Row.reservation_id r = id ->
                   occupies stylist (date_strftime d) (time_strftime tm) r
                   = false) ->
        with_id = without).
Proof.
  rewrite !check_availability_conflict_run. do 2 eexists.
  split; [reflexivity|]. split; [reflexivity|]. split.
  - rewrite !existsb_exists. intros (r & Hr & O). exists r.
    split; [exact Hr|]. apply andb_prop in O as [O _]. now rewrite O.
  - intros H. induction (salon_reservations db) as [|r rest IH];
      [reflexivity|].
    cbn [existsb]. rewrite IH by (intros x Hx; apply H; now right).
    f_equal. unfold not_excluded.
    destruct (N.eqb_spec (Row.reservation_id r) id) as [E|N].
    + now rewrite (H r (or_introl eq_refl) E).
    + reflexivity.
Qed.
